(** * SentiNet: the [Trainer] of [trainer.py]

    A shallow embedding of the training orchestrator: the selection of the
    loss function, optimizer and scheduler, the batch accuracy, the
    train / validate epoch loop with its metric histories, and the
    checkpoint step at the end of [train].

    Conventions of the embedding.
    - Python [int] is [Z]; a Python [float] is an exact rational [Q]
      (rounding is not modelled), with [nan] added where the tensor library
      can produce it; a division whose divisor is zero raises
      [ZeroDivisionError] as Python does.
    - A tensor is a list: a batch of predictions is a list of rows, a label
      batch a list of class indices.  Shapes are assumed to agree as the
      tensor library requires (rows of a prediction batch have at least one
      class, labels and rows have the same count).
    - The model, the autograd engine, the softmax of [activation.py], the
      encoder of [encoder.py] and the file system are capabilities: fields
      of the class [Capabilities], total functions unless they return [Exc].
    - Effects are explicit: a computation maps a [State] to a result and a
      new state; the state survives an exception, and carries the trace of
      externally visible actions in the order they happen.
    - Paths follow [posixpath]. *)

From Stdlib Require Import ZArith QArith Qround List String Ascii Bool Lia.
Import ListNotations.

Local Open Scope string_scope.
Local Open Scope Z_scope.

(** ** Python values *)

(** A Python float: a rational, or nan. *)
Inductive pyfloat : Type :=
| nan
| fin (q : Q).

Definition padd (x y : pyfloat) : pyfloat :=
  match x, y with
  | fin a, fin b => fin (a + b)%Q
  | _, _ => nan
  end.

(** The exceptions the code can raise. *)
Inductive PyError : Type :=
| AttributeError (obj attr : string)
| UnboundLocalError (var : string)
| StopIteration
| ZeroDivisionError
| TypeError (msg : string)
| OSError (msg : string).

Inductive Exc (A : Type) : Type :=
| Ok (a : A)
| Raise (e : PyError).
Arguments Ok {A} a.
Arguments Raise {A} e.

Definition is_ok {A} (r : Exc A) : bool :=
  match r with Ok _ => true | Raise _ => false end.

(** [x / i] for a float [x] and an int [i]. *)
Definition pdiv_int (x : pyfloat) (i : Z) : Exc pyfloat :=
  if i =? 0 then Raise ZeroDivisionError
  else Ok (match x with nan => nan | fin q => fin (q / inject_Z i)%Q end).

(** [x / y] for two finite floats. *)
Definition fdiv (x y : Q) : Exc pyfloat :=
  if Qeq_bool y 0 then Raise ZeroDivisionError else Ok (fin (x / y)%Q).

(** ** Effects: state and exceptions

    A computation takes the state to a result and the state it leaves; an
    exception keeps the state reached when it was raised. *)

Definition M (S A : Type) : Type := S -> Exc A * S.

Definition ret {S A} (a : A) : M S A := fun s => (Ok a, s).

Definition bind {S A B} (m : M S A) (k : A -> M S B) : M S B :=
  fun s =>
    match m s with
    | (Ok a, s') => k a s'
    | (Raise e, s') => (Raise e, s')
    end.

Definition raise {S A} (e : PyError) : M S A := fun s => (Raise e, s).

Definition lift {S A} (r : Exc A) : M S A := fun s => (r, s).

Definition gets {S A} (f : S -> A) : M S A := fun s => (Ok (f s), s).

Definition modify {S} (f : S -> S) : M S unit := fun s => (Ok tt, f s).

Declare Scope py_scope.
Delimit Scope py_scope with py.
Notation "x <- m ;; k" := (bind m (fun x => k))
  (at level 61, m at next level, right associativity) : py_scope.
Notation "' p <- m ;; k" := (bind m (fun x => let p := x in k))
  (at level 61, p pattern, m at next level, right associativity) : py_scope.
Notation "m ;; k" := (bind m (fun _ => k))
  (at level 61, right associativity) : py_scope.
Local Open Scope py_scope.

(** [for idx in range(n): v = body(idx, v)], from index [idx]. *)
Fixpoint for_range {S V} (n : nat) (idx : Z) (body : Z -> V -> M S V) (v : V)
  : M S V :=
  match n with
  | O => ret v
  | S n' => v' <- body idx v ;; for_range n' (idx + 1) body v'
  end.

(** A local variable is unbound until an assignment runs. *)
Definition local {S A} (name : string) (v : option A) : M S A :=
  match v with
  | Some a => ret a
  | None => raise (UnboundLocalError name)
  end.

(** ** posixpath.dirname *)

Definition sep : ascii := "/"%char.

Definition is_sep (c : ascii) : bool := Ascii.eqb c sep.

Fixpoint dropWhile {A} (f : A -> bool) (l : list A) : list A :=
  match l with
  | [] => []
  | x :: r => if f x then dropWhile f r else l
  end.

(** [p[:p.rfind('/') + 1]] *)
Definition head_part (p : list ascii) : list ascii :=
  rev (dropWhile (fun c => negb (is_sep c)) (rev p)).

(** [head.rstrip('/')] *)
Definition rstrip_sep (h : list ascii) : list ascii :=
  rev (dropWhile is_sep (rev h)).

Definition dirname_chars (p : list ascii) : list ascii :=
  let head := head_part p in
  match head with
  | [] => head
  | _ => if forallb is_sep head then head else rstrip_sep head
  end.

Definition dirname (p : string) : string :=
  string_of_list_ascii (dirname_chars (list_ascii_of_string p)).

(** [os.fspath], the first thing [os.path.dirname] does to its argument:
    [None] is not a path. *)
Definition os_fspath (p : option string) : Exc string :=
  match p with
  | None =>
      Raise (TypeError "expected str, bytes or os.PathLike object, not NoneType")
  | Some s => Ok s
  end.

(** ** Tensors and the objects of the optimisation plan *)

Record Batch : Type := {
  input_batch : list (list Z);
  label_batch : list Z;
  mask_batch : list (list Z)
}.

(** The loss classes exported by [torch.nn]. *)
Inductive LossFn : Type :=
| L1Loss | MSELoss | CrossEntropyLoss | CTCLoss | NLLLoss | PoissonNLLLoss
| GaussianNLLLoss | KLDivLoss | BCELoss | BCEWithLogitsLoss
| MarginRankingLoss | HingeEmbeddingLoss | MultiLabelMarginLoss | HuberLoss
| SmoothL1Loss | SoftMarginLoss | MultiLabelSoftMarginLoss
| CosineEmbeddingLoss | MultiMarginLoss | TripletMarginLoss
| TripletMarginWithDistanceLoss.

(** The namespace of [torch.nn], restricted to its loss classes (its other
    attributes are layers, containers and functions, under other names). *)
Definition torch_nn : list (string * LossFn) :=
  [ ("L1Loss", L1Loss); ("MSELoss", MSELoss);
    ("CrossEntropyLoss", CrossEntropyLoss); ("CTCLoss", CTCLoss);
    ("NLLLoss", NLLLoss); ("PoissonNLLLoss", PoissonNLLLoss);
    ("GaussianNLLLoss", GaussianNLLLoss); ("KLDivLoss", KLDivLoss);
    ("BCELoss", BCELoss); ("BCEWithLogitsLoss", BCEWithLogitsLoss);
    ("MarginRankingLoss", MarginRankingLoss);
    ("HingeEmbeddingLoss", HingeEmbeddingLoss);
    ("MultiLabelMarginLoss", MultiLabelMarginLoss); ("HuberLoss", HuberLoss);
    ("SmoothL1Loss", SmoothL1Loss); ("SoftMarginLoss", SoftMarginLoss);
    ("MultiLabelSoftMarginLoss", MultiLabelSoftMarginLoss);
    ("CosineEmbeddingLoss", CosineEmbeddingLoss);
    ("MultiMarginLoss", MultiMarginLoss);
    ("TripletMarginLoss", TripletMarginLoss);
    ("TripletMarginWithDistanceLoss", TripletMarginWithDistanceLoss) ].

Fixpoint assoc {A} (k : string) (l : list (string * A)) : option A :=
  match l with
  | [] => None
  | (k', v) :: r => if String.eqb k k' then Some v else assoc k r
  end.

(** [nn.<name>()] : attribute lookup on the module, then the call. *)
Definition nn_new (name : string) : Exc LossFn :=
  match assoc name torch_nn with
  | Some c => Ok c
  | None => Raise (AttributeError "torch.nn" name)
  end.

Inductive OptimKind : Type := RAdam | AdamW.

Record Optimizer : Type := {
  opt_kind : OptimKind;
  opt_lr : Q;
  opt_betas : Q * Q;
  opt_eps : Q;
  opt_weight_decay : Q
}.

(** [ExponentialLR]: holds the decay factor; the optimizer it refers to is
    the one of the plan. *)
Record Scheduler : Type := { gamma : Q }.

(** [lr_scheduler.step()]: the learning rate of the optimizer is multiplied
    by gamma. *)
Definition scheduler_step (s : Scheduler) (o : Optimizer) : Optimizer :=
  {| opt_kind := opt_kind o;
     opt_lr := (opt_lr o * gamma s)%Q;
     opt_betas := opt_betas o;
     opt_eps := opt_eps o;
     opt_weight_decay := opt_weight_decay o |}.

(** ** Capabilities *)

Record EncoderArgs : Type := {
  ea_vocab_size : Z; ea_out_size : Z; ea_max_seq_len : Z; ea_padding_idx : Z;
  ea_pooling : string; ea_embedding_dim : Z; ea_num_blocks : Z;
  ea_activation : string; ea_expansion_factor : Z; ea_num_heads : Z;
  ea_dropout : option Q
}.

Class Capabilities : Type := {
  (** the model object: parameters, gradients, mode, device *)
  Model : Type;
  FileSystem : Type;
  Encoder : EncoderArgs -> Model;
  cuda_is_available : bool;
  model_to : string -> Model -> Model;
  (** [model.train(flag)]; [model.eval()] is [model.train(False)] *)
  model_train : bool -> Model -> Model;
  (** [model(input_batch, mask)] *)
  model_call : Model -> list (list Z) -> list (list Z) -> list (list Q);
  (** [criteration(y_pred, label).item()] *)
  loss_item : LossFn -> list (list Q) -> list Z -> pyfloat;
  zero_grad : Model -> Model;
  (** [loss.backward()] *)
  backward : LossFn -> list (list Q) -> list Z -> Model -> Model;
  (** [optimizer.step()] *)
  optimizer_step : Optimizer -> Model -> Model;
  (** [Softmax(-1)] of [activation.py], on one row *)
  softmax : list Q -> list Q;
  isdir : FileSystem -> string -> bool;
  mkdir : string -> FileSystem -> Exc FileSystem;
  (** [torch.save(model.state_dict(), path)] *)
  torch_save : Model -> string -> FileSystem -> Exc FileSystem
}.

(** ** The trainer, its state, and the effects of [train] *)

(** The attributes set by [__init__] and never assigned again. *)
Record Trainer : Type := {
  batch_per_epoch_train : Z;
  batch_per_epoch_eval : Z;
  enc_vocab_size : Z;
  out_size : Z;
  max_seq_len : Z;
  d_model : Z;
  padding_id : Z;
  pooling : string;
  num_heads : Z;
  expansion_factor : Z;
  num_blocks : Z;
  activation : string;
  dropout_rate : option Q;
  criterator : string;
  optimizer_type : string
}.

(** What the print statements of the file write. *)
Inductive Message : Type :=
| MsgPreparingModel
| MsgPreparedModel
| MsgPreparingPlan
| MsgInitialised
| MsgTraining
| MsgAverageTrainingLoss (epoch num_epochs : Z) (v : pyfloat)
| MsgValidating
| MsgValidationAccuracy (epoch num_epochs : Z) (v : pyfloat)
| MsgTrainingFinished
| MsgCheckingPath
| MsgCreatingDirectory
| MsgSavingAt (p : string).

(** The actions visible outside [train], in program order. *)
Inductive Event : Type :=
| Print (m : Message)
| NewOptimizer (o : Optimizer)
| NewScheduler (s : Scheduler)
| ModelTrain (flag : bool)
| NextTrain
| NextTest
| ZeroGrad
| Forward
| Backward
| OptimizerStep
| SchedulerStep
| Mkdir (p : string)
| Save (p : string).

(** The attributes and objects that change while the trainer runs: the two
    batch sources (the batches they have still to yield), [self.device]
    (unset until [prepare_model] runs), [self.model_save_path], the model
    object, the file system and the trace. *)
Record StateOf (Mo Fs : Type) : Type := mkState {
  train_generator : list Batch;
  test_generator : list Batch;
  device : option string;
  model_save_path : option string;
  model : Mo;
  fs : Fs;
  trace : list Event
}.
Arguments mkState {Mo Fs}.
Arguments train_generator {Mo Fs}.
Arguments test_generator {Mo Fs}.
Arguments device {Mo Fs}.
Arguments model_save_path {Mo Fs}.
Arguments model {Mo Fs}.
Arguments fs {Mo Fs}.
Arguments trace {Mo Fs}.

(** The state over the model and the file system of the capabilities. *)
Abbreviation State := (StateOf Model FileSystem) (only parsing).

Section WithCapabilities.

Context {C : Capabilities}.

Definition set_trace (t : list Event) (s : State) : State :=
  mkState (train_generator s) (test_generator s) (device s)
          (model_save_path s) (model s) (fs s) t.

Definition set_model (m : Model) (s : State) : State :=
  mkState (train_generator s) (test_generator s) (device s)
          (model_save_path s) m (fs s) (trace s).

Definition set_fs (f : FileSystem) (s : State) : State :=
  mkState (train_generator s) (test_generator s) (device s)
          (model_save_path s) (model s) f (trace s).


Definition set_model_save_path (p : option string) (s : State) : State :=
  mkState (train_generator s) (test_generator s) (device s)
          p (model s) (fs s) (trace s).

Definition set_train_generator (g : list Batch) (s : State) : State :=
  mkState g (test_generator s) (device s)
          (model_save_path s) (model s) (fs s) (trace s).

Definition set_test_generator (g : list Batch) (s : State) : State :=
  mkState (train_generator s) g (device s)
          (model_save_path s) (model s) (fs s) (trace s).

Definition emit (e : Event) : M State unit :=
  modify (fun s => set_trace (trace s ++ [e]) s).

(** A call on the model object, recorded in the trace. *)
Definition on_model (e : Event) (f : Model -> Model) : M State unit :=
  modify (fun s => set_model (f (model s)) s) ;; emit e.

(** [next(self.train_generator)] *)
Definition next_train : M State Batch :=
  g <- gets train_generator ;;
  match g with
  | [] => raise StopIteration
  | b :: r => modify (set_train_generator r) ;; emit NextTrain ;; ret b
  end.

(** [next(self.test_generator)] *)
Definition next_test : M State Batch :=
  g <- gets test_generator ;;
  match g with
  | [] => raise StopIteration
  | b :: r => modify (set_test_generator r) ;; emit NextTest ;; ret b
  end.

(** Reading [self.device], as [x.to(self.device)] does. *)
Definition self_device : M State string :=
  d <- gets device ;;
  match d with
  | None => raise (AttributeError "Trainer" "device")
  | Some x => ret x
  end.

(** ** prepare_model *)


(** ** prepare_lossfn_optims_lr_scheduler *)

Definition new_optimizer (k : OptimKind) (lr wd : Q) : M State Optimizer :=
  let o := {| opt_kind := k; opt_lr := lr;
              opt_betas := (9 # 10, 999 # 1000)%Q;
              opt_eps := (1 # 1000000)%Q;
              opt_weight_decay := wd |} in
  emit (NewOptimizer o) ;; ret o.

Definition prepare_lossfn_optims_lr_scheduler (self : Trainer)
    (lr wd gm : Q) : M State (LossFn * Optimizer * Scheduler) :=
  loss_fn <- (if String.eqb (criterator self) "bce" then
                f <- lift (nn_new "BCE") ;; ret (Some f)
              else if String.eqb (criterator self) "cel" then
                f <- lift (nn_new "CrossEntropyLoss") ;; ret (Some f)
              else ret None) ;;
  optimizer <- (if String.eqb (optimizer_type self) "radam" then
                  o <- new_optimizer RAdam lr wd ;; ret (Some o)
                else if String.eqb (optimizer_type self) "adamw" then
                  o <- new_optimizer AdamW lr wd ;; ret (Some o)
                else ret None) ;;
  o <- local "optimizer" optimizer ;;
  let scheduler := {| gamma := gm |} in
  emit (NewScheduler scheduler) ;;
  f <- local "loss_fn" loss_fn ;;
  ret (f, o, scheduler).


(** ** accuracy *)

Definition Qltb (x y : Q) : bool := negb (Qle_bool y x).

(** [torch.argmax] on one row: the index of the first maximal value.
    [best] at index [besti] is the maximum so far, [i] the next index. *)
Fixpoint argmax_from (best : Q) (besti i : Z) (row : list Q) : Z :=
  match row with
  | [] => besti
  | x :: r =>
      if Qltb best x then argmax_from x i (i + 1) r
      else argmax_from best besti (i + 1) r
  end.

Definition argmax (row : list Q) : Z :=
  match row with
  | [] => 0
  | x :: r => argmax_from x 0 1 r
  end.

(** [torch.argmax(self.softmax(y_pred), dim=1)] *)
Definition predicted_class (y_pred : list (list Q)) : list Z :=
  map (fun row => argmax (softmax row)) y_pred.

(** [a == b], element by element *)
Definition tensor_eq (a b : list Z) : list bool :=
  map (fun xy => fst xy =? snd xy) (combine a b).

(** [.float()] *)
Definition to_float (l : list bool) : list Q :=
  map (fun b : bool => if b then 1%Q else 0%Q) l.

Definition Qsum (l : list Q) : Q := fold_right Qplus 0%Q l.

(** [.mean()]: nan on an empty tensor. *)
Definition mean (l : list Q) : pyfloat :=
  match l with
  | [] => nan
  | _ => fin (Qsum l / inject_Z (Z.of_nat (List.length l)))%Q
  end.

Definition accuracy (y_pred : list (list Q)) (y_target : list Z) : pyfloat :=
  mean (to_float (tensor_eq (predicted_class y_pred) y_target)).

(** [(... == label).sum().item()] *)
Definition count_true (l : list bool) : Z :=
  Z.of_nat (List.length (filter (fun b : bool => b) l)).

Definition correct_count (pred : list (list Q)) (label : list Z) : Z :=
  count_true (tensor_eq (predicted_class pred) label).

(** ** train *)

(** The local variables of [train] that live across epochs. *)
Record Locals : Type := mkLocals {
  train_loss : list pyfloat;
  train_acc : list pyfloat;
  test_acc : list pyfloat;
  i : option Z;
  optimizer : Optimizer
}.

(** One iteration of the training loop (lines 215-263); [running] is
    [running_train_loss]. *)
Definition train_step (criteration : LossFn) (idx : Z)
    (v : Locals * pyfloat) : M State (Locals * pyfloat) :=
  let (loc, running) := v in
  b <- next_train ;;
  _ <- self_device ;;
  on_model ZeroGrad zero_grad ;;
  m <- gets model ;;
  let y_pred := model_call m (input_batch b) (mask_batch b) in
  emit Forward ;;
  let loss := loss_item criteration y_pred (label_batch b) in
  let acc := accuracy y_pred (label_batch b) in
  on_model Backward (backward criteration y_pred (label_batch b)) ;;
  on_model OptimizerStep (optimizer_step (optimizer loc)) ;;
  ret (mkLocals (train_loss loc ++ [loss]) (train_acc loc ++ [acc])
                (test_acc loc) (Some idx) (optimizer loc),
       padd running loss).

(** One iteration of the validation loop (lines 276-293). *)
Definition eval_step (idx : Z) (v : Locals * (Q * Q))
  : M State (Locals * (Q * Q)) :=
  let '(loc, (correct_prediction, total)) := v in
  b <- next_test ;;
  _ <- self_device ;;
  m <- gets model ;;
  let pred := model_call m (input_batch b) (mask_batch b) in
  emit Forward ;;
  let acc := accuracy pred (label_batch b) in
  ret (mkLocals (train_loss loc) (train_acc loc) (test_acc loc ++ [acc])
                (Some idx) (optimizer loc),
       ((correct_prediction
           + inject_Z (correct_count pred (label_batch b)))%Q,
        (total + inject_Z (Z.of_nat (List.length (input_batch b))))%Q)).

(** The training phase of one epoch (lines 208-265). *)
Definition train_phase (self : Trainer) (criteration : LossFn)
    (epoch num_epochs : Z) (loc : Locals) : M State Locals :=
  on_model (ModelTrain true) (model_train true) ;;
  emit (Print MsgTraining) ;;
  v <- for_range (Z.to_nat (batch_per_epoch_train self)) 0
                 (train_step criteration) (loc, fin 0%Q) ;;
  let (loc, running_train_loss) := v : Locals * pyfloat in
  idx <- local "i" (i loc) ;;
  avg <- lift (pdiv_int running_train_loss idx) ;;
  emit (Print (MsgAverageTrainingLoss epoch num_epochs avg)) ;;
  ret loc.

(** The validation phase of one epoch (lines 267-295). *)
Definition eval_phase (self : Trainer) (epoch num_epochs : Z) (loc : Locals)
  : M State Locals :=
  on_model (ModelTrain false) (model_train false) ;;
  emit (Print MsgValidating) ;;
  v <- for_range (Z.to_nat (batch_per_epoch_eval self)) 0
                 eval_step (loc, (0%Q, 0%Q)) ;;
  let '(loc, (correct_prediction, total)) := v : Locals * (Q * Q) in
  r <- lift (fdiv correct_prediction total) ;;
  emit (Print (MsgValidationAccuracy epoch num_epochs r)) ;;
  ret loc.

(** The body of the epoch loop (lines 206-297). *)
Definition epoch_body (self : Trainer) (criteration : LossFn)
    (lr_scheduler : Scheduler) (num_epochs epoch : Z) (loc : Locals)
  : M State Locals :=
  loc <- train_phase self criteration epoch num_epochs loc ;;
  loc <- eval_phase self epoch num_epochs loc ;;
  emit SchedulerStep ;;
  ret (mkLocals (train_loss loc) (train_acc loc) (test_acc loc) (i loc)
                (scheduler_step lr_scheduler (optimizer loc))).

(** [train] up to the end of the epoch loop (lines 198-297). *)
Definition run_epochs (self : Trainer) (mdl : Model) (num_epochs : Z)
    (learning_rate weight_decay gm : Q) : M State Locals :=
  modify (set_model mdl) ;;
  emit (Print MsgPreparingPlan) ;;
  plan <- prepare_lossfn_optims_lr_scheduler self learning_rate
                                             weight_decay gm ;;
  let '(criteration, opt, lr_scheduler) :=
    plan : LossFn * Optimizer * Scheduler in
  emit (Print MsgInitialised) ;;
  for_range (Z.to_nat num_epochs) 1
            (epoch_body self criteration lr_scheduler num_epochs)
            (mkLocals [] [] [] None opt).

(** The checkpoint step (lines 299-315); returns [self.model_save_path].
    [os.path.dirname(self.model_save_path)] is [os_fspath] then [dirname]. *)
Definition save_checkpoint : M State string :=
  emit (Print MsgTrainingFinished) ;;
  emit (Print MsgCheckingPath) ;;
  p <- gets model_save_path ;;
  path <- lift (os_fspath p) ;;
  f <- gets fs ;;
  if negb (isdir f (dirname path)) then
    emit (Print MsgCreatingDirectory) ;;
    f' <- lift (mkdir (dirname path) f) ;;
    modify (set_fs f') ;;
    emit (Mkdir (dirname path)) ;;
    let path' := dirname path ++ "/imd-sa.bin" in
    modify (set_model_save_path (Some path')) ;;
    emit (Print (MsgSavingAt (dirname path' ++ "/imdb-sa.bin"))) ;;
    m <- gets model ;;
    f <- gets fs ;;
    f' <- lift (torch_save m path' f) ;;
    modify (set_fs f') ;;
    emit (Save path') ;;
    ret path'
  else
    emit (Print (MsgSavingAt path)) ;;
    m <- gets model ;;
    f' <- lift (torch_save m path f) ;;
    modify (set_fs f') ;;
    emit (Save path) ;;
    ret path.

Definition train (self : Trainer) (mdl : Model) (num_epochs : Z)
    (learning_rate weight_decay gm : Q)
  : M State (list pyfloat * list pyfloat * list pyfloat * string) :=
  loc <- run_epochs self mdl num_epochs learning_rate weight_decay gm ;;
  path <- save_checkpoint ;;
  ret (train_loss loc, train_acc loc, test_acc loc, path).

End WithCapabilities.

Definition Zsum (l : list Z) : Z := fold_right Z.add 0 l.

(** ** A small instance of the capabilities

    A two-class linear scorer over token sums with one parameter, a
    piecewise-linear base-2 exponential for the softmax, and a file system
    that is a list of directories and a list of files.  It makes the
    embedding run on concrete inputs. *)

Module Toy.

(** [2^floor(x) * (1 + frac(x))]: positive and strictly increasing. *)
Definition exp2 (x : Q) : Q :=
  (Qpower 2 (Qfloor x) * (1 + x - inject_Z (Qfloor x)))%Q.

Definition toy_softmax (row : list Q) : list Q :=
  let e := map exp2 row in
  let total := fold_right Qplus 0%Q e in
  map (fun x => Qred (x / total)) e.

(** The parameter is a threshold: class 1 scores the token sum, class 0
    the threshold. *)
Definition toy_call (w : Q) (input mask : list (list Z)) : list (list Q) :=
  map (fun row => [w; inject_Z (Zsum row)]) input.

Definition toy_loss (f : LossFn) (y_pred : list (list Q)) (label : list Z)
  : pyfloat :=
  fin (inject_Z (Z.of_nat (List.length y_pred)
                 - Z.of_nat (List.length
                      (filter (fun b : bool => b)
                         (map (fun xy => fst xy =? snd xy)
                            (combine (map argmax y_pred) label)))))).

Record Disk : Type := { dirs : list string; files : list string }.

Definition has (l : list string) (p : string) : bool :=
  existsb (String.eqb p) l.

Definition toy_mkdir (d : string) (f : Disk) : Exc Disk :=
  if String.eqb d "" then Raise (OSError "No such file or directory")
  else if has (dirs f) d then Raise (OSError "File exists")
  else Ok {| dirs := d :: dirs f; files := files f |}.

Definition toy_save (w : Q) (p : string) (f : Disk) : Exc Disk :=
  if has (dirs f) (dirname p) then
    Ok {| dirs := dirs f; files := p :: files f |}
  else Raise (OSError "No such file or directory").

Definition caps : Capabilities := {|
  Model := Q;
  FileSystem := Disk;
  Encoder := fun _ => 0%Q;
  cuda_is_available := false;
  model_to := fun _ w => w;
  model_train := fun _ w => w;
  model_call := toy_call;
  loss_item := toy_loss;
  zero_grad := fun w => w;
  backward := fun _ _ _ w => w;
  optimizer_step := fun o w => Qred (w + opt_lr o)%Q;
  softmax := toy_softmax;
  isdir := fun f d => has (dirs f) d;
  mkdir := toy_mkdir;
  torch_save := toy_save
|}.

End Toy.

(** ** Concrete trainers and states, over the small instance *)

Module Example.

Definition one_right : Batch :=
  {| input_batch := [[5]]; label_batch := [1]; mask_batch := [[1]] |}.

Definition three_wrong : Batch :=
  {| input_batch := [[0]; [0]; [0]]; label_batch := [1; 1; 1];
     mask_batch := [[1]; [1]; [1]] |}.

Definition mixed : Batch :=
  {| input_batch := [[1; 2]; [0; 0]]; label_batch := [0; 0];
     mask_batch := [[1; 1]; [1; 1]] |}.

Definition trainer (n_train n_eval : Z) (loss opt : string) : Trainer :=
  {| batch_per_epoch_train := n_train; batch_per_epoch_eval := n_eval;
     enc_vocab_size := 10; out_size := 2; max_seq_len := 4; d_model := 8;
     padding_id := 0; pooling := "max"; num_heads := 4;
     expansion_factor := 2; num_blocks := 2; activation := "relu";
     dropout_rate := None; criterator := loss; optimizer_type := opt |}.

Definition state (path : option string) : StateOf Q Toy.Disk :=
  mkState
    [mixed; three_wrong; mixed; one_right]
    [one_right; three_wrong; three_wrong; one_right]
    (Some "cpu") path (1 # 2)%Q
    {| Toy.dirs := []; Toy.files := [] |} [].

Definition run (self : Trainer) (num_epochs : Z) (path : option string) :=
  train (C := Toy.caps) self (1 # 2)%Q num_epochs (1 # 1000)%Q (1 # 10000)%Q
        (1 # 10)%Q (state path).

Definition ok_trainer : Trainer := trainer 2 2 "cel" "adamw".

(** The locals of [train] when the first epoch starts. *)
Definition first_locals : Locals :=
  mkLocals [] [] [] None
    {| opt_kind := AdamW; opt_lr := (1 # 1000)%Q;
       opt_betas := (9 # 10, 999 # 1000)%Q; opt_eps := (1 # 1000000)%Q;
       opt_weight_decay := (1 # 10000)%Q |}.

Definition logits : list (list Q) :=
  [[(1 # 2); 3; (-2)]; [0; (-1 # 3); (-1 # 3)]; [(5 # 2); (5 # 2); 1]]%Q.

Definition labels : list Z := [1; 0; 1].

(** Doubling and shifting each logit keeps the arg-max of every row. *)
Definition rescale (row : list Q) : list Q :=
  map (fun x => 2 * x + 1)%Q row.

Definition value {A} (d : A) (r : Exc A) : A :=
  match r with Ok a => a | Raise _ => d end.

Definition path_state : StateOf Q Toy.Disk := state (Some "out/model.bin").

(** The epoch loop of two epochs on [path_state], evaluated. *)
Definition epochs_locals : Locals :=
  Eval vm_compute in
    value first_locals
      (fst (run_epochs (C := Toy.caps) ok_trainer (1 # 2)%Q 2 (1 # 1000)%Q
                       (1 # 10000)%Q (1 # 10)%Q path_state)).

Definition epochs_state : StateOf Q Toy.Disk :=
  Eval vm_compute in
    snd (run_epochs (C := Toy.caps) ok_trainer (1 # 2)%Q 2 (1 # 1000)%Q
                    (1 # 10000)%Q (1 # 10)%Q path_state).

(** The same loop when the save path was left at [None]. *)
Definition epochs_state_no_path : StateOf Q Toy.Disk :=
  Eval vm_compute in
    snd (run_epochs (C := Toy.caps) ok_trainer (1 # 2)%Q 2 (1 # 1000)%Q
                    (1 # 10000)%Q (1 # 10)%Q (state None)).

(** The whole call on [path_state], evaluated. *)
Definition final_state : StateOf Q Toy.Disk :=
  Eval vm_compute in
    snd (train (C := Toy.caps) ok_trainer (1 # 2)%Q 2 (1 # 1000)%Q
               (1 # 10000)%Q (1 # 10)%Q path_state).

(** The first training phase and the first validation phase on
    [path_state], evaluated. *)
Definition trained_locals : Locals :=
  Eval vm_compute in
    value first_locals
      (fst (train_phase (C := Toy.caps) ok_trainer CrossEntropyLoss 1 1
                        first_locals path_state)).

Definition trained_state : StateOf Q Toy.Disk :=
  Eval vm_compute in
    snd (train_phase (C := Toy.caps) ok_trainer CrossEntropyLoss 1 1
                     first_locals path_state).

Definition validated_locals : Locals :=
  Eval vm_compute in
    value first_locals
      (fst (eval_phase (C := Toy.caps) ok_trainer 1 1 first_locals
                       path_state)).

Definition validated_state : StateOf Q Toy.Disk :=
  Eval vm_compute in
    snd (eval_phase (C := Toy.caps) ok_trainer 1 1 first_locals path_state).

End Example.

(** ** Further concrete cases *)

Module Cases.

(** A trainer state on which [prepare_model] has not run. *)
Definition no_device : StateOf Q Toy.Disk :=
  mkState
    [Example.mixed; Example.three_wrong; Example.mixed; Example.one_right]
    [Example.one_right; Example.three_wrong; Example.three_wrong;
     Example.one_right]
    None (Some "out/model.bin") (1 # 2)%Q
    {| Toy.dirs := []; Toy.files := [] |} [].

(** A state whose disk already has the directory [out]. *)
Definition ready (path : string) : StateOf Q Toy.Disk :=
  mkState
    [Example.mixed; Example.three_wrong; Example.mixed; Example.one_right]
    [Example.one_right; Example.three_wrong; Example.three_wrong;
     Example.one_right]
    (Some "cpu") (Some path) (1 # 2)%Q
    {| Toy.dirs := ["out"]; Toy.files := [] |} [].

Definition ready_epochs_state : StateOf Q Toy.Disk :=
  Eval vm_compute in
    snd (run_epochs (C := Toy.caps) Example.ok_trainer (1 # 2)%Q 2
                    (1 # 1000)%Q (1 # 10000)%Q (1 # 10)%Q
                    (ready "out/model.bin")).

Definition rewritten_epochs_state : StateOf Q Toy.Disk :=
  Eval vm_compute in
    snd (run_epochs (C := Toy.caps) Example.ok_trainer (1 # 2)%Q 2
                    (1 # 1000)%Q (1 # 10000)%Q (1 # 10)%Q
                    (ready "out/imd-sa.bin")).

(** A save path without directory part: its directory name is empty. *)
Definition bare_state : StateOf Q Toy.Disk := Example.state (Some "model.bin").

Definition bare_epochs_state : StateOf Q Toy.Disk :=
  Eval vm_compute in
    snd (run_epochs (C := Toy.caps) Example.ok_trainer (1 # 2)%Q 2
                    (1 # 1000)%Q (1 # 10000)%Q (1 # 10)%Q bare_state).

(** The small instance on a disk with no space left: every save fails. *)
Definition full_disk : Capabilities := {|
  Model := Q;
  FileSystem := Toy.Disk;
  Encoder := fun _ => 0%Q;
  cuda_is_available := false;
  model_to := fun _ w => w;
  model_train := fun _ w => w;
  model_call := Toy.toy_call;
  loss_item := Toy.toy_loss;
  zero_grad := fun w => w;
  backward := fun _ _ _ w => w;
  optimizer_step := fun o w => Qred (w + opt_lr o)%Q;
  softmax := Toy.toy_softmax;
  isdir := fun f d => Toy.has (Toy.dirs f) d;
  mkdir := Toy.toy_mkdir;
  torch_save := fun _ _ _ => Raise (OSError "No space left on device")
|}.

Definition full_epochs_locals : Locals :=
  Eval vm_compute in
    Example.value Example.first_locals
      (fst (run_epochs (C := full_disk) Example.ok_trainer (1 # 2)%Q 2
                       (1 # 1000)%Q (1 # 10000)%Q (1 # 10)%Q
                       Example.path_state)).

Definition full_epochs_state : StateOf Q Toy.Disk :=
  Eval vm_compute in
    snd (run_epochs (C := full_disk) Example.ok_trainer (1 # 2)%Q 2
                    (1 # 1000)%Q (1 # 10000)%Q (1 # 10)%Q
                    Example.path_state).

(** The first of two epochs on [Example.path_state], and the second. *)
Definition scheduler : Scheduler := {| gamma := (1 # 10)%Q |}.

Definition after_first_locals : Locals :=
  Eval vm_compute in
    Example.value Example.first_locals
      (fst (for_range 1 1
              (epoch_body (C := Toy.caps) Example.ok_trainer CrossEntropyLoss
                          scheduler 2)
              Example.first_locals Example.path_state)).

Definition after_first_state : StateOf Q Toy.Disk :=
  Eval vm_compute in
    snd (for_range 1 1
           (epoch_body (C := Toy.caps) Example.ok_trainer CrossEntropyLoss
                       scheduler 2)
           Example.first_locals Example.path_state).

Definition after_second_locals : Locals :=
  Eval vm_compute in
    Example.value Example.first_locals
      (fst (for_range 1 2
              (epoch_body (C := Toy.caps) Example.ok_trainer CrossEntropyLoss
                          scheduler 2)
              after_first_locals after_first_state)).

Definition after_second_state : StateOf Q Toy.Disk :=
  Eval vm_compute in
    snd (for_range 1 2
           (epoch_body (C := Toy.caps) Example.ok_trainer CrossEntropyLoss
                       scheduler 2)
           after_first_locals after_first_state).

End Cases.

(** ** Vocabulary of the statements *)

(** A relation between the state before and the state after a computation,
    whatever its outcome. *)
Definition always {S A} (R : S -> S -> Prop) (m : M S A) : Prop :=
  forall s, R s (snd (m s)).

(** The events of one training batch and of one validation batch. *)
Definition train_block : list Event :=
  [NextTrain; ZeroGrad; Forward; Backward; OptimizerStep].

Definition eval_block : list Event := [NextTest; Forward].

(** Events that touch the file system. *)
Definition is_fs_event (e : Event) : bool :=
  match e with
  | Mkdir _ | Save _ => true
  | _ => false
  end.

(** Events that no training or validation phase produces. *)
Definition is_foreign (e : Event) : bool :=
  match e with
  | Mkdir _ | Save _ | SchedulerStep => true
  | _ => false
  end.

(** The events that mark the phases of an epoch: the mode switches of the
    model, the pulls from the two batch sources, the scheduler step. *)
Definition is_mark (e : Event) : bool :=
  match e with
  | ModelTrain _ | NextTrain | NextTest | SchedulerStep => true
  | _ => false
  end.

Definition marks (t : list Event) : list Event := filter is_mark t.

Definition is_next_train (e : Event) : bool :=
  match e with NextTrain => true | _ => false end.

Definition is_next_test (e : Event) : bool :=
  match e with NextTest => true | _ => false end.

Definition is_scheduler_step (e : Event) : bool :=
  match e with SchedulerStep => true | _ => false end.

(** How many events of [t] satisfy [p]. *)
Definition count (p : Event -> bool) (t : list Event) : nat :=
  List.length (filter p t).

(** The marks of one complete epoch with [nt] training batches and [ne]
    validation batches. *)
Definition epoch_marks (nt ne : nat) : list Event :=
  [ModelTrain true] ++ repeat NextTrain nt
    ++ [ModelTrain false] ++ repeat NextTest ne ++ [SchedulerStep].

(** The index variable after [n] iterations from [idx]. *)
Definition last_index (n : nat) (idx : Z) (before : option Z) : option Z :=
  match n with
  | O => before
  | Datatypes.S _ => Some (idx + Z.of_nat n - 1)
  end.

(** Failing fast: the call raises before it has done anything else. *)
Definition fails_fast {S A} (tr : S -> list Event) (s : S) (r : Exc A * S)
  : Prop :=
  is_ok (fst r) = false /\ tr (snd r) = tr s.

Definition recognised_loss (c : string) : bool :=
  String.eqb c "bce" || String.eqb c "cel".

Definition recognised_optimizer (o : string) : bool :=
  String.eqb o "radam" || String.eqb o "adamw".

(** A directory name that is not empty and does not end with the
    separator. *)
Definition proper_dir (d : string) : bool :=
  match rev (list_ascii_of_string d) with
  | [] => false
  | c :: _ => negb (is_sep c)
  end.

(** Modelled from the spec: [activation.Softmax] is not among the sources;
    the spec takes it as a pure function that is order-preserving within
    each row.  [order_preserving row s] says that [s], the softmax of
    [row], has the length of [row] and orders every two positions as [row]
    does. *)
Definition order_preserving (row s : list Q) : bool :=
  (List.length s =? List.length row)%nat
  && forallb (fun p : Q * Q =>
       forallb (fun q : Q * Q =>
         Bool.eqb (Qltb (fst p) (fst q)) (Qltb (snd p) (snd q)))
         (combine row s))
       (combine row s).

Section StateVocabulary.

Context {C : Capabilities}.

(** The computation leaves the checkpoint path and the file system alone
    and adds to the trace no event that [P] selects. *)
Definition silent (P : Event -> bool) (s s' : State) : Prop :=
  model_save_path s' = model_save_path s /\
  fs s' = fs s /\
  exists t, trace s' = (trace s ++ t)%list /\ existsb P t = false.

(** The computation adds no phase mark to the trace. *)
Definition unmarked (s s' : State) : Prop :=
  exists t, trace s' = (trace s ++ t)%list /\ marks t = [].

(** What the validation loop computes on one batch [b] with the model [m]. *)
Definition batch_pred (m : Model) (b : Batch) : list (list Q) :=
  model_call m (input_batch b) (mask_batch b).

Definition batch_accuracy (m : Model) (b : Batch) : pyfloat :=
  accuracy (batch_pred m b) (label_batch b).

Definition batch_correct (m : Model) (b : Batch) : Z :=
  correct_count (batch_pred m b) (label_batch b).

Definition batch_size (b : Batch) : Z := Z.of_nat (List.length (input_batch b)).

End StateVocabulary.

(** The epoch loop makes no directory and saves no file. *)
Abbreviation quiet := (silent is_fs_event).

(** ** Vocabulary of the further properties *)

(** The optimizer that the plan builds for a recognised optimizer kind. *)
Definition plan_optimizer (self : Trainer) (lr wd : Q) : Optimizer :=
  {| opt_kind := if String.eqb (optimizer_type self) "radam" then RAdam
                 else AdamW;
     opt_lr := lr;
     opt_betas := (9 # 10, 999 # 1000)%Q;
     opt_eps := (1 # 1000000)%Q;
     opt_weight_decay := wd |}.



(** The locals of [train] when the epoch loop starts. *)
Definition entry_locals (self : Trainer) (lr wd : Q) : Locals :=
  mkLocals [] [] [] None (plan_optimizer self lr wd).

(** Events of the autograd engine that change the model parameters or
    their gradients. *)
Definition is_update (e : Event) : bool :=
  match e with
  | ZeroGrad | Backward | OptimizerStep => true
  | _ => false
  end.

(** The trace without what is printed. *)
Definition is_action (e : Event) : bool :=
  match e with
  | Print _ => false
  | _ => true
  end.

Definition actions (t : list Event) : list Event := filter is_action t.

(** The actions of one complete epoch. *)
Definition epoch_actions (nt ne : nat) : list Event :=
  ([ModelTrain true] ++ List.concat (repeat train_block nt)
     ++ [ModelTrain false] ++ List.concat (repeat eval_block ne)
     ++ [SchedulerStep])%list.

(** An accuracy value: nan, or a number between 0 and 1. *)
Definition valid_accuracy (a : pyfloat) : Prop :=
  match a with
  | nan => True
  | fin q => (0 <= q /\ q <= 1)%Q
  end.

(** Both accuracy histories hold accuracy values only. *)
Definition histories_valid (loc : Locals) : Prop :=
  Forall valid_accuracy (train_acc loc) /\ Forall valid_accuracy (test_acc loc).

Section FurtherVocabulary.

Context {C : Capabilities}.

(** The state when the epoch loop starts: the model installed, the plan
    built and announced. *)
Definition loop_entry (self : Trainer) (mdl : Model) (lr wd gm : Q)
    (s : State) : State :=
  set_trace (trace s ++ [Print MsgPreparingPlan;
                         NewOptimizer (plan_optimizer self lr wd);
                         NewScheduler {| gamma := gm |};
                         Print MsgInitialised])
            (set_model mdl s).

(** The validation phase only reads: the model object is the one it found,
    the training source is untouched, and no event updates parameters. *)
Definition reads_only (s s' : State) : Prop :=
  model s' = model s /\
  train_generator s' = train_generator s /\
  exists t, trace s' = (trace s ++ t)%list /\ existsb is_update t = false.


(** The histories of [b] continue those of [a]. *)
Definition extends (a b : Locals) : Prop :=
  (exists l, train_loss b = (train_loss a ++ l)%list) /\
  (exists l, train_acc b = (train_acc a ++ l)%list) /\
  (exists l, test_acc b = (test_acc a ++ l)%list).

(** The model object and the two batch sources are left as they were. *)
Definition keeps_model_and_sources (s s' : State) : Prop :=
  model s' = model s /\
  train_generator s' = train_generator s /\
  test_generator s' = test_generator s.

End FurtherVocabulary.

(** ** Running the monad *)

Section MonadFacts.

Context {S : Type}.

Lemma bind_ok {A B} (m : M S A) (k : A -> M S B) s a s1 :
  m s = (Ok a, s1) -> bind m k s = k a s1.
Proof. intros H. unfold bind. now rewrite H. Qed.

Lemma bind_raise {A B} (m : M S A) (k : A -> M S B) s e s1 :
  m s = (Raise e, s1) -> bind m k s = (Raise e, s1).
Proof. intros H. unfold bind. now rewrite H. Qed.

Lemma bind_inv {A B} (m : M S A) (k : A -> M S B) s b s' :
  bind m k s = (Ok b, s') ->
  exists a s1, m s = (Ok a, s1) /\ k a s1 = (Ok b, s').
Proof.
  unfold bind. destruct (m s) as [[a|e] s1]; intros H.
  - now exists a, s1.
  - discriminate.
Qed.

Lemma bind_not_ok {A B} (m : M S A) (k : A -> M S B) s :
  is_ok (fst (m s)) = false -> is_ok (fst (bind m k s)) = false.
Proof.
  unfold bind. destruct (m s) as [[a|e] s1]; simpl; intros H.
  - discriminate.
  - reflexivity.
Qed.

Lemma bind_then_not_ok {A B} (m : M S A) (k : A -> M S B) s :
  (forall a s1, m s = (Ok a, s1) -> is_ok (fst (k a s1)) = false) ->
  is_ok (fst (bind m k s)) = false.
Proof.
  unfold bind. destruct (m s) as [[a|e] s1]; intros H.
  - now apply H.
  - reflexivity.
Qed.

Section Always.

Variable R : S -> S -> Prop.
Hypothesis R_refl : forall s, R s s.
Hypothesis R_trans : forall a b c, R a b -> R b c -> R a c.

Lemma always_ret {A} (a : A) : always R (ret a).
Proof. intros s. apply R_refl. Qed.

Lemma always_raise {A} e : always R (@raise S A e).
Proof. intros s. apply R_refl. Qed.

Lemma always_lift {A} (r : Exc A) : always R (lift r).
Proof. intros s. apply R_refl. Qed.

Lemma always_gets {A} (f : S -> A) : always R (gets f).
Proof. intros s. apply R_refl. Qed.

Lemma always_local {A} name (v : option A) : always R (local name v).
Proof. intros s. destruct v; apply R_refl. Qed.

Lemma always_bind {A B} (m : M S A) (k : A -> M S B) :
  always R m -> (forall a, always R (k a)) -> always R (bind m k).
Proof.
  intros Hm Hk s. unfold bind. specialize (Hm s).
  destruct (m s) as [[a|e] s1]; simpl in *.
  - eapply R_trans; [exact Hm | apply Hk].
  - exact Hm.
Qed.

Lemma always_for_range {V} (body : Z -> V -> M S V) :
  (forall idx v, always R (body idx v)) ->
  forall n idx v, always R (for_range n idx body v).
Proof.
  intros Hb n. induction n as [|n IH]; intros idx v; simpl.
  - apply always_ret.
  - apply always_bind; [apply Hb | intros v'; apply IH].
Qed.

End Always.

(** The loop makes no iteration when the count is zero, and its first
    iteration must succeed for the loop to succeed. *)
Lemma for_range_succ_not_ok {V} (body : Z -> V -> M S V) n idx v s :
  is_ok (fst (body idx v s)) = false ->
  is_ok (fst (for_range (Datatypes.S n) idx body v s)) = false.
Proof. intros H. simpl. now apply bind_not_ok. Qed.

End MonadFacts.

(** ** The steps of the loops *)

Section Steps.

Context {C : Capabilities}.

Lemma silent_refl P (s : State) : silent P s s.
Proof.
  repeat split. exists []. split; [now rewrite app_nil_r | reflexivity].
Qed.

Lemma silent_trans P (a b c : State) :
  silent P a b -> silent P b c -> silent P a c.
Proof.
  intros (P1 & F1 & t1 & T1 & E1) (P2 & F2 & t2 & T2 & E2).
  repeat split; try congruence.
  exists (t1 ++ t2)%list. split.
  - rewrite T2, T1. now rewrite app_assoc.
  - rewrite existsb_app, E1, E2. reflexivity.
Qed.

Lemma silent_weaken (P Q : Event -> bool) (s s' : State) :
  (forall e, Q e = true -> P e = true) -> silent P s s' -> silent Q s s'.
Proof.
  intros PQ (P1 & F1 & t & T & E). repeat split; try assumption.
  exists t. split; [exact T|].
  destruct (existsb Q t) eqn:EQ; [|reflexivity].
  apply existsb_exists in EQ. destruct EQ as (e & He & Qe).
  assert (X : existsb P t = true) by (apply existsb_exists; exists e; auto).
  congruence.
Qed.

Lemma silent_emit P (e : Event) : P e = false -> always (silent P) (emit e).
Proof.
  intros He s. repeat split. exists [e]. split; [reflexivity|].
  simpl. now rewrite He.
Qed.

Lemma silent_modify P (f : State -> State) :
  (forall s, model_save_path (f s) = model_save_path s) ->
  (forall s, fs (f s) = fs s) ->
  (forall s, trace (f s) = trace s) ->
  always (silent P) (modify f).
Proof.
  intros Hp Hf Ht s. simpl. repeat split; auto.
  exists []. rewrite Ht, app_nil_r. auto.
Qed.

Lemma silent_bind P {A B} (m : M State A) (k : A -> M State B) :
  always (silent P) m -> (forall a, always (silent P) (k a)) ->
  always (silent P) (bind m k).
Proof. apply always_bind. apply silent_trans. Qed.

Lemma silent_on_model P (e : Event) (f : Model -> Model) :
  P e = false -> always (silent P) (on_model e f).
Proof.
  intros He. unfold on_model. apply silent_bind.
  - now apply silent_modify.
  - intros _. now apply silent_emit.
Qed.

Lemma silent_for_range P {V} (body : Z -> V -> M State V) :
  (forall idx v, always (silent P) (body idx v)) ->
  forall n idx v, always (silent P) (for_range n idx body v).
Proof. apply always_for_range; [apply silent_refl | apply silent_trans]. Qed.

Ltac silent_step :=
  first
    [ apply silent_emit; reflexivity
    | apply silent_on_model; reflexivity
    | apply silent_modify; reflexivity
    | apply always_ret, silent_refl
    | apply always_raise, silent_refl
    | apply always_gets, silent_refl
    | apply always_local, silent_refl
    | apply always_lift, silent_refl
    | apply silent_bind; [|intros] ].

Lemma silent_next_train : always (silent is_foreign) next_train.
Proof.
  unfold next_train. silent_step; [silent_step|].
  destruct a; repeat silent_step.
Qed.

Lemma silent_next_test : always (silent is_foreign) next_test.
Proof.
  unfold next_test. silent_step; [silent_step|].
  destruct a; repeat silent_step.
Qed.

Lemma silent_self_device : always (silent is_foreign) self_device.
Proof.
  unfold self_device. silent_step; [silent_step|].
  destruct a; repeat silent_step.
Qed.

Lemma silent_train_step criteration idx v :
  always (silent is_foreign) (train_step criteration idx v).
Proof.
  unfold train_step. destruct v as [loc running].
  silent_step; [apply silent_next_train|].
  silent_step; [apply silent_self_device|].
  repeat silent_step.
Qed.

Lemma silent_eval_step idx v : always (silent is_foreign) (eval_step idx v).
Proof.
  unfold eval_step. destruct v as [loc [c t]].
  silent_step; [apply silent_next_test|].
  silent_step; [apply silent_self_device|].
  repeat silent_step.
Qed.

Lemma silent_train_phase self criteration epoch num_epochs loc :
  always (silent is_foreign)
         (train_phase self criteration epoch num_epochs loc).
Proof.
  unfold train_phase. do 2 (silent_step; [silent_step|]).
  silent_step; [apply silent_for_range; intros; apply silent_train_step|].
  destruct a1 as [loc1 running]. repeat silent_step.
Qed.

Lemma silent_eval_phase self epoch num_epochs loc :
  always (silent is_foreign) (eval_phase self epoch num_epochs loc).
Proof.
  unfold eval_phase. do 2 (silent_step; [silent_step|]).
  silent_step; [apply silent_for_range; intros; apply silent_eval_step|].
  destruct a1 as [loc1 [c t]]. repeat silent_step.
Qed.

Lemma silent_prepare self lr wd gm :
  always (silent is_foreign)
         (prepare_lossfn_optims_lr_scheduler self lr wd gm).
Proof.
  unfold prepare_lossfn_optims_lr_scheduler, new_optimizer.
  silent_step.
  { destruct (String.eqb (criterator self) "bce"); [repeat silent_step|].
    destruct (String.eqb (criterator self) "cel"); repeat silent_step. }
  silent_step.
  { destruct (String.eqb (optimizer_type self) "radam"); [repeat silent_step|].
    destruct (String.eqb (optimizer_type self) "adamw"); repeat silent_step. }
  repeat silent_step.
Qed.

Lemma foreign_fs (e : Event) : is_fs_event e = true -> is_foreign e = true.
Proof. destruct e; simpl; auto. Qed.

Lemma foreign_scheduler_step (e : Event) :
  is_scheduler_step e = true -> is_foreign e = true.
Proof. destruct e; simpl; auto. Qed.

Lemma quiet_epoch_body self criteration lr_scheduler num_epochs epoch loc :
  always quiet (epoch_body self criteration lr_scheduler num_epochs epoch loc).
Proof.
  unfold epoch_body.
  silent_step.
  { intros s. apply (silent_weaken is_foreign); [apply foreign_fs|].
    apply silent_train_phase. }
  silent_step.
  { intros s. apply (silent_weaken is_foreign); [apply foreign_fs|].
    apply silent_eval_phase. }
  repeat silent_step.
Qed.

Lemma quiet_run_epochs self mdl num_epochs lr wd gm :
  always quiet (run_epochs self mdl num_epochs lr wd gm).
Proof.
  unfold run_epochs. do 2 (silent_step; [silent_step|]).
  silent_step.
  { intros s. apply (silent_weaken is_foreign); [apply foreign_fs|].
    apply silent_prepare. }
  destruct a1 as [[criteration opt] lr_scheduler].
  silent_step; [silent_step|].
  apply silent_for_range. intros. apply quiet_epoch_body.
Qed.

End Steps.

(** ** The loops, when they complete *)

Section Loops.

Context {C : Capabilities}.

Lemma train_step_ok criteration idx loc r s loc' r' s' :
  train_step criteration idx (loc, r) s = (Ok (loc', r'), s') ->
  exists b g d,
    train_generator s = b :: g /\ device s = Some d /\
    let y_pred :=
      model_call (zero_grad (model s)) (input_batch b) (mask_batch b) in
    let loss := loss_item criteration y_pred (label_batch b) in
    loc' = mkLocals (train_loss loc ++ [loss])
                    (train_acc loc ++ [accuracy y_pred (label_batch b)])
                    (test_acc loc) (Some idx) (optimizer loc) /\
    r' = padd r loss /\
    s' = mkState g (test_generator s) (device s) (model_save_path s)
           (optimizer_step (optimizer loc)
              (backward criteration y_pred (label_batch b)
                 (zero_grad (model s))))
           (fs s) (trace s ++ train_block).
Proof.
  destruct s as [tg eg dv msp mo f tr].
  cbv [train_step next_train self_device on_model emit bind gets modify ret
       raise lift set_trace set_model set_train_generator train_generator
       test_generator device model_save_path model fs trace].
  destruct tg as [|b g]; [discriminate|].
  destruct dv as [d|]; [|discriminate].
  intros H. injection H as H1 H2 H3. subst loc' r' s'.
  exists b, g, d. cbv zeta. repeat split.
  repeat rewrite <- app_assoc. reflexivity.
Qed.

Lemma eval_step_ok idx loc c t s loc' c' t' s' :
  eval_step idx (loc, (c, t)) s = (Ok (loc', (c', t')), s') ->
  exists b g d,
    test_generator s = b :: g /\ device s = Some d /\
    let pred := model_call (model s) (input_batch b) (mask_batch b) in
    loc' = mkLocals (train_loss loc) (train_acc loc)
                    (test_acc loc ++ [accuracy pred (label_batch b)])
                    (Some idx) (optimizer loc) /\
    c' = (c + inject_Z (correct_count pred (label_batch b)))%Q /\
    t' = (t + inject_Z (Z.of_nat (List.length (input_batch b))))%Q /\
    s' = mkState (train_generator s) g (device s) (model_save_path s)
           (model s) (fs s) (trace s ++ eval_block).
Proof.
  destruct s as [tg eg dv msp mo f tr].
  cbv [eval_step next_test self_device emit bind gets modify ret
       raise lift set_trace set_test_generator train_generator
       test_generator device model_save_path model fs trace].
  destruct eg as [|b g]; [discriminate|].
  destruct dv as [d|]; [|discriminate].
  intros H. injection H as H1 H2 H3 H4. subst loc' c' t' s'.
  exists b, g, d. cbv zeta. repeat split.
  repeat rewrite <- app_assoc. reflexivity.
Qed.

Lemma train_loop_ok criteration n :
  forall idx loc r s loc' r' s',
    for_range n idx (train_step criteration) (loc, r) s
      = (Ok (loc', r'), s') ->
    exists ls accs,
      List.length ls = n /\ List.length accs = n /\
      train_loss loc' = (train_loss loc ++ ls)%list /\
      train_acc loc' = (train_acc loc ++ accs)%list /\
      test_acc loc' = test_acc loc /\
      optimizer loc' = optimizer loc /\
      i loc' = last_index n idx (i loc) /\
      r' = fold_left padd ls r /\
      trace s' = (trace s ++ List.concat (repeat train_block n))%list /\
      test_generator s' = test_generator s.
Proof.
  induction n as [|n IH]; intros idx loc r s loc' r' s' H.
  - simpl in H. inversion H; subst.
    exists [], []. simpl. rewrite !app_nil_r. repeat split; reflexivity.
  - simpl in H. apply bind_inv in H. destruct H as ([loc1 r1] & s1 & H1 & H2).
    apply train_step_ok in H1.
    destruct H1 as (b & g & d & Hg & Hd & Hloc & Hr & Hs).
    apply IH in H2.
    destruct H2 as (ls & accs & L1 & L2 & T1 & T2 & T3 & O & I & R & Tr & G).
    subst loc1 r1 s1. simpl in *.
    eexists (_ :: ls), (_ :: accs). simpl.
    repeat split; try (f_equal; assumption).
    + rewrite T1, <- app_assoc. reflexivity.
    + rewrite T2, <- app_assoc. reflexivity.
    + assumption.
    + assumption.
    + rewrite I. unfold last_index. destruct n; f_equal; lia.
    + assumption.
    + rewrite Tr, <- app_assoc. reflexivity.
    + assumption.
Qed.

Lemma eval_loop_ok n :
  forall idx loc c t s loc' c' t' s',
    for_range n idx eval_step (loc, (c, t)) s = (Ok (loc', (c', t')), s') ->
    exists bs,
      List.length bs = n /\
      test_generator s = (bs ++ test_generator s')%list /\
      train_loss loc' = train_loss loc /\
      train_acc loc' = train_acc loc /\
      test_acc loc' = (test_acc loc ++ map (batch_accuracy (model s)) bs)%list /\
      optimizer loc' = optimizer loc /\
      i loc' = last_index n idx (i loc) /\
      c' = fold_left (fun a b => a + inject_Z (batch_correct (model s) b))%Q
                     bs c /\
      t' = fold_left (fun a b => a + inject_Z (batch_size b))%Q bs t /\
      trace s' = (trace s ++ List.concat (repeat eval_block n))%list /\
      model s' = model s /\
      train_generator s' = train_generator s.
Proof.
  induction n as [|n IH]; intros idx loc c t s loc' c' t' s' H.
  - simpl in H. inversion H; subst.
    exists []. simpl. rewrite !app_nil_r. repeat split; reflexivity.
  - simpl in H. apply bind_inv in H.
    destruct H as ([loc1 [c1 t1]] & s1 & H1 & H2).
    apply eval_step_ok in H1.
    destruct H1 as (b & g & d & Hg & Hd & Hloc & Hc & Ht & Hs).
    apply IH in H2.
    destruct H2 as (bs & L & G & T1 & T2 & T3 & O & I & Cq & Tq & Tr & Mo & Tg).
    subst loc1 c1 t1 s1. simpl in *.
    exists (b :: bs). simpl.
    repeat split; try assumption.
    + now f_equal.
    + rewrite Hg, G. reflexivity.
    + rewrite T3, <- app_assoc. reflexivity.
    + rewrite I. unfold last_index. destruct n; f_equal; lia.
    + rewrite Tr, <- app_assoc. reflexivity.
Qed.

Lemma train_phase_ok self criteration epoch num_epochs loc s loc' s' :
  train_phase self criteration epoch num_epochs loc s = (Ok loc', s') ->
  let n := Z.to_nat (batch_per_epoch_train self) in
  exists ls accs idx avg,
    List.length ls = n /\ List.length accs = n /\
    train_loss loc' = (train_loss loc ++ ls)%list /\
    train_acc loc' = (train_acc loc ++ accs)%list /\
    test_acc loc' = test_acc loc /\
    optimizer loc' = optimizer loc /\
    i loc' = Some idx /\
    last_index n 0 (i loc) = Some idx /\
    pdiv_int (fold_left padd ls (fin 0%Q)) idx = Ok avg /\
    trace s' = (trace s ++ [ModelTrain true; Print MsgTraining]
                  ++ List.concat (repeat train_block n)
                  ++ [Print (MsgAverageTrainingLoss epoch num_epochs avg)])%list
    /\ test_generator s' = test_generator s.
Proof.
  intros H n. unfold train_phase in H.
  apply bind_inv in H. destruct H as ([] & s1 & H1 & H).
  apply bind_inv in H. destruct H as ([] & s2 & H2 & H).
  apply bind_inv in H. destruct H as ([loc1 r1] & s3 & H3 & H).
  apply bind_inv in H. destruct H as (idx & s4 & H4 & H).
  apply bind_inv in H. destruct H as (avg & s5 & H5 & H).
  apply bind_inv in H. destruct H as ([] & s6 & H6 & H).
  inversion H; subst loc' s'; clear H.
  apply train_loop_ok in H3.
  destruct H3 as (ls & accs & L1 & L2 & T1 & T2 & T3 & O & I & R & Tr & G).
  unfold local in H4. destruct (i loc1) as [j|] eqn:Hi; [|discriminate].
  inversion H4; subst j s4; clear H4.
  unfold lift in H5. inversion H5; subst s5; clear H5.
  inversion H1; subst s1; clear H1.
  inversion H2; subst s2; clear H2.
  inversion H6; subst s6; clear H6.
  simpl in *.
  exists ls, accs, idx, avg. fold n in L1, L2, I, Tr.
  repeat split; try assumption.
  - now rewrite <- I.
  - now subst r1.
  - rewrite Tr. repeat rewrite <- app_assoc. reflexivity.
Qed.

Lemma eval_phase_ok self epoch num_epochs loc s loc' s' :
  eval_phase self epoch num_epochs loc s = (Ok loc', s') ->
  let n := Z.to_nat (batch_per_epoch_eval self) in
  let m := model_train false (model s) in
  exists bs r,
    List.length bs = n /\
    test_generator s = (bs ++ test_generator s')%list /\
    train_loss loc' = train_loss loc /\
    train_acc loc' = train_acc loc /\
    test_acc loc' = (test_acc loc ++ map (batch_accuracy m) bs)%list /\
    optimizer loc' = optimizer loc /\
    i loc' = last_index n 0 (i loc) /\
    fdiv (fold_left (fun a b => a + inject_Z (batch_correct m b))%Q bs 0%Q)
         (fold_left (fun a b => a + inject_Z (batch_size b))%Q bs 0%Q)
      = Ok r /\
    trace s' = (trace s ++ [ModelTrain false; Print MsgValidating]
                  ++ List.concat (repeat eval_block n)
                  ++ [Print (MsgValidationAccuracy epoch num_epochs r)])%list.
Proof.
  intros H n m. unfold eval_phase in H.
  apply bind_inv in H. destruct H as ([] & s1 & H1 & H).
  apply bind_inv in H. destruct H as ([] & s2 & H2 & H).
  apply bind_inv in H. destruct H as ([loc1 [c1 t1]] & s3 & H3 & H).
  apply bind_inv in H. destruct H as (r & s4 & H4 & H).
  apply bind_inv in H. destruct H as ([] & s5 & H5 & H).
  inversion H; subst loc' s'; clear H.
  apply eval_loop_ok in H3.
  destruct H3 as (bs & L & G & T1 & T2 & T3 & O & I & Cq & Tq & Tr & Mo & Tg).
  unfold lift in H4. inversion H4; subst s4; clear H4.
  inversion H1; subst s1; clear H1.
  inversion H2; subst s2; clear H2.
  inversion H5; subst s5; clear H5.
  simpl in *.
  exists bs, r. fold n in L, I, Tr. fold m in T3, Cq, Tq.
  repeat split; try assumption.
  - now subst c1 t1.
  - rewrite Tr. repeat rewrite <- app_assoc. reflexivity.
Qed.

Lemma marks_app (a b : list Event) : marks (a ++ b) = (marks a ++ marks b)%list.
Proof. apply filter_app. Qed.

Lemma marks_train_blocks n :
  marks (List.concat (repeat train_block n)) = repeat NextTrain n.
Proof.
  induction n as [|n IH]; [reflexivity|].
  unfold marks in *. simpl. now rewrite IH.
Qed.

Lemma marks_eval_blocks n :
  marks (List.concat (repeat eval_block n)) = repeat NextTest n.
Proof.
  induction n as [|n IH]; [reflexivity|].
  unfold marks in *. simpl. now rewrite IH.
Qed.

Lemma fdiv_ok_nonzero x y r : fdiv x y = Ok r -> ~ (y == 0)%Q.
Proof.
  unfold fdiv. destruct (Qeq_bool y 0) eqn:E; [discriminate|].
  intros _. now apply Qeq_bool_neq.
Qed.

Lemma epoch_body_ok self criteration lr_scheduler num_epochs epoch
    loc s loc' s' :
  epoch_body self criteration lr_scheduler num_epochs epoch loc s
    = (Ok loc', s') ->
  let nt := Z.to_nat (batch_per_epoch_train self) in
  let ne := Z.to_nat (batch_per_epoch_eval self) in
  List.length (train_loss loc') = (List.length (train_loss loc) + nt)%nat /\
  List.length (train_acc loc') = (List.length (train_acc loc) + nt)%nat /\
  List.length (test_acc loc') = (List.length (test_acc loc) + ne)%nat /\
  (exists t, trace s' = (trace s ++ t)%list /\ marks t = epoch_marks nt ne) /\
  optimizer loc' = scheduler_step lr_scheduler (optimizer loc) /\
  i loc' <> None /\
  (1 <= ne)%nat /\
  (i loc = None -> (1 <= nt)%nat).
Proof.
  intros H nt ne. unfold epoch_body in H.
  apply bind_inv in H. destruct H as (loc1 & s1 & H1 & H).
  apply bind_inv in H. destruct H as (loc2 & s2 & H2 & H).
  apply bind_inv in H. destruct H as ([] & s3 & H3 & H).
  inversion H; subst loc' s'; clear H.
  inversion H3; subst s3; clear H3.
  apply train_phase_ok in H1.
  destruct H1 as (ls & accs & idx & avg & L1 & L2 & T1 & T2 & T3 & O1 & I1
                  & I1' & D1 & Tr1 & G1).
  apply eval_phase_ok in H2.
  destruct H2 as (bs & r & L & G & E1 & E2 & E3 & O2 & I2 & D2 & Tr2).
  fold nt in L1, L2, I1', Tr1. fold ne in L, I2, Tr2.
  simpl.
  assert (Hne : (1 <= ne)%nat).
  { destruct bs as [|b bs]; [|simpl in L; lia].
    simpl in D2. apply fdiv_ok_nonzero in D2. exfalso. apply D2. reflexivity. }
  repeat split.
  - rewrite E1, T1, length_app. lia.
  - rewrite E2, T2, length_app. lia.
  - rewrite E3, T3, length_app, length_map. lia.
  - exists ([ModelTrain true; Print MsgTraining]
             ++ List.concat (repeat train_block nt)
             ++ [Print (MsgAverageTrainingLoss epoch num_epochs avg)]
             ++ [ModelTrain false; Print MsgValidating]
             ++ List.concat (repeat eval_block ne)
             ++ [Print (MsgValidationAccuracy epoch num_epochs r)]
             ++ [SchedulerStep])%list.
    split.
    + rewrite Tr2, Tr1. repeat rewrite <- app_assoc. reflexivity.
    + rewrite !marks_app, marks_train_blocks, marks_eval_blocks.
      reflexivity.
  - now rewrite O2, O1.
  - rewrite I2. unfold last_index. destruct ne; [lia|discriminate].
  - exact Hne.
  - intros Hi. rewrite Hi in I1'. unfold last_index in I1'.
    destruct nt; [discriminate|lia].
Qed.

Lemma epochs_ok self criteration lr_scheduler num_epochs k :
  forall epoch loc s loc' s',
    for_range k epoch (epoch_body self criteration lr_scheduler num_epochs)
              loc s = (Ok loc', s') ->
    let nt := Z.to_nat (batch_per_epoch_train self) in
    let ne := Z.to_nat (batch_per_epoch_eval self) in
    List.length (train_loss loc')
      = (List.length (train_loss loc) + k * nt)%nat /\
    List.length (train_acc loc')
      = (List.length (train_acc loc) + k * nt)%nat /\
    List.length (test_acc loc')
      = (List.length (test_acc loc) + k * ne)%nat /\
    (exists t, trace s' = (trace s ++ t)%list /\
               marks t = List.concat (repeat (epoch_marks nt ne) k)) /\
    optimizer loc'
      = Nat.iter k (scheduler_step lr_scheduler) (optimizer loc) /\
    ((1 <= k)%nat -> (1 <= ne)%nat /\ (i loc = None -> (1 <= nt)%nat)).
Proof.
  induction k as [|k IH]; intros epoch loc s loc' s' H nt ne.
  - simpl in H. inversion H; subst. simpl.
    repeat split; try lia.
    exists []. now rewrite app_nil_r.
  - simpl in H. apply bind_inv in H. destruct H as (loc1 & s1 & H1 & H2).
    apply epoch_body_ok in H1.
    destruct H1 as (A1 & A2 & A3 & (t1 & Tr1 & M1) & O1 & I1 & N1 & N2).
    apply IH in H2.
    destruct H2 as (B1 & B2 & B3 & (t2 & Tr2 & M2) & O2 & _).
    fold nt in A1, A2, N2, B1, B2, M1, M2.
    fold ne in A3, N1, B3, M1, M2.
    repeat split; try assumption.
    + rewrite B1, A1. simpl. lia.
    + rewrite B2, A2. simpl. lia.
    + rewrite B3, A3. simpl. lia.
    + exists (t1 ++ t2)%list. split.
      * rewrite Tr2, Tr1, app_assoc. reflexivity.
      * rewrite marks_app, M1, M2. reflexivity.
    + rewrite O2, O1. rewrite Nat.iter_succ_r. reflexivity.
Qed.

End Loops.

(** ** The optimisation plan and the whole epoch loop *)

Section Plan.

Context {C : Capabilities}.

Lemma nn_BCE : nn_new "BCE" = Raise (AttributeError "torch.nn" "BCE").
Proof. reflexivity. Qed.

Lemma nn_CrossEntropyLoss : nn_new "CrossEntropyLoss" = Ok CrossEntropyLoss.
Proof. reflexivity. Qed.

Lemma prepare_bce self lr wd gm (s : State) :
  criterator self = "bce" ->
  prepare_lossfn_optims_lr_scheduler self lr wd gm s
    = (Raise (AttributeError "torch.nn" "BCE"), s).
Proof.
  intros H. unfold prepare_lossfn_optims_lr_scheduler. rewrite H.
  reflexivity.
Qed.

Lemma prepare_unrecognised_loss self lr wd gm (s : State) :
  recognised_loss (criterator self) = false ->
  prepare_lossfn_optims_lr_scheduler self lr wd gm s
    = if String.eqb (optimizer_type self) "radam" then
        let o := {| opt_kind := RAdam; opt_lr := lr;
                    opt_betas := (9 # 10, 999 # 1000)%Q;
                    opt_eps := (1 # 1000000)%Q; opt_weight_decay := wd |} in
        (Raise (UnboundLocalError "loss_fn"),
         set_trace (trace s ++ [NewOptimizer o; NewScheduler {| gamma := gm |}])
                   s)
      else if String.eqb (optimizer_type self) "adamw" then
        let o := {| opt_kind := AdamW; opt_lr := lr;
                    opt_betas := (9 # 10, 999 # 1000)%Q;
                    opt_eps := (1 # 1000000)%Q; opt_weight_decay := wd |} in
        (Raise (UnboundLocalError "loss_fn"),
         set_trace (trace s ++ [NewOptimizer o; NewScheduler {| gamma := gm |}])
                   s)
      else (Raise (UnboundLocalError "optimizer"), s).
Proof.
  unfold recognised_loss. intros H. apply orb_false_iff in H.
  destruct H as [H1 H2].
  unfold prepare_lossfn_optims_lr_scheduler. rewrite H1, H2.
  destruct (String.eqb (optimizer_type self) "radam");
    [|destruct (String.eqb (optimizer_type self) "adamw")];
    cbv [bind ret new_optimizer emit modify local raise lift set_trace trace
         train_generator test_generator device model_save_path model fs];
    destruct s; simpl; rewrite <- ?app_assoc; reflexivity.
Qed.

Lemma prepare_unrecognised_optimizer self lr wd gm (s : State) :
  recognised_optimizer (optimizer_type self) = false ->
  exists e, prepare_lossfn_optims_lr_scheduler self lr wd gm s = (Raise e, s).
Proof.
  unfold recognised_optimizer. intros H. apply orb_false_iff in H.
  destruct H as [H1 H2].
  unfold prepare_lossfn_optims_lr_scheduler. rewrite H1, H2.
  destruct (String.eqb (criterator self) "bce");
    [|destruct (String.eqb (criterator self) "cel")];
    eexists; reflexivity.
Qed.

Lemma prepare_ok self lr wd gm (s : State) f o sch s' :
  prepare_lossfn_optims_lr_scheduler self lr wd gm s = (Ok (f, o, sch), s') ->
  criterator self = "cel" /\
  recognised_optimizer (optimizer_type self) = true /\
  f = CrossEntropyLoss /\
  opt_lr o = lr /\
  sch = {| gamma := gm |} /\
  s' = set_trace (trace s ++ [NewOptimizer o; NewScheduler sch]) s.
Proof.
  unfold prepare_lossfn_optims_lr_scheduler, recognised_optimizer.
  destruct (String.eqb (criterator self) "bce") eqn:B; [discriminate|].
  destruct (String.eqb (criterator self) "cel") eqn:L.
  2:{ destruct (String.eqb (optimizer_type self) "radam");
        [|destruct (String.eqb (optimizer_type self) "adamw")]; discriminate. }
  apply String.eqb_eq in L.
  destruct (String.eqb (optimizer_type self) "radam");
    [|destruct (String.eqb (optimizer_type self) "adamw")];
    try discriminate;
    cbv [bind ret new_optimizer emit modify local raise lift];
    simpl; intros H; inversion H; subst; clear H;
    repeat split; auto;
    destruct s; unfold set_trace; simpl; rewrite <- ?app_assoc; reflexivity.
Qed.

Lemma prepare_cel self lr wd gm (s : State) :
  criterator self = "cel" ->
  recognised_optimizer (optimizer_type self) = true ->
  exists o,
    opt_lr o = lr /\
    prepare_lossfn_optims_lr_scheduler self lr wd gm s
      = (Ok (CrossEntropyLoss, o, {| gamma := gm |}),
         set_trace (trace s ++ [NewOptimizer o; NewScheduler {| gamma := gm |}])
                   s).
Proof.
  intros Hc Ho. unfold prepare_lossfn_optims_lr_scheduler, recognised_optimizer in *.
  rewrite Hc.
  destruct (String.eqb (optimizer_type self) "radam");
    [|destruct (String.eqb (optimizer_type self) "adamw")];
    try discriminate;
    eexists; (split; [|cbv [bind ret new_optimizer emit modify local raise lift];
                        simpl; destruct s; unfold set_trace; simpl;
                        rewrite <- ?app_assoc; reflexivity]); reflexivity.
Qed.

Lemma iter_scheduler_lr sch k o :
  opt_lr (Nat.iter k (scheduler_step sch) o)
    = Nat.iter k (fun x => (x * gamma sch)%Q) (opt_lr o).
Proof.
  induction k as [|k IH]; [reflexivity|]. simpl. now rewrite IH.
Qed.

Lemma run_epochs_ok self mdl num_epochs lr wd gm (s : State) loc s1 :
  run_epochs self mdl num_epochs lr wd gm s = (Ok loc, s1) ->
  let k := Z.to_nat num_epochs in
  let nt := Z.to_nat (batch_per_epoch_train self) in
  let ne := Z.to_nat (batch_per_epoch_eval self) in
  List.length (train_loss loc) = (k * nt)%nat /\
  List.length (train_acc loc) = (k * nt)%nat /\
  List.length (test_acc loc) = (k * ne)%nat /\
  (exists t, trace s1 = (trace s ++ t)%list /\
             marks t = List.concat (repeat (epoch_marks nt ne) k)) /\
  opt_lr (optimizer loc) = Nat.iter k (fun x => (x * gm)%Q) lr /\
  ((1 <= k)%nat -> (1 <= ne)%nat /\ (1 <= nt)%nat).
Proof.
  intros H k nt ne. unfold run_epochs in H.
  apply bind_inv in H. destruct H as ([] & s2 & H2 & H).
  apply bind_inv in H. destruct H as ([] & s3 & H3 & H).
  apply bind_inv in H. destruct H as ([[f o] sch] & s4 & H4 & H).
  apply bind_inv in H. destruct H as ([] & s5 & H5 & H).
  apply prepare_ok in H4. destruct H4 as (_ & _ & _ & Hlr & Hsch & Hs4).
  apply epochs_ok in H.
  destruct H as (A1 & A2 & A3 & (t & Tr & Mk) & O & N).
  fold k nt ne in A1, A2, A3, Mk, O, N. simpl in *.
  inversion H2; subst s2; clear H2.
  inversion H3; subst s3; clear H3.
  inversion H5; subst s5; clear H5.
  repeat split; try assumption.
  - eexists ([Print MsgPreparingPlan; NewOptimizer o; NewScheduler sch;
              Print MsgInitialised] ++ t)%list.
    split.
    + rewrite Tr. subst s4. simpl. repeat rewrite <- app_assoc. reflexivity.
    + rewrite marks_app, Mk. reflexivity.
  - rewrite O, iter_scheduler_lr. subst sch. simpl. now rewrite Hlr.
  - now apply N.
  - apply N; auto.
Qed.

End Plan.


(** ** Claims about the optimisation plan *)

Section PlanClaims.

Context {C : Capabilities}.

(** C2, as the code has it: when the loss kind or the optimizer kind is not
    a recognised one, [prepare_lossfn_optims_lr_scheduler] raises and
    returns no plan, so nothing is defaulted.  There is no validation and
    no configuration error: an unrecognised loss kind surfaces as the
    [UnboundLocalError] of a local that was never assigned, for [optimizer]
    at the scheduler construction when the optimizer kind is unrecognised
    too, and otherwise for [loss_fn] at the return statement, after the
    optimizer and the scheduler have been built.  An unrecognised optimizer
    kind always raises before anything is built. *)
Theorem C2_unrecognised_kind_raises self lr wd gm (s : State) :
  recognised_loss (criterator self)
    && recognised_optimizer (optimizer_type self) = false ->
  let r := prepare_lossfn_optims_lr_scheduler self lr wd gm s in
  is_ok (fst r) = false /\
  (recognised_loss (criterator self) = false ->
   fst r = Raise (UnboundLocalError
                    (if recognised_optimizer (optimizer_type self)
                     then "loss_fn" else "optimizer"))) /\
  (recognised_optimizer (optimizer_type self) = false ->
   fails_fast trace s r) /\
  (recognised_loss (criterator self) = false ->
   recognised_optimizer (optimizer_type self) = true ->
   exists o, trace (snd r)
             = (trace s ++ [NewOptimizer o; NewScheduler {| gamma := gm |}])%list).
Proof.
  intros H r.
  assert (Hl : recognised_loss (criterator self) = false ->
               fst r = Raise (UnboundLocalError
                                (if recognised_optimizer (optimizer_type self)
                                 then "loss_fn" else "optimizer"))).
  { intros Hl. unfold r. rewrite (prepare_unrecognised_loss _ _ _ _ _ Hl).
    unfold recognised_optimizer.
    destruct (String.eqb (optimizer_type self) "radam"); [reflexivity|].
    destruct (String.eqb (optimizer_type self) "adamw"); reflexivity. }
  assert (Ho : recognised_optimizer (optimizer_type self) = false ->
               fails_fast trace s r).
  { intros Ho. unfold r, fails_fast.
    destruct (prepare_unrecognised_optimizer self lr wd gm s Ho) as [e He].
    rewrite He. split; reflexivity. }
  repeat split.
  - apply andb_false_iff in H. destruct H as [H|H].
    + rewrite (Hl H). reflexivity.
    + apply (Ho H).
  - exact Hl.
  - now apply Ho.
  - now apply Ho.
  - intros Hl' Ho'. unfold r.
    rewrite (prepare_unrecognised_loss _ _ _ _ _ Hl').
    unfold recognised_optimizer in Ho'.
    destruct (String.eqb (optimizer_type self) "radam").
    + eexists. reflexivity.
    + destruct (String.eqb (optimizer_type self) "adamw"); [|discriminate].
      eexists. reflexivity.
Qed.

(** C7, where the code departs from it: with the loss kind "bce" the call
    looks up [nn.BCE], which [torch.nn] does not have (the class is
    [BCELoss]), so it raises [AttributeError] before anything is built and
    returns no plan. *)
Theorem C7_bce_raises_attribute_error self lr wd gm (s : State) :
  criterator self = "bce" ->
  prepare_lossfn_optims_lr_scheduler self lr wd gm s
    = (Raise (AttributeError "torch.nn" "BCE"), s).
Proof. apply prepare_bce. Qed.

(** The other half of the selection: "cel" with a recognised optimizer kind
    yields the multi-class cross-entropy loss, an optimizer with the given
    learning rate and a scheduler with the given decay factor. *)
Lemma cel_plan self lr wd gm (s : State) :
  criterator self = "cel" ->
  recognised_optimizer (optimizer_type self) = true ->
  exists o s',
    prepare_lossfn_optims_lr_scheduler self lr wd gm s
      = (Ok (CrossEntropyLoss, o, {| gamma := gm |}), s')
    /\ opt_lr o = lr.
Proof.
  intros Hc Ho. destruct (prepare_cel self lr wd gm s Hc Ho) as (o & L & E).
  exists o. eexists. split; [exact E | exact L].
Qed.

End PlanClaims.

(** The claim of C2 as the spec words it fails for an unrecognised loss
    kind with a recognised optimizer kind: the call does not fail fast, it
    builds the optimizer and the scheduler and only then raises, an
    [UnboundLocalError] for [loss_fn]. *)
Lemma C2_not_fail_fast :
  let self := Example.trainer 2 1 "mse" "adamw" in
  let s := Example.state None in
  let r := prepare_lossfn_optims_lr_scheduler (C := Toy.caps) self (1 # 1000) (1 # 10000)
                                              (1 # 10) s in
  recognised_loss (criterator self) = false /\
  fst r = Raise (UnboundLocalError "loss_fn") /\
  ~ fails_fast trace s r.
Proof.
  cbv zeta. split; [reflexivity|]. split; [reflexivity|].
  unfold fails_fast. intros [_ H]. vm_compute in H. discriminate.
Qed.

Lemma C2_witness :
  is_ok (fst (prepare_lossfn_optims_lr_scheduler (C := Toy.caps)
                (Example.trainer 2 1 "cel" "sgd") (1 # 1000) (1 # 10000)
                (1 # 10) (Example.state None))) = false.
Proof.
  refine (proj1 (C2_unrecognised_kind_raises (C := Toy.caps)
                   (Example.trainer 2 1 "cel" "sgd")
                   (1 # 1000) (1 # 10000) (1 # 10) (Example.state None) _)).
  reflexivity.
Defined.

Lemma C7_witness :
  fst (prepare_lossfn_optims_lr_scheduler (C := Toy.caps)
         (Example.trainer 2 1 "bce" "adamw") (1 # 1000) (1 # 10000)
         (1 # 10) (Example.state None))
    = Raise (AttributeError "torch.nn" "BCE").
Proof.
  rewrite (C7_bce_raises_attribute_error (C := Toy.caps) (Example.trainer 2 1 "bce" "adamw")
             (1 # 1000) (1 # 10000) (1 # 10) (Example.state None));
    reflexivity.
Defined.

(** ** Claims about [train] *)

Section TrainClaims.

Context {C : Capabilities}.

Lemma train_phase_single_batch self criteration epoch num_epochs loc
    (s : State) b g d :
  batch_per_epoch_train self = 1 ->
  train_generator s = b :: g ->
  device s = Some d ->
  exists s',
    train_phase self criteration epoch num_epochs loc s
      = (Raise ZeroDivisionError, s') /\
    trace s' = (trace s ++ [ModelTrain true; Print MsgTraining]
                  ++ train_block)%list.
Proof.
  intros Hn Hg Hd. unfold train_phase. rewrite Hn.
  destruct s as [tg eg dv msp mo f tr]. simpl in Hg, Hd. subst tg dv.
  change (Z.to_nat 1) with 1%nat.
  eexists. split.
  - cbv [for_range train_step next_train self_device on_model emit bind gets
         modify ret raise lift local set_trace set_model set_train_generator
         train_generator test_generator device model_save_path model fs trace
         i pdiv_int Z.eqb].
    reflexivity.
  - simpl. repeat rewrite <- app_assoc. reflexivity.
Qed.

Lemma train_phase_single_batch_not_ok self criteration epoch num_epochs loc
    (s : State) :
  batch_per_epoch_train self = 1 ->
  is_ok (fst (train_phase self criteration epoch num_epochs loc s)) = false.
Proof.
  intros Hn.
  destruct (train_phase self criteration epoch num_epochs loc s)
    as [[loc'|e] s'] eqn:E; [|reflexivity].
  exfalso. apply train_phase_ok in E.
  destruct E as (ls & accs & idx & avg & _ & _ & _ & _ & _ & _ & _ & I & D & _).
  rewrite Hn in I. change (Z.to_nat 1) with 1%nat in I. simpl in I.
  inversion I; subst idx. discriminate D.
Qed.

Lemma run_epochs_single_batch_not_ok self mdl num_epochs lr wd gm (s : State) :
  batch_per_epoch_train self = 1 ->
  1 <= num_epochs ->
  is_ok (fst (run_epochs self mdl num_epochs lr wd gm s)) = false.
Proof.
  intros Hn He. unfold run_epochs.
  apply bind_then_not_ok; intros [] s1 _.
  apply bind_then_not_ok; intros [] s2 _.
  apply bind_then_not_ok; intros [[f o] sch] s3 _.
  apply bind_then_not_ok; intros [] s4 _.
  destruct (Z.to_nat num_epochs) as [|k] eqn:K; [lia|].
  apply for_range_succ_not_ok. unfold epoch_body.
  apply bind_not_ok. now apply train_phase_single_batch_not_ok.
Qed.

(** C10: with one training batch per epoch and at least one epoch, [train]
    never completes; when the plan is built and the first batch arrives
    (loss kind "cel", a recognised optimizer kind, the device set, a batch
    to pull), the error is the [ZeroDivisionError] of the average training
    loss of the first epoch, raised right after that one batch, before any
    average is printed. *)
Theorem C10_single_batch_epoch_divides_by_zero self mdl num_epochs lr wd gm
    (s : State) :
  batch_per_epoch_train self = 1 ->
  1 <= num_epochs ->
  let r := train self mdl num_epochs lr wd gm s in
  is_ok (fst r) = false /\
  (criterator self = "cel" ->
   recognised_optimizer (optimizer_type self) = true ->
   device s <> None ->
   train_generator s <> [] ->
   fst r = Raise ZeroDivisionError /\
   exists o,
     trace (snd r)
       = (trace s ++ [Print MsgPreparingPlan; NewOptimizer o;
                      NewScheduler {| gamma := gm |}; Print MsgInitialised;
                      ModelTrain true; Print MsgTraining] ++ train_block)%list).
Proof.
  intros Hn He r. split.
  - unfold r, train. apply bind_not_ok.
    now apply run_epochs_single_batch_not_ok.
  - intros Hc Ho Hd Hg.
    destruct (device s) as [d|] eqn:Ed; [clear Hd|congruence].
    destruct (train_generator s) as [|b g] eqn:Eg; [congruence|clear Hg].
    set (s1 := set_trace (trace (set_model mdl s) ++ [Print MsgPreparingPlan])
                         (set_model mdl s)).
    destruct (prepare_cel self lr wd gm s1 Hc Ho) as (o & Hlr & E).
    set (s2 := set_trace (trace s1 ++ [NewOptimizer o;
                                        NewScheduler {| gamma := gm |}]) s1)
      in E.
    set (s3 := set_trace (trace s2 ++ [Print MsgInitialised]) s2).
    destruct (train_phase_single_batch self CrossEntropyLoss 1 num_epochs
                (mkLocals [] [] [] None o) s3 b g d Hn Eg Ed)
      as (s' & P & T).
    assert (R : run_epochs self mdl num_epochs lr wd gm s
                = (Raise ZeroDivisionError, s')).
    { unfold run_epochs.
      destruct (Z.to_nat num_epochs) as [|k] eqn:K; [lia|].
      erewrite bind_ok by reflexivity.
      erewrite bind_ok by reflexivity.
      erewrite bind_ok by exact E.
      cbv beta iota.
      erewrite bind_ok by reflexivity.
      simpl for_range. unfold epoch_body.
      erewrite bind_raise; [reflexivity|].
      erewrite bind_raise; [reflexivity|exact P]. }
    unfold r, train.
    rewrite (bind_raise _ _ _ _ _ R). simpl. split; [reflexivity|].
    exists o. rewrite T. subst s3 s2 s1. simpl.
    repeat rewrite <- app_assoc. reflexivity.
Qed.

Lemma unmarked_refl (s : State) : unmarked s s.
Proof. exists []. now rewrite app_nil_r. Qed.

Lemma unmarked_trans (a b c : State) :
  unmarked a b -> unmarked b c -> unmarked a c.
Proof.
  intros (t1 & T1 & M1) (t2 & T2 & M2). exists (t1 ++ t2)%list. split.
  - now rewrite T2, T1, app_assoc.
  - now rewrite marks_app, M1, M2.
Qed.

Lemma unmarked_emit (e : Event) : is_mark e = false -> always unmarked (emit e).
Proof.
  intros He s. exists [e]. split; [reflexivity|].
  unfold marks. simpl. now rewrite He.
Qed.

Lemma unmarked_modify (f : State -> State) :
  (forall s, trace (f s) = trace s) -> always unmarked (modify f).
Proof. intros Ht s. exists []. simpl. now rewrite Ht, app_nil_r. Qed.

Lemma unmarked_bind {A B} (m : M State A) (k : A -> M State B) :
  always unmarked m -> (forall a, always unmarked (k a)) ->
  always unmarked (bind m k).
Proof. apply always_bind. apply unmarked_trans. Qed.

Ltac unmarked_step :=
  first
    [ apply unmarked_emit; reflexivity
    | apply unmarked_modify; reflexivity
    | apply always_ret, unmarked_refl
    | apply always_raise, unmarked_refl
    | apply always_gets, unmarked_refl
    | apply always_lift, unmarked_refl
    | apply unmarked_bind; [|intros] ].

Lemma unmarked_save_checkpoint : always unmarked save_checkpoint.
Proof.
  unfold save_checkpoint. do 5 (unmarked_step; [unmarked_step|]).
  destruct (negb (isdir a3 (dirname a2))); repeat unmarked_step.
Qed.

Lemma save_checkpoint_none (s : State) :
  model_save_path s = None ->
  save_checkpoint s
    = (Raise (TypeError
                "expected str, bytes or os.PathLike object, not NoneType"),
       set_trace (trace s ++ [Print MsgTrainingFinished; Print MsgCheckingPath])
                 s).
Proof.
  intros H. unfold save_checkpoint.
  cbv [bind emit modify gets lift set_trace train_generator test_generator
       device model_save_path model fs trace].
  destruct s as [tg eg dv msp mo f tr]. simpl in H. subst msp. simpl.
  now rewrite <- app_assoc.
Qed.

(** C9: a trainer whose [model_save_path] is still [None] never gets a
    result from [train]: the call raises, the file system is left as it
    was and no directory is made and no checkpoint saved; when the epochs
    complete, the error is the [TypeError] of [os.path.dirname(None)],
    raised right after the two messages that open the checkpoint step. *)
Theorem C9_no_save_path_never_returns self mdl num_epochs lr wd gm
    (s : State) :
  model_save_path s = None ->
  let r := train self mdl num_epochs lr wd gm s in
  is_ok (fst r) = false /\
  fs (snd r) = fs s /\
  (exists t, trace (snd r) = (trace s ++ t)%list
             /\ existsb is_fs_event t = false) /\
  (forall loc s1,
     run_epochs self mdl num_epochs lr wd gm s = (Ok loc, s1) ->
     fst r = Raise (TypeError
                      "expected str, bytes or os.PathLike object, not NoneType")
     /\ trace (snd r)
        = (trace s1 ++ [Print MsgTrainingFinished; Print MsgCheckingPath])%list).
Proof.
  intros Hp r.
  pose proof (quiet_run_epochs self mdl num_epochs lr wd gm s) as Q.
  unfold r, train.
  destruct (run_epochs self mdl num_epochs lr wd gm s) as [[loc|e] s1] eqn:E.
  - simpl in Q. destruct Q as (P1 & F1 & t & T1 & E1).
    rewrite (bind_ok _ _ _ _ _ E).
    assert (N : model_save_path s1 = None) by congruence.
    rewrite (bind_raise _ _ _ _ _ (save_checkpoint_none s1 N)). simpl.
    repeat split; try assumption.
    + exists (t ++ [Print MsgTrainingFinished; Print MsgCheckingPath])%list.
      split.
      * now rewrite T1, app_assoc.
      * rewrite existsb_app, E1. reflexivity.
    + inversion H; subst. reflexivity.
  - simpl in Q. destruct Q as (P1 & F1 & t & T1 & E1).
    rewrite (bind_raise _ _ _ _ _ E). simpl.
    repeat split; try assumption.
    + now exists t.
    + discriminate.
    + discriminate.
Qed.

Lemma to_nat_product (a b : Z) (k n : nat) :
  k = Z.to_nat a -> n = Z.to_nat b -> 0 <= a ->
  ((1 <= k)%nat -> (1 <= n)%nat) ->
  Z.of_nat (k * n) = a * b.
Proof.
  intros Hk Hn Ha Hpos. subst k n.
  destruct (Z.eq_dec a 0) as [->|Hz]; [reflexivity|].
  assert (1 <= Z.to_nat b)%nat by (apply Hpos; lia).
  rewrite Nat2Z.inj_mul, !Z2Nat.id by lia. reflexivity.
Qed.

Lemma filter_marks (p : Event -> bool) (l : list Event) :
  (forall e, p e = true -> is_mark e = true) ->
  filter p l = filter p (marks l).
Proof.
  intros Hp. induction l as [|e l IH]; [reflexivity|].
  unfold marks in *. simpl. destruct (is_mark e) eqn:Em; simpl.
  - now rewrite IH.
  - destruct (p e) eqn:Ep; [|exact IH].
    apply Hp in Ep. congruence.
Qed.

Lemma count_repeat_other (p : Event -> bool) (e : Event) n :
  p e = false -> count p (repeat e n) = 0%nat.
Proof.
  intros He. unfold count. induction n as [|n IH]; [reflexivity|].
  simpl. now rewrite He.
Qed.

Lemma count_repeat_same (p : Event -> bool) (e : Event) n :
  p e = true -> count p (repeat e n) = n.
Proof.
  intros He. unfold count. induction n as [|n IH]; [reflexivity|].
  simpl. rewrite He. simpl. now rewrite IH.
Qed.

Lemma count_app (p : Event -> bool) (a b : list Event) :
  count p (a ++ b) = (count p a + count p b)%nat.
Proof. unfold count. now rewrite filter_app, length_app. Qed.

Lemma count_epoch_marks nt ne :
  count is_next_train (epoch_marks nt ne) = nt /\
  count is_next_test (epoch_marks nt ne) = ne /\
  count is_scheduler_step (epoch_marks nt ne) = 1%nat.
Proof.
  unfold epoch_marks. rewrite !count_app.
  rewrite (count_repeat_same is_next_train NextTrain) by reflexivity.
  rewrite (count_repeat_other is_next_train NextTest) by reflexivity.
  rewrite (count_repeat_other is_next_test NextTrain) by reflexivity.
  rewrite (count_repeat_same is_next_test NextTest) by reflexivity.
  rewrite (count_repeat_other is_scheduler_step NextTrain) by reflexivity.
  rewrite (count_repeat_other is_scheduler_step NextTest) by reflexivity.
  unfold count. simpl. repeat split; lia.
Qed.

Lemma count_epochs (p : Event -> bool) (t : list Event) nt ne k :
  (forall e, p e = true -> is_mark e = true) ->
  marks t = List.concat (repeat (epoch_marks nt ne) k) ->
  count p t = (k * count p (epoch_marks nt ne))%nat.
Proof.
  intros Hp Mk. unfold count at 1. rewrite (filter_marks p t Hp), Mk.
  fold (count p (List.concat (repeat (epoch_marks nt ne) k))).
  clear. induction k as [|k IH]; [reflexivity|].
  change (List.concat (repeat (epoch_marks nt ne) (Datatypes.S k)))
    with (epoch_marks nt ne ++ List.concat (repeat (epoch_marks nt ne) k))%list.
  rewrite count_app, IH. reflexivity.
Qed.

(** The phase marks of the whole call, when the epoch loop completes: the
    checkpoint step adds none, whether it succeeds or not. *)
Lemma train_marks self mdl num_epochs lr wd gm (s : State) loc s1 :
  run_epochs self mdl num_epochs lr wd gm s = (Ok loc, s1) ->
  exists t,
    trace (snd (train self mdl num_epochs lr wd gm s)) = (trace s ++ t)%list /\
    marks t = List.concat
                (repeat (epoch_marks
                           (Z.to_nat (batch_per_epoch_train self))
                           (Z.to_nat (batch_per_epoch_eval self)))
                        (Z.to_nat num_epochs)).
Proof.
  intros H.
  pose proof (run_epochs_ok _ _ _ _ _ _ _ _ _ H) as R.
  destruct R as (_ & _ & _ & (t & T & Mk) & _ & _).
  pose proof (unmarked_save_checkpoint s1) as (t2 & T2 & M2).
  exists (t ++ t2)%list. split.
  - unfold train. rewrite (bind_ok _ _ _ _ _ H).
    unfold bind at 1.
    destruct (save_checkpoint s1) as [[p|e] s2]; simpl in *;
      now rewrite T2, T, app_assoc.
  - now rewrite marks_app, M2, Mk, app_nil_r.
Qed.

(** C3: when [train] returns, for a number of epochs that is not negative,
    the loss and accuracy histories of training have
    [num_epochs * batch_per_epoch_train] entries and the accuracy history
    of validation has [num_epochs * batch_per_epoch_eval] entries: as many
    as batches were pulled from the training source and from the validation
    source during the call. *)
Theorem C3_history_lengths self mdl num_epochs lr wd gm (s : State)
    tl ta te path s' :
  train self mdl num_epochs lr wd gm s = (Ok (tl, ta, te, path), s') ->
  0 <= num_epochs ->
  Z.of_nat (List.length tl) = num_epochs * batch_per_epoch_train self /\
  Z.of_nat (List.length ta) = num_epochs * batch_per_epoch_train self /\
  Z.of_nat (List.length te) = num_epochs * batch_per_epoch_eval self /\
  exists t, trace s' = (trace s ++ t)%list /\
            count is_next_train t = List.length tl /\
            count is_next_train t = List.length ta /\
            count is_next_test t = List.length te.
Proof.
  intros H Hn.
  pose proof H as H0. unfold train in H.
  apply bind_inv in H. destruct H as (loc & s1 & H1 & H).
  apply bind_inv in H. destruct H as (p & s2 & H2 & H).
  inversion H; subst; clear H.
  destruct (train_marks _ _ _ _ _ _ _ _ _ H1) as (t & T & Mk).
  rewrite H0 in T. simpl in T.
  apply run_epochs_ok in H1.
  destruct H1 as (L1 & L2 & L3 & _ & _ & N).
  destruct (count_epoch_marks (Z.to_nat (batch_per_epoch_train self))
                              (Z.to_nat (batch_per_epoch_eval self)))
    as (C1 & C2 & _).
  rewrite L1, L2, L3.
  repeat split; try (apply to_nat_product; auto; intros K; now apply N).
  exists t. split; [exact T|].
  rewrite (count_epochs is_next_train t _ _ _
             ltac:(intros e; destruct e; simpl; congruence) Mk).
  rewrite (count_epochs is_next_test t _ _ _
             ltac:(intros e; destruct e; simpl; congruence) Mk).
  rewrite C1, C2. auto.
Qed.

Lemma no_step_of_foreign (t : list Event) :
  existsb is_foreign t = false -> existsb is_scheduler_step t = false.
Proof.
  intros H. destruct (existsb is_scheduler_step t) eqn:E; [|reflexivity].
  apply existsb_exists in E. destruct E as (e & He & Se).
  assert (X : existsb is_foreign t = true).
  { apply existsb_exists. exists e. auto using foreign_scheduler_step. }
  congruence.
Qed.

Lemma no_step_of_no_mark (t : list Event) :
  marks t = [] -> existsb is_scheduler_step t = false.
Proof.
  intros H. destruct (existsb is_scheduler_step t) eqn:E; [|reflexivity].
  apply existsb_exists in E. destruct E as (e & He & Se).
  assert (X : In e (marks t)).
  { unfold marks. apply filter_In. split; [exact He|].
    destruct e; simpl in *; congruence. }
  rewrite H in X. destruct X.
Qed.

Lemma count_no_step (t : list Event) :
  existsb is_scheduler_step t = false -> count is_scheduler_step t = 0%nat.
Proof.
  unfold count. induction t as [|e t IH]; [reflexivity|].
  simpl. destruct (is_scheduler_step e); [discriminate|]. exact IH.
Qed.

(** An epoch that raises has made no scheduler step. *)
Lemma epoch_body_raise self criteration lr_scheduler num_epochs epoch loc
    (s : State) err s' :
  epoch_body self criteration lr_scheduler num_epochs epoch loc s
    = (Raise err, s') ->
  exists t, trace s' = (trace s ++ t)%list
            /\ existsb is_scheduler_step t = false.
Proof.
  unfold epoch_body, bind.
  pose proof (silent_train_phase self criteration epoch num_epochs loc s) as A.
  destruct (train_phase self criteration epoch num_epochs loc s)
    as [[loc1|e1] s1] eqn:E1; simpl in A.
  - pose proof (silent_eval_phase self epoch num_epochs loc1 s1) as B.
    destruct (eval_phase self epoch num_epochs loc1 s1)
      as [[loc2|e2] s2] eqn:E2; simpl in B.
    + discriminate.
    + intros H. injection H as _ <-.
      destruct (silent_trans _ _ _ _ A B) as (_ & _ & t & T & N).
      exists t. split; [exact T | now apply no_step_of_foreign].
  - intros H. injection H as _ <-.
    destruct A as (_ & _ & t & T & N).
    exists t. split; [exact T | now apply no_step_of_foreign].
Qed.

(** The epoch loop, whatever its outcome: [j] complete epochs, then a
    remainder without scheduler step, empty when the loop completes. *)
Lemma epochs_any self criteration lr_scheduler num_epochs k :
  forall epoch loc (s : State),
    let r := for_range k epoch
               (epoch_body self criteration lr_scheduler num_epochs) loc s in
    exists j t rest,
      trace (snd r) = (trace s ++ t ++ rest)%list /\
      marks t = List.concat
                  (repeat (epoch_marks
                             (Z.to_nat (batch_per_epoch_train self))
                             (Z.to_nat (batch_per_epoch_eval self))) j) /\
      (j <= k)%nat /\
      existsb is_scheduler_step rest = false /\
      (is_ok (fst r) = true -> j = k /\ rest = []).
Proof.
  induction k as [|k IH]; intros epoch loc s r.
  - exists 0%nat, [], []. unfold r. simpl. rewrite app_nil_r.
    repeat split; auto.
  - unfold r. simpl for_range. unfold bind.
    destruct (epoch_body self criteration lr_scheduler num_epochs epoch loc s)
      as [[loc1|err] s1] eqn:E.
    + apply epoch_body_ok in E.
      destruct E as (_ & _ & _ & (t1 & T1 & M1) & _).
      destruct (IH (epoch + 1) loc1 s1) as (j & t & rest & T & Mk & J & N & O).
      exists (Datatypes.S j), (t1 ++ t)%list, rest.
      split; [rewrite T, T1; now rewrite !app_assoc|].
      split; [rewrite marks_app, M1, Mk; reflexivity|].
      split; [lia|]. split; [exact N|].
      intros Hok. destruct (O Hok) as [-> ->]. auto.
    + apply epoch_body_raise in E. destruct E as (t & T & N).
      exists 0%nat, [], t. simpl.
      repeat split; auto; try lia; discriminate.
Qed.

Lemma run_epochs_any self mdl num_epochs lr wd gm (s : State) :
  let r := run_epochs self mdl num_epochs lr wd gm s in
  exists j t rest,
    trace (snd r) = (trace s ++ t ++ rest)%list /\
    marks t = List.concat
                (repeat (epoch_marks
                           (Z.to_nat (batch_per_epoch_train self))
                           (Z.to_nat (batch_per_epoch_eval self))) j) /\
    (j <= Z.to_nat num_epochs)%nat /\
    existsb is_scheduler_step rest = false /\
    (is_ok (fst r) = true -> j = Z.to_nat num_epochs /\ rest = []).
Proof.
  intros r. unfold r, run_epochs.
  erewrite bind_ok by reflexivity.
  erewrite bind_ok by reflexivity.
  set (s1 := set_trace (trace (set_model mdl s) ++ [Print MsgPreparingPlan])
                       (set_model mdl s)).
  pose proof (silent_prepare self lr wd gm s1) as A.
  destruct (prepare_lossfn_optims_lr_scheduler self lr wd gm s1)
    as [[[[f o] sch]|err] s2] eqn:E; simpl in A.
  - rewrite (bind_ok _ _ _ _ _ E).
    apply prepare_ok in E. destruct E as (_ & _ & _ & _ & _ & ->).
    cbv beta iota. erewrite bind_ok by reflexivity.
    match goal with
    | |- context [for_range ?k ?e ?b ?l ?st] =>
        destruct (epochs_any self f sch num_epochs k e l st)
          as (j & t & rest & T & Mk & J & N & O)
    end.
    exists j,
      ([Print MsgPreparingPlan; NewOptimizer o; NewScheduler sch;
        Print MsgInitialised] ++ t)%list, rest.
    split.
    { rewrite T. unfold s1. simpl. now rewrite <- !app_assoc. }
    split; [rewrite marks_app, Mk; reflexivity|].
    split; [exact J|]. split; [exact N | exact O].
  - rewrite (bind_raise _ _ _ _ _ E).
    destruct A as (_ & _ & t & T & N).
    exists 0%nat, [], ([Print MsgPreparingPlan] ++ t)%list. simpl.
    split; [rewrite T; unfold s1; simpl; now rewrite <- app_assoc|].
    split; [reflexivity|]. split; [lia|].
    split; [now apply no_step_of_foreign | discriminate].
Qed.

(** C4: in every call of [train], whatever its outcome, the phase marks
    are those of [j] complete epochs, each the switch to training mode, one
    pull per training batch, the switch to evaluation mode, one pull per
    validation batch and then one scheduler step, followed by a remainder
    (an epoch that raised, or the checkpoint step) without scheduler step;
    so every scheduler step closes an epoch, after that epoch's validation,
    and there are as many steps as completed epochs.  When the epoch loop
    completes, all [num_epochs] epochs are complete and the learning rate
    is the initial one multiplied by gamma once per epoch. *)
Theorem C4_scheduler_steps_once_per_epoch self mdl num_epochs lr wd gm
    (s : State) :
  let r := train self mdl num_epochs lr wd gm s in
  let k := Z.to_nat num_epochs in
  let nt := Z.to_nat (batch_per_epoch_train self) in
  let ne := Z.to_nat (batch_per_epoch_eval self) in
  exists j t rest,
    trace (snd r) = (trace s ++ t ++ rest)%list /\
    marks t = List.concat (repeat (epoch_marks nt ne) j) /\
    (j <= k)%nat /\
    existsb is_scheduler_step rest = false /\
    count is_scheduler_step (t ++ rest) = j /\
    (forall loc s1,
       run_epochs self mdl num_epochs lr wd gm s = (Ok loc, s1) ->
       j = k /\ marks rest = [] /\
       opt_lr (optimizer loc) = Nat.iter k (fun x => (x * gm)%Q) lr).
Proof.
  intros r k nt ne.
  destruct (run_epochs_any self mdl num_epochs lr wd gm s)
    as (j & t & rest & T & Mk & J & N & O).
  fold k nt ne in Mk, J, O.
  assert (Cnt : forall rest', existsb is_scheduler_step rest' = false ->
                              count is_scheduler_step (t ++ rest') = j).
  { intros rest' N'. rewrite count_app, (count_no_step rest' N').
    rewrite (count_epochs is_scheduler_step t _ _ _
               ltac:(intros e; destruct e; simpl; congruence) Mk).
    destruct (count_epoch_marks nt ne) as (_ & _ & C3). rewrite C3. lia. }
  unfold r, train.
  destruct (run_epochs self mdl num_epochs lr wd gm s) as [[loc|err] s1] eqn:E.
  - simpl in T, O. destruct (O eq_refl) as [-> ->].
    rewrite (bind_ok _ _ _ _ _ E).
    pose proof (unmarked_save_checkpoint s1) as (t2 & T2 & M2).
    exists k, t, t2.
    assert (Tr : trace (snd (bind save_checkpoint
                   (fun path => ret (train_loss loc, train_acc loc,
                                     test_acc loc, path)) s1))
                 = (trace s ++ t ++ t2)%list).
    { unfold bind.
      destruct (save_checkpoint s1) as [[p|e] s2]; simpl in *;
        rewrite T2, T, app_nil_r; now rewrite app_assoc. }
    split; [exact Tr|]. split; [exact Mk|]. split; [lia|].
    pose proof (no_step_of_no_mark t2 M2) as N2.
    split; [exact N2|]. split; [now apply Cnt|].
    intros loc' s1' H. injection H as <- <-.
    split; [reflexivity|]. split; [exact M2|].
    pose proof (run_epochs_ok _ _ _ _ _ _ _ _ _ E) as R.
    destruct R as (_ & _ & _ & _ & Olr & _). exact Olr.
  - rewrite (bind_raise _ _ _ _ _ E). simpl in *.
    exists j, t, rest.
    split; [exact T|]. split; [exact Mk|]. split; [exact J|].
    split; [exact N|]. split; [now apply Cnt|].
    intros loc s1' H. discriminate.
Qed.

End TrainClaims.

(** ** Paths *)

Section Paths.

Lemma list_ascii_of_string_app (a b : string) :
  list_ascii_of_string (a ++ b)
    = (list_ascii_of_string a ++ list_ascii_of_string b)%list.
Proof. induction a as [|c a IH]; simpl; [reflexivity | now rewrite IH]. Qed.

Lemma forallb_sep_rev_false c r :
  is_sep c = false -> forallb is_sep (rev (c :: r) ++ [sep]) = false.
Proof.
  intros Hc. simpl. rewrite !forallb_app. simpl. rewrite Hc.
  now rewrite andb_false_r.
Qed.

(** Joining a proper directory name and a file name, then taking the
    directory name, gives the directory back. *)
Lemma dirname_join (d : string) :
  proper_dir d = true -> dirname (d ++ "/imd-sa.bin") = d.
Proof.
  unfold proper_dir, dirname. intros H.
  rewrite list_ascii_of_string_app.
  remember (list_ascii_of_string d) as l eqn:El.
  destruct (rev l) as [|c r] eqn:Er; [discriminate|].
  apply negb_true_iff in H.
  assert (L : l = rev (c :: r)) by (rewrite <- Er; now rewrite rev_involutive).
  assert (Hh : head_part (l ++ list_ascii_of_string "/imd-sa.bin")
               = (l ++ [sep])%list).
  { unfold head_part. rewrite rev_app_distr. simpl.
    now rewrite rev_involutive. }
  unfold dirname_chars. rewrite Hh.
  destruct (l ++ [sep])%list as [|x xs] eqn:Ex.
  { destruct l; discriminate. }
  rewrite <- Ex.
  rewrite L at 1. rewrite (forallb_sep_rev_false c r H).
  unfold rstrip_sep. rewrite rev_app_distr. simpl. rewrite Er. simpl.
  rewrite H. rewrite <- Er, rev_involutive, El.
  apply string_of_list_ascii_of_string.
Qed.

(** The announced file name and the one used differ, whatever the
    directories. *)
Lemma announced_differs (x y : string) : x ++ "/imdb-sa.bin" <> y ++ "/imd-sa.bin".
Proof.
  intros E.
  apply (f_equal (fun s => firstn 8 (rev (list_ascii_of_string s)))) in E.
  rewrite !list_ascii_of_string_app, !rev_app_distr in E.
  simpl in E. discriminate.
Qed.

End Paths.

(** ** Claims about the emitted averages and the checkpoint *)

Section EmitClaims.

Context {C : Capabilities}.

(** The average training loss that an epoch emits is the running sum of
    that epoch's losses divided by the last loop index. *)
Lemma average_divides_by_last_index self criteration epoch num_epochs
    loc (s : State) loc' s' :
  train_phase self criteration epoch num_epochs loc s = (Ok loc', s') ->
  1 <= batch_per_epoch_train self ->
  exists ls avg t,
    train_loss loc' = (train_loss loc ++ ls)%list /\
    Z.of_nat (List.length ls) = batch_per_epoch_train self /\
    pdiv_int (fold_left padd ls (fin 0%Q)) (batch_per_epoch_train self - 1)
      = Ok avg /\
    trace s' = (t ++ [Print (MsgAverageTrainingLoss epoch num_epochs avg)])%list.
Proof.
  intros H Hn. apply train_phase_ok in H.
  destruct H as (ls & accs & idx & avg & L1 & _ & T1 & _ & _ & _ & _ & I & D
                 & Tr & _).
  exists ls, avg. eexists. repeat split.
  - exact T1.
  - rewrite L1. apply Z2Nat.id. lia.
  - destruct (Z.to_nat (batch_per_epoch_train self)) as [|k] eqn:K; [lia|].
    simpl in I. inversion I; subst idx.
    replace (batch_per_epoch_train self - 1)
      with (0 + Z.pos (Pos.of_succ_nat k) - 1); [exact D|].
    rewrite <- (Z2Nat.id (batch_per_epoch_train self)) by lia.
    rewrite K. lia.
  - rewrite Tr. rewrite !app_assoc. reflexivity.
Qed.

Lemma fold_counts {A} (f : A -> Z) (l : list A) (c : Q) :
  (fold_left (fun a b => a + inject_Z (f b)) l c
   == c + inject_Z (Zsum (map f l)))%Q.
Proof.
  revert c. induction l as [|x l IH]; intros c; simpl.
  - unfold inject_Z. ring.
  - rewrite IH. rewrite inject_Z_plus. ring.
Qed.

Lemma firstn_prefix {A} (a b : list A) n :
  List.length a = n -> firstn n (a ++ b) = a.
Proof.
  intros <-. rewrite firstn_app, Nat.sub_diag, firstn_all. simpl.
  apply app_nil_r.
Qed.

Lemma Zsum_sizes_nonneg (bs : list Batch) : 0 <= Zsum (map batch_size bs).
Proof.
  induction bs as [|b bs IH]; simpl; [lia|]. unfold batch_size at 1. lia.
Qed.

(** The validation accuracy that an epoch emits is the total of the correct
    predictions over the validation batches of that epoch divided by the
    total of their sizes. *)
Lemma validation_accuracy_is_ratio_of_totals self epoch num_epochs loc
    (s : State) loc' s' :
  eval_phase self epoch num_epochs loc s = (Ok loc', s') ->
  let n := Z.to_nat (batch_per_epoch_eval self) in
  let m := model_train false (model s) in
  let bs := firstn n (test_generator s) in
  exists v t,
    trace s' = (t ++ [Print (MsgValidationAccuracy epoch num_epochs (fin v))])%list
    /\ (v == inject_Z (Zsum (map (batch_correct m) bs))
             / inject_Z (Zsum (map batch_size bs)))%Q
    /\ 0 < Zsum (map batch_size bs)
    /\ List.length bs = n
    /\ test_acc loc' = (test_acc loc ++ map (batch_accuracy m) bs)%list.
Proof.
  intros H n m bs. apply eval_phase_ok in H.
  destruct H as (bs' & r & L & G & _ & _ & T3 & _ & _ & D & Tr).
  fold n in L, Tr. fold m in T3, D.
  assert (B : bs = bs') by (unfold bs; rewrite G; now apply firstn_prefix).
  rewrite B.
  pose proof (fdiv_ok_nonzero _ _ _ D) as NZ.
  unfold fdiv in D.
  destruct (Qeq_bool _ 0); [discriminate|]. inversion D; subst r; clear D.
  eexists. eexists.
  split; [rewrite Tr, !app_assoc; reflexivity|].
  split; [rewrite !fold_counts, !Qplus_0_l; reflexivity|].
  repeat split.
  - rewrite fold_counts, Qplus_0_l in NZ.
    pose proof (Zsum_sizes_nonneg bs') as P.
    destruct (Z.eq_dec (Zsum (map batch_size bs')) 0) as [E|E]; [|lia].
    exfalso. apply NZ. rewrite E. reflexivity.
  - exact L.
  - exact T3.
Qed.

Lemma save_checkpoint_creates (s : State) p f1 f2 :
  model_save_path s = Some p ->
  isdir (fs s) (dirname p) = false ->
  mkdir (dirname p) (fs s) = Ok f1 ->
  torch_save (model s) (dirname p ++ "/imd-sa.bin") f1 = Ok f2 ->
  save_checkpoint s
    = (Ok (dirname p ++ "/imd-sa.bin"),
       mkState (train_generator s) (test_generator s) (device s)
         (Some (dirname p ++ "/imd-sa.bin")) (model s) f2
         (trace s ++
            [Print MsgTrainingFinished; Print MsgCheckingPath;
             Print MsgCreatingDirectory; Mkdir (dirname p);
             Print (MsgSavingAt
                      (dirname (dirname p ++ "/imd-sa.bin") ++ "/imdb-sa.bin"));
             Save (dirname p ++ "/imd-sa.bin")])).
Proof.
  intros Hp Hd Hm Hs. unfold save_checkpoint.
  destruct s as [tg eg dv msp mo f tr]. simpl in *. subst msp.
  cbv [bind emit modify gets lift ret set_trace set_fs set_model_save_path
       train_generator test_generator device model_save_path model fs trace
       os_fspath].
  rewrite Hd. cbv [negb]. rewrite Hm. rewrite Hs.
  repeat rewrite <- app_assoc. reflexivity.
Qed.

(** C6: when the directory of the configured save path does not exist (and
    making it and saving succeed), the checkpoint step makes that
    directory, sets the save path to [<directory>/imd-sa.bin] whatever the
    configured file name was, announces a path that ends in [imdb-sa.bin]
    and so is not the one used, saves to the new path, and [train] returns
    the new path with the histories. *)
Theorem C6_missing_directory_rewrites_path self mdl num_epochs lr wd gm
    (s : State) loc s1 p f1 f2 :
  run_epochs self mdl num_epochs lr wd gm s = (Ok loc, s1) ->
  model_save_path s = Some p ->
  isdir (fs s) (dirname p) = false ->
  mkdir (dirname p) (fs s) = Ok f1 ->
  torch_save (model s1) (dirname p ++ "/imd-sa.bin") f1 = Ok f2 ->
  let r := train self mdl num_epochs lr wd gm s in
  let used := dirname p ++ "/imd-sa.bin" in
  let announced := dirname used ++ "/imdb-sa.bin" in
  fst r = Ok (train_loss loc, train_acc loc, test_acc loc, used) /\
  model_save_path (snd r) = Some used /\
  fs (snd r) = f2 /\
  trace (snd r)
    = (trace s1 ++
         [Print MsgTrainingFinished; Print MsgCheckingPath;
          Print MsgCreatingDirectory; Mkdir (dirname p);
          Print (MsgSavingAt announced); Save used])%list /\
  announced <> used /\
  (proper_dir (dirname p) = true -> announced = dirname p ++ "/imdb-sa.bin").
Proof.
  intros H Hp Hd Hm Hs r used announced.
  pose proof (quiet_run_epochs self mdl num_epochs lr wd gm s) as Q.
  rewrite H in Q. simpl in Q. destruct Q as (P1 & F1 & _).
  pose proof (save_checkpoint_creates s1 p f1 f2) as E.
  rewrite P1, F1 in E. specialize (E Hp Hd Hm Hs).
  unfold r, train. rewrite (bind_ok _ _ _ _ _ H).
  rewrite (bind_ok _ _ _ _ _ E). simpl.
  repeat split.
  - apply announced_differs.
  - intros Hd'. unfold announced, used. now rewrite dirname_join.
Qed.

End EmitClaims.

(** ** Claims about [accuracy] *)

Section Argmax.

Lemma combine_fst_snd {A B} (l : list A) (l' : list B) :
  List.length l = List.length l' ->
  map fst (combine l l') = l /\ map snd (combine l l') = l'.
Proof.
  revert l'. induction l as [|x l IH]; intros [|y l'] H; try discriminate.
  - split; reflexivity.
  - simpl in H. injection H as H. destruct (IH l' H) as [E1 E2].
    simpl. now rewrite E1, E2.
Qed.

(** Two rows that order every two positions alike have the same first
    maximum. *)
Lemma argmax_from_pairs (ps : list (Q * Q)) :
  forall b b' besti idx,
    (forall p q, In p ((b, b') :: ps) -> In q ((b, b') :: ps) ->
                 Qltb (fst p) (fst q) = Qltb (snd p) (snd q)) ->
    argmax_from b besti idx (map fst ps)
      = argmax_from b' besti idx (map snd ps).
Proof.
  induction ps as [|[x x'] ps IH]; intros b b' besti idx OP; [reflexivity|].
  simpl.
  assert (E : Qltb b x = Qltb b' x').
  { apply (OP (b, b') (x, x')); simpl; auto. }
  rewrite <- E. destruct (Qltb b x).
  - apply IH. intros p q Hp Hq. apply OP; simpl in *; tauto.
  - apply IH. intros p q Hp Hq. apply OP; simpl in *; tauto.
Qed.

Lemma argmax_order_preserving (row s : list Q) :
  order_preserving row s = true -> argmax s = argmax row.
Proof.
  unfold order_preserving. intros H. apply andb_true_iff in H.
  destruct H as [L OP]. apply Nat.eqb_eq in L.
  destruct (combine_fst_snd row s (eq_sym L)) as [E1 E2].
  assert (P : forall p q, In p (combine row s) -> In q (combine row s) ->
                          Qltb (fst p) (fst q) = Qltb (snd p) (snd q)).
  { intros p q Hp Hq. rewrite forallb_forall in OP.
    specialize (OP p Hp). rewrite forallb_forall in OP.
    now apply eqb_prop, OP. }
  rewrite <- E1 at 1. rewrite <- E2 at 1.
  destruct (combine row s) as [|[x x'] ps]; [reflexivity|].
  simpl. symmetry. now apply argmax_from_pairs.
Qed.

Lemma Qsum_to_float_bounds (l : list bool) :
  (0 <= Qsum (to_float l)
   /\ Qsum (to_float l) <= inject_Z (Z.of_nat (List.length l)))%Q.
Proof.
  induction l as [|b l [IH1 IH2]].
  - simpl. split; apply Qle_refl.
  - cbn [to_float map Qsum fold_right List.length].
    fold (to_float l). fold (Qsum (to_float l)).
    rewrite Nat2Z.inj_succ, <- Z.add_1_l, inject_Z_plus.
    destruct b; split.
    + apply (Qle_trans _ (0 + 0)); [apply Qle_refl|].
      apply Qplus_le_compat; [discriminate | exact IH1].
    + apply Qplus_le_compat; [apply Qle_refl | exact IH2].
    + apply (Qle_trans _ (0 + 0)); [apply Qle_refl|].
      apply Qplus_le_compat; [apply Qle_refl | exact IH1].
    + apply Qplus_le_compat; [discriminate | exact IH2].
Qed.

Lemma mean_to_float_bounds (l : list bool) :
  l <> [] -> exists q, mean (to_float l) = fin q /\ (0 <= q /\ q <= 1)%Q.
Proof.
  intros Hl. destruct l as [|b l]; [congruence|].
  set (bl := b :: l). eexists. split.
  - unfold bl. cbn [to_float map mean]. reflexivity.
  - fold (to_float l). change (to_float (b :: l)) with (to_float bl).
    destruct (Qsum_to_float_bounds bl) as [B1 B2].
    assert (Hlen : List.length ((if b then 1%Q else 0%Q) :: to_float l)
                   = List.length bl).
    { unfold to_float, bl. simpl. now rewrite length_map. }
    change ((if b then 1%Q else 0%Q) :: to_float l) with (to_float bl) in *.
    rewrite Hlen.
    assert (Pos : (0 < inject_Z (Z.of_nat (List.length bl)))%Q).
    { rewrite <- (Zlt_Qlt 0). unfold bl. simpl. lia. }
    split.
    + apply Qle_shift_div_l; [exact Pos|]. now rewrite Qmult_0_l.
    + apply Qle_shift_div_r; [exact Pos|]. now rewrite Qmult_1_l.
Qed.

End Argmax.

Section AccuracyClaims.

Context {C : Capabilities}.

Lemma predicted_class_raw (y_pred : list (list Q)) :
  forallb (fun row => order_preserving row (softmax row)) y_pred = true ->
  predicted_class y_pred = map argmax y_pred.
Proof.
  intros H. unfold predicted_class. apply map_ext_in. intros row Hr.
  rewrite forallb_forall in H. now apply argmax_order_preserving, H.
Qed.

(** C8: a softmax that orders the entries of each row as the row does
    leaves the arg-max where it was, so the accuracy is the share of rows
    whose first maximum is at the label; on a batch that is not empty it is
    a number between 0 and 1, and it does not change when the rows go
    through any transform that keeps the arg-max of each row. *)
Theorem C8_accuracy_bounded_and_argmax_invariant
    (y_pred : list (list Q)) (y_target : list Z)
    (transform : list Q -> list Q) :
  y_pred <> [] ->
  List.length y_target = List.length y_pred ->
  forallb (fun row => order_preserving row (softmax row)) y_pred = true ->
  forallb (fun row => order_preserving (transform row)
                                       (softmax (transform row)))
          y_pred = true ->
  forallb (fun row => argmax (transform row) =? argmax row) y_pred = true ->
  (exists q, accuracy y_pred y_target = fin q /\ (0 <= q /\ q <= 1)%Q) /\
  accuracy (map transform y_pred) y_target = accuracy y_pred y_target /\
  accuracy y_pred y_target
    = mean (to_float (tensor_eq (map argmax y_pred) y_target)).
Proof.
  intros Hne Hlen Hs Hts Ht.
  assert (Raw : predicted_class y_pred = map argmax y_pred)
    by now apply predicted_class_raw.
  assert (RawT : predicted_class (map transform y_pred) = map argmax y_pred).
  { rewrite predicted_class_raw.
    - rewrite map_map. apply map_ext_in. intros row Hr.
      rewrite forallb_forall in Ht. now apply Z.eqb_eq, Ht.
    - rewrite forallb_forall in *. intros row Hr.
      apply in_map_iff in Hr. destruct Hr as (row0 & <- & Hr0).
      now apply Hts. }
  repeat split.
  - unfold accuracy. apply mean_to_float_bounds.
    unfold tensor_eq. rewrite Raw.
    destruct y_pred as [|row rows]; [congruence|].
    destruct y_target as [|y ys]; [discriminate|].
    simpl. discriminate.
  - unfold accuracy. now rewrite RawT, Raw.
  - unfold accuracy. now rewrite Raw.
Qed.

End AccuracyClaims.

(** ** The statements at concrete inputs *)

Lemma example_epochs :
  run_epochs (C := Toy.caps) Example.ok_trainer (1 # 2)%Q 2 (1 # 1000)%Q
             (1 # 10000)%Q (1 # 10)%Q Example.path_state
    = (Ok Example.epochs_locals, Example.epochs_state).
Proof. vm_compute. reflexivity. Qed.

Lemma example_epochs_no_path :
  run_epochs (C := Toy.caps) Example.ok_trainer (1 # 2)%Q 2 (1 # 1000)%Q
             (1 # 10000)%Q (1 # 10)%Q (Example.state None)
    = (Ok Example.epochs_locals, Example.epochs_state_no_path).
Proof. vm_compute. reflexivity. Qed.

Lemma example_run :
  train (C := Toy.caps) Example.ok_trainer (1 # 2)%Q 2 (1 # 1000)%Q
        (1 # 10000)%Q (1 # 10)%Q Example.path_state
    = (Ok (train_loss Example.epochs_locals, train_acc Example.epochs_locals,
           test_acc Example.epochs_locals, "out/imd-sa.bin"),
       Example.final_state).
Proof. vm_compute. reflexivity. Qed.

Lemma example_train_phase :
  train_phase (C := Toy.caps) Example.ok_trainer CrossEntropyLoss 1 1
              Example.first_locals Example.path_state
    = (Ok Example.trained_locals, Example.trained_state).
Proof. vm_compute. reflexivity. Qed.

Lemma example_eval_phase :
  eval_phase (C := Toy.caps) Example.ok_trainer 1 1 Example.first_locals
             Example.path_state
    = (Ok Example.validated_locals, Example.validated_state).
Proof. vm_compute. reflexivity. Qed.

(** C1, where the code departs from it: the average training loss that an
    epoch emits is the running sum of that epoch's losses divided by the
    last loop index, [batch_per_epoch_train - 1], not by the number of
    batches processed.  With two batches whose losses are 1 and 3 the
    epoch emits 4, not their mean 2. *)
Theorem C1_average_divides_by_last_index :
  (forall (C : Capabilities) self criteration epoch num_epochs loc
          (s : State) loc' s',
     train_phase self criteration epoch num_epochs loc s = (Ok loc', s') ->
     1 <= batch_per_epoch_train self ->
     exists ls avg t,
       train_loss loc' = (train_loss loc ++ ls)%list /\
       Z.of_nat (List.length ls) = batch_per_epoch_train self /\
       pdiv_int (fold_left padd ls (fin 0%Q)) (batch_per_epoch_train self - 1)
         = Ok avg /\
       trace s' = (t ++ [Print (MsgAverageTrainingLoss epoch num_epochs avg)])%list)
  /\
  (train_phase (C := Toy.caps) Example.ok_trainer CrossEntropyLoss 1 1
               Example.first_locals Example.path_state
     = (Ok Example.trained_locals, Example.trained_state) /\
   batch_per_epoch_train Example.ok_trainer = 2 /\
   train_loss Example.trained_locals = [fin 1; fin 3] /\
   exists t q,
     trace Example.trained_state
       = (t ++ [Print (MsgAverageTrainingLoss 1 1 (fin q))])%list /\
     (q == 4)%Q /\ ~ (q == (1 + 3) / 2)%Q).
Proof.
  split.
  - intros C. apply average_divides_by_last_index.
  - split; [exact example_train_phase|]. split; [reflexivity|].
    split; [reflexivity|].
    exists ([ModelTrain true; Print MsgTraining] ++ train_block ++ train_block)%list.
    eexists. split; [vm_compute; reflexivity|].
    split; [reflexivity | discriminate].
Qed.

(** C5: the validation accuracy that an epoch emits is the total of the
    correct predictions over the validation batches of that epoch divided
    by the total of their sizes, both accumulated on their own, next to the
    per-batch accuracies appended to the history; it is not the mean of
    those per-batch accuracies: with a batch of one example, right, and a
    batch of three, all wrong, the epoch emits 1/4 while the per-batch
    accuracies 1 and 0 have mean 1/2. *)
Theorem C5_validation_accuracy_is_ratio_of_totals :
  (forall (C : Capabilities) self epoch num_epochs loc (s : State) loc' s',
     eval_phase self epoch num_epochs loc s = (Ok loc', s') ->
     let n := Z.to_nat (batch_per_epoch_eval self) in
     let m := model_train false (model s) in
     let bs := firstn n (test_generator s) in
     exists v t,
       trace s' = (t ++ [Print (MsgValidationAccuracy epoch num_epochs (fin v))])%list
       /\ (v == inject_Z (Zsum (map (batch_correct m) bs))
                / inject_Z (Zsum (map batch_size bs)))%Q
       /\ 0 < Zsum (map batch_size bs)
       /\ List.length bs = n
       /\ test_acc loc' = (test_acc loc ++ map (batch_accuracy m) bs)%list)
  /\
  (eval_phase (C := Toy.caps) Example.ok_trainer 1 1 Example.first_locals
              Example.path_state
     = (Ok Example.validated_locals, Example.validated_state) /\
   map batch_size (firstn 2 (test_generator Example.path_state)) = [1; 3] /\
   exists t v a b,
     trace Example.validated_state
       = (t ++ [Print (MsgValidationAccuracy 1 1 (fin v))])%list /\
     test_acc Example.validated_locals = [fin a; fin b] /\
     (v == 1 # 4)%Q /\ ((a + b) / 2 == 1 # 2)%Q).
Proof.
  split.
  - intros C. apply validation_accuracy_is_ratio_of_totals.
  - split; [exact example_eval_phase|]. split; [reflexivity|].
    exists ([ModelTrain false; Print MsgValidating] ++ eval_block ++ eval_block)%list.
    do 3 eexists. split; [vm_compute; reflexivity|].
    split; [vm_compute; reflexivity|]. split; reflexivity.
Qed.

Lemma C10_witness :
  let r := Example.run (Example.trainer 1 2 "cel" "adamw") 2
                       (Some "out/m.bin") in
  is_ok (fst r) = false /\ fst r = Raise ZeroDivisionError.
Proof.
  cbv zeta. unfold Example.run.
  destruct (C10_single_batch_epoch_divides_by_zero (C := Toy.caps)
              (Example.trainer 1 2 "cel" "adamw") (1 # 2)%Q 2
              (1 # 1000)%Q (1 # 10000)%Q (1 # 10)%Q
              (Example.state (Some "out/m.bin")))
    as [H1 H2].
  - reflexivity.
  - lia.
  - split; [exact H1|].
    apply H2; [reflexivity | reflexivity | discriminate | discriminate].
Defined.

Lemma C9_witness :
  let r := Example.run Example.ok_trainer 2 None in
  is_ok (fst r) = false /\
  fst r = Raise (TypeError
                   "expected str, bytes or os.PathLike object, not NoneType").
Proof.
  cbv zeta. unfold Example.run.
  destruct (C9_no_save_path_never_returns (C := Toy.caps)
              Example.ok_trainer (1 # 2)%Q 2
              (1 # 1000)%Q (1 # 10000)%Q (1 # 10)%Q (Example.state None))
    as (H1 & _ & _ & H4).
  - reflexivity.
  - split; [exact H1|].
    exact (proj1 (H4 _ _ example_epochs_no_path)).
Defined.

Lemma C3_witness :
  Z.of_nat (List.length (train_loss Example.epochs_locals))
    = 2 * batch_per_epoch_train Example.ok_trainer /\
  Z.of_nat (List.length (train_acc Example.epochs_locals))
    = 2 * batch_per_epoch_train Example.ok_trainer /\
  Z.of_nat (List.length (test_acc Example.epochs_locals))
    = 2 * batch_per_epoch_eval Example.ok_trainer /\
  exists t,
    trace Example.final_state = (trace Example.path_state ++ t)%list /\
    count is_next_train t = List.length (train_loss Example.epochs_locals) /\
    count is_next_train t = List.length (train_acc Example.epochs_locals) /\
    count is_next_test t = List.length (test_acc Example.epochs_locals).
Proof.
  refine (C3_history_lengths (C := Toy.caps) Example.ok_trainer (1 # 2)%Q 2
            (1 # 1000)%Q (1 # 10000)%Q (1 # 10)%Q Example.path_state
            _ _ _ _ _ example_run _).
  lia.
Defined.

Lemma C4_witness :
  exists j t rest,
    trace (snd (train (C := Toy.caps) Example.ok_trainer (1 # 2)%Q 2
                      (1 # 1000)%Q (1 # 10000)%Q (1 # 10)%Q
                      Example.path_state))
      = (trace Example.path_state ++ t ++ rest)%list /\
    marks t = List.concat (repeat (epoch_marks 2 2) j) /\
    count is_scheduler_step (t ++ rest) = j /\
    j = 2%nat.
Proof.
  destruct (C4_scheduler_steps_once_per_epoch (C := Toy.caps)
              Example.ok_trainer (1 # 2)%Q 2
              (1 # 1000)%Q (1 # 10000)%Q (1 # 10)%Q Example.path_state)
    as (j & t & rest & T & Mk & _ & _ & Ct & O).
  exists j, t, rest. split; [exact T|]. split; [exact Mk|].
  split; [exact Ct|]. exact (proj1 (O _ _ example_epochs)).
Defined.

Lemma C1_witness :
  exists ls avg t,
    train_loss Example.trained_locals
      = (train_loss Example.first_locals ++ ls)%list /\
    Z.of_nat (List.length ls) = batch_per_epoch_train Example.ok_trainer /\
    pdiv_int (fold_left padd ls (fin 0%Q))
             (batch_per_epoch_train Example.ok_trainer - 1) = Ok avg /\
    trace Example.trained_state
      = (t ++ [Print (MsgAverageTrainingLoss 1 1 avg)])%list.
Proof.
  refine (proj1 C1_average_divides_by_last_index Toy.caps
            Example.ok_trainer CrossEntropyLoss 1 1 Example.first_locals
            Example.path_state _ _ example_train_phase _).
  simpl. lia.
Defined.

Lemma C5_witness :
  exists v t,
    trace Example.validated_state
      = (t ++ [Print (MsgValidationAccuracy 1 1 (fin v))])%list /\
    (v == 1 # 4)%Q.
Proof.
  destruct (proj1 C5_validation_accuracy_is_ratio_of_totals Toy.caps
              Example.ok_trainer 1 1 Example.first_locals
              Example.path_state _ _ example_eval_phase)
    as (v & t & T & V & _).
  exists v, t. split; [exact T|].
  apply (Qeq_trans _ _ _ V). vm_compute. reflexivity.
Defined.

Lemma C6_witness :
  let r := train (C := Toy.caps) Example.ok_trainer (1 # 2)%Q 2 (1 # 1000)%Q
                 (1 # 10000)%Q (1 # 10)%Q Example.path_state in
  let used := dirname "out/model.bin" ++ "/imd-sa.bin" in
  fst r = Ok (train_loss Example.epochs_locals,
              train_acc Example.epochs_locals,
              test_acc Example.epochs_locals, used) /\
  model_save_path (snd r) = Some used /\
  used = "out/imd-sa.bin" /\
  dirname used ++ "/imdb-sa.bin" = "out/imdb-sa.bin".
Proof.
  cbv zeta.
  destruct (C6_missing_directory_rewrites_path (C := Toy.caps)
              Example.ok_trainer (1 # 2)%Q 2
              (1 # 1000)%Q (1 # 10000)%Q (1 # 10)%Q
              Example.path_state Example.epochs_locals Example.epochs_state
              "out/model.bin"
              {| Toy.dirs := ["out"]; Toy.files := [] |}
              {| Toy.dirs := ["out"]; Toy.files := ["out/imd-sa.bin"] |}
              example_epochs)
    as (R & P & _ & _ & _ & _).
  - reflexivity.
  - reflexivity.
  - reflexivity.
  - reflexivity.
  - split; [exact R|]. split; [exact P|]. split; reflexivity.
Defined.

Lemma C8_witness :
  accuracy (C := Toy.caps) (map Example.rescale Example.logits) Example.labels
    = accuracy (C := Toy.caps) Example.logits Example.labels /\
  exists q, accuracy (C := Toy.caps) Example.logits Example.labels = fin q
            /\ (0 <= q /\ q <= 1)%Q.
Proof.
  destruct (C8_accuracy_bounded_and_argmax_invariant (C := Toy.caps)
              Example.logits Example.labels Example.rescale)
    as (B & I & _).
  - discriminate.
  - reflexivity.
  - vm_compute. reflexivity.
  - vm_compute. reflexivity.
  - vm_compute. reflexivity.
  - split; [exact I | exact B].
Defined.

(** * Further properties of [train]

    ** Entering the epoch loop *)

Section Entry.

Context {C : Capabilities}.

(** With the loss kind "cel" and a recognised optimizer kind, [train] is
    the epoch loop from [loop_entry], then the checkpoint step. *)
Lemma run_epochs_enter self mdl num_epochs lr wd gm (s : State) :
  criterator self = "cel" ->
  recognised_optimizer (optimizer_type self) = true ->
  run_epochs self mdl num_epochs lr wd gm s
    = for_range (Z.to_nat num_epochs) 1
        (epoch_body self CrossEntropyLoss {| gamma := gm |} num_epochs)
        (entry_locals self lr wd) (loop_entry self mdl lr wd gm s).
Proof.
  intros Hc Ho. unfold run_epochs, prepare_lossfn_optims_lr_scheduler.
  unfold entry_locals, loop_entry, plan_optimizer, recognised_optimizer in *.
  rewrite Hc.
  destruct s as [tg eg dv msp mo f tr].
  destruct (String.eqb (optimizer_type self) "radam") eqn:R.
  - cbv [bind modify emit ret lift local new_optimizer nn_new set_trace
         set_model train_generator test_generator device model_save_path
         model fs trace String.eqb Ascii.eqb Bool.eqb assoc torch_nn].
    repeat rewrite <- app_assoc. reflexivity.
  - destruct (String.eqb (optimizer_type self) "adamw") eqn:A;
      [|discriminate].
    cbv [bind modify emit ret lift local new_optimizer nn_new set_trace
         set_model train_generator test_generator device model_save_path
         model fs trace String.eqb Ascii.eqb Bool.eqb assoc torch_nn].
    repeat rewrite <- app_assoc. reflexivity.
Qed.

(** An error of the first training phase is the error of [train]. *)
Lemma train_raises_in_first_training_phase self mdl num_epochs lr wd gm
    (s : State) e s' :
  criterator self = "cel" ->
  recognised_optimizer (optimizer_type self) = true ->
  1 <= num_epochs ->
  train_phase self CrossEntropyLoss 1 num_epochs (entry_locals self lr wd)
              (loop_entry self mdl lr wd gm s) = (Raise e, s') ->
  train self mdl num_epochs lr wd gm s = (Raise e, s').
Proof.
  intros Hc Ho Hn P. unfold train.
  apply bind_raise. rewrite (run_epochs_enter _ _ _ _ _ _ _ Hc Ho).
  destruct (Z.to_nat num_epochs) as [|k] eqn:K; [lia|].
  simpl for_range. apply bind_raise. unfold epoch_body.
  now apply bind_raise.
Qed.

End Entry.

(** ** Failures of the first epoch *)

Section FirstEpoch.

Context {C : Capabilities}.

Lemma train_step_run criteration idx loc r (s : State) b g d :
  train_generator s = b :: g ->
  device s = Some d ->
  let y_pred :=
    model_call (zero_grad (model s)) (input_batch b) (mask_batch b) in
  let loss := loss_item criteration y_pred (label_batch b) in
  train_step criteration idx (loc, r) s
    = (Ok (mkLocals (train_loss loc ++ [loss])
                    (train_acc loc ++ [accuracy y_pred (label_batch b)])
                    (test_acc loc) (Some idx) (optimizer loc),
           padd r loss),
       mkState g (test_generator s) (device s) (model_save_path s)
         (optimizer_step (optimizer loc)
            (backward criteration y_pred (label_batch b)
               (zero_grad (model s))))
         (fs s) (trace s ++ train_block)).
Proof.
  destruct s as [tg eg dv msp mo f tr]. simpl. intros -> ->.
  cbv [train_step next_train self_device on_model emit bind gets modify ret
       raise lift set_trace set_model set_train_generator train_generator
       test_generator device model_save_path model fs trace].
  repeat rewrite <- app_assoc. reflexivity.
Qed.

(** A training loop that asks for more batches than the source has left
    uses them all up and then raises [StopIteration]. *)
Lemma train_loop_exhausts criteration d :
  forall g n idx loc r (s : State),
    train_generator s = g ->
    device s = Some d ->
    (List.length g < n)%nat ->
    exists s',
      for_range n idx (train_step criteration) (loc, r) s
        = (Raise StopIteration, s') /\
      train_generator s' = [] /\
      trace s' = (trace s ++ List.concat (repeat train_block (List.length g)))%list.
Proof.
  induction g as [|b g IH]; intros n idx loc r s Hg Hd Hn.
  - destruct n as [|n]; [simpl in Hn; lia|].
    exists s. simpl for_range. split; [|split].
    + apply bind_raise. destruct s as [tg eg dv msp mo f tr].
      simpl in Hg. subst tg. reflexivity.
    + exact Hg.
    + simpl. now rewrite app_nil_r.
  - destruct n as [|n]; [simpl in Hn; lia|].
    simpl for_range.
    rewrite (bind_ok _ _ _ _ _ (train_step_run criteration idx loc r s b g d
                                   Hg Hd)).
    match goal with
    | |- context [for_range n (idx + 1) _ ?v ?st] =>
        destruct (IH n (idx + 1) (fst v) (snd v) st) as (s' & E & G & T)
    end.
    + reflexivity.
    + exact Hd.
    + simpl in Hn. lia.
    + exists s'. split; [exact E|]. split; [exact G|].
      rewrite T. simpl. now rewrite <- !app_assoc.
Qed.

(** X1: [self.device] exists only once [prepare_model] has run.  On a
    trainer where it has not, [train] with a valid plan, at least one epoch
    and at least one training batch per epoch raises [AttributeError] at
    the first batch, which has already been pulled from the training source
    and is lost. *)
Theorem train_without_device_raises self mdl num_epochs lr wd gm (s : State)
    b g :
  criterator self = "cel" ->
  recognised_optimizer (optimizer_type self) = true ->
  1 <= num_epochs ->
  1 <= batch_per_epoch_train self ->
  device s = None ->
  train_generator s = b :: g ->
  let r := train self mdl num_epochs lr wd gm s in
  fst r = Raise (AttributeError "Trainer" "device") /\
  train_generator (snd r) = g /\
  trace (snd r)
    = (trace (loop_entry self mdl lr wd gm s)
         ++ [ModelTrain true; Print MsgTraining; NextTrain])%list.
Proof.
  intros Hc Ho Hn Hb Hd Hg r.
  assert (P : train_phase self CrossEntropyLoss 1 num_epochs
                (entry_locals self lr wd) (loop_entry self mdl lr wd gm s)
              = (Raise (AttributeError "Trainer" "device"),
                 set_trace (trace (loop_entry self mdl lr wd gm s)
                              ++ [ModelTrain true; Print MsgTraining;
                                  NextTrain])
                   (set_train_generator g
                      (set_model (model_train true mdl)
                         (loop_entry self mdl lr wd gm s))))).
  { unfold train_phase.
    destruct (Z.to_nat (batch_per_epoch_train self)) as [|n] eqn:N; [lia|].
    destruct s as [tg eg dv msp mo f tr]. simpl in Hd, Hg. subst tg dv.
    cbv [for_range train_step next_train self_device on_model emit bind gets
         modify ret raise lift local set_trace set_model set_train_generator
         train_generator test_generator device model_save_path model fs trace
         loop_entry entry_locals].
    repeat rewrite <- app_assoc. reflexivity. }
  unfold r.
  rewrite (train_raises_in_first_training_phase _ _ _ _ _ _ _ _ _ Hc Ho Hn P).
  simpl. repeat split.
Qed.

(** X2: with no training batch per epoch ([batch_per_epoch_train <= 0]) the
    loop variable [i] is never bound, and [train] with a valid plan and at
    least one epoch raises [UnboundLocalError] for it when the first epoch
    wants its average loss; no batch has been pulled. *)
Theorem train_without_training_batches_raises self mdl num_epochs lr wd gm
    (s : State) :
  criterator self = "cel" ->
  recognised_optimizer (optimizer_type self) = true ->
  1 <= num_epochs ->
  batch_per_epoch_train self <= 0 ->
  let r := train self mdl num_epochs lr wd gm s in
  fst r = Raise (UnboundLocalError "i") /\
  train_generator (snd r) = train_generator s /\
  test_generator (snd r) = test_generator s /\
  trace (snd r)
    = (trace (loop_entry self mdl lr wd gm s)
         ++ [ModelTrain true; Print MsgTraining])%list.
Proof.
  intros Hc Ho Hn Hb r.
  assert (P : train_phase self CrossEntropyLoss 1 num_epochs
                (entry_locals self lr wd) (loop_entry self mdl lr wd gm s)
              = (Raise (UnboundLocalError "i"),
                 set_trace (trace (loop_entry self mdl lr wd gm s)
                              ++ [ModelTrain true; Print MsgTraining])
                   (set_model (model_train true mdl)
                      (loop_entry self mdl lr wd gm s)))).
  { unfold train_phase.
    replace (Z.to_nat (batch_per_epoch_train self)) with 0%nat by lia.
    destruct s as [tg eg dv msp mo f tr].
    cbv [for_range on_model emit bind gets modify ret raise lift local
         set_trace set_model train_generator test_generator device
         model_save_path model fs trace loop_entry entry_locals i].
    repeat rewrite <- app_assoc. reflexivity. }
  unfold r.
  rewrite (train_raises_in_first_training_phase _ _ _ _ _ _ _ _ _ Hc Ho Hn P).
  simpl. repeat split.
Qed.

(** X3: when the training source has fewer batches left than one epoch
    asks for, [train] (valid plan, at least one epoch, device set) pulls
    them all, trains on each, and then raises [StopIteration]; the source
    is left empty. *)
Theorem train_source_exhausted_raises self mdl num_epochs lr wd gm (s : State)
    d :
  criterator self = "cel" ->
  recognised_optimizer (optimizer_type self) = true ->
  1 <= num_epochs ->
  device s = Some d ->
  Z.of_nat (List.length (train_generator s)) < batch_per_epoch_train self ->
  let r := train self mdl num_epochs lr wd gm s in
  fst r = Raise StopIteration /\
  train_generator (snd r) = [] /\
  trace (snd r)
    = (trace (loop_entry self mdl lr wd gm s)
         ++ [ModelTrain true; Print MsgTraining]
         ++ List.concat (repeat train_block
                                (List.length (train_generator s))))%list.
Proof.
  intros Hc Ho Hn Hd Hl r.
  set (s0 := loop_entry self mdl lr wd gm s).
  set (s1 := set_trace (trace (set_model (model_train true (model s0)) s0)
                          ++ [ModelTrain true])
                       (set_model (model_train true (model s0)) s0)).
  set (s2 := set_trace (trace s1 ++ [Print MsgTraining]) s1).
  destruct (train_loop_exhausts CrossEntropyLoss d (train_generator s)
              (Z.to_nat (batch_per_epoch_train self)) 0
              (entry_locals self lr wd) (fin 0%Q) s2)
    as (s' & E & G & T).
  { reflexivity. }
  { exact Hd. }
  { lia. }
  assert (P : train_phase self CrossEntropyLoss 1 num_epochs
                (entry_locals self lr wd) s0 = (Raise StopIteration, s')).
  { unfold train_phase.
    erewrite bind_ok by reflexivity.
    erewrite bind_ok by reflexivity.
    now apply bind_raise. }
  unfold r.
  rewrite (train_raises_in_first_training_phase _ _ _ _ _ _ _ _ _ Hc Ho Hn P).
  simpl. split; [reflexivity|]. split; [exact G|].
  rewrite T. unfold s2, s1. simpl. now rewrite <- !app_assoc.
Qed.

Lemma eval_phase_without_batches self epoch num_epochs loc (s : State) :
  batch_per_epoch_eval self <= 0 ->
  eval_phase self epoch num_epochs loc s
    = (Raise ZeroDivisionError,
       set_trace (trace s ++ [ModelTrain false; Print MsgValidating])
                 (set_model (model_train false (model s)) s)).
Proof.
  intros Hb. unfold eval_phase.
  replace (Z.to_nat (batch_per_epoch_eval self)) with 0%nat by lia.
  destruct s as [tg eg dv msp mo f tr].
  cbv [for_range on_model emit bind gets modify ret raise lift fdiv
       set_trace set_model train_generator test_generator device
       model_save_path model fs trace Qeq_bool Qnum Qden Z.mul Z.eqb
       Pos.mul Z.compare].
  repeat rewrite <- app_assoc. reflexivity.
Qed.

(** X4: with no validation batch per epoch ([batch_per_epoch_eval <= 0])
    every validation phase divides 0.0 by 0.0 and raises
    [ZeroDivisionError] right after the switch to evaluation mode, so
    [train] never returns when there is at least one epoch. *)
Theorem train_without_validation_batches_never_returns self mdl num_epochs
    lr wd gm (s : State) :
  1 <= num_epochs ->
  batch_per_epoch_eval self <= 0 ->
  is_ok (fst (train self mdl num_epochs lr wd gm s)) = false /\
  forall epoch loc (s1 : State),
    fst (eval_phase self epoch num_epochs loc s1) = Raise ZeroDivisionError /\
    trace (snd (eval_phase self epoch num_epochs loc s1))
      = (trace s1 ++ [ModelTrain false; Print MsgValidating])%list.
Proof.
  intros Hn Hb. split.
  - unfold train. apply bind_not_ok. unfold run_epochs.
    apply bind_then_not_ok; intros [] s1 _.
    apply bind_then_not_ok; intros [] s2 _.
    apply bind_then_not_ok; intros [[f o] sch] s3 _.
    apply bind_then_not_ok; intros [] s4 _.
    destruct (Z.to_nat num_epochs) as [|k] eqn:K; [lia|].
    apply for_range_succ_not_ok. unfold epoch_body.
    apply bind_then_not_ok; intros loc1 s5 _.
    apply bind_not_ok.
    now rewrite (eval_phase_without_batches _ _ _ _ _ Hb).
  - intros epoch loc s1.
    rewrite (eval_phase_without_batches _ _ _ _ _ Hb). split; reflexivity.
Qed.

End FirstEpoch.

(** ** What a call that returns must have had *)

Section Returns.

Context {C : Capabilities}.

Lemma first_training_step self criteration epoch num_epochs loc (s : State)
    loc' s' :
  train_phase self criteration epoch num_epochs loc s = (Ok loc', s') ->
  1 <= batch_per_epoch_train self ->
  device s <> None /\ train_generator s <> [].
Proof.
  intros H Hb. unfold train_phase in H.
  apply bind_inv in H. destruct H as ([] & s1 & H1 & H).
  apply bind_inv in H. destruct H as ([] & s2 & H2 & H).
  apply bind_inv in H. destruct H as ([loc1 r1] & s3 & H3 & _).
  destruct (Z.to_nat (batch_per_epoch_train self)) as [|n] eqn:N; [lia|].
  cbn [for_range] in H3. apply bind_inv in H3.
  destruct H3 as ([loc2 r2] & s4 & H3 & _).
  apply train_step_ok in H3. destruct H3 as (b & g & d & Hg & Hd & _).
  inversion H1; subst s1. inversion H2; subst s2. simpl in *.
  split; congruence.
Qed.

Lemma keeps_save_checkpoint : always keeps_model_and_sources save_checkpoint.
Proof.
  intros s. unfold save_checkpoint.
  destruct s as [tg eg dv msp mo f tr].
  cbv [bind emit modify gets lift ret set_trace set_fs set_model_save_path
       train_generator test_generator device model_save_path model fs trace].
  destruct (os_fspath msp) as [path|e]; [|repeat split].
  destruct (negb (isdir f (dirname path))).
  - destruct (mkdir (dirname path) f) as [f1|e]; [|repeat split].
    destruct (torch_save mo (dirname path ++ "/imd-sa.bin") f1);
      repeat split.
  - destruct (torch_save mo path f); repeat split.
Qed.

(** X5: what every call of [train] that returns had: the loss kind "cel",
    a recognised optimizer kind and a save path that is not [None]; and,
    when it ran at least one epoch, at least two training batches and one
    validation batch per epoch, and the device attribute set. *)
Theorem train_returns_only_if self mdl num_epochs lr wd gm (s : State)
    res s' :
  train self mdl num_epochs lr wd gm s = (Ok res, s') ->
  criterator self = "cel" /\
  recognised_optimizer (optimizer_type self) = true /\
  model_save_path s <> None /\
  (1 <= num_epochs ->
   2 <= batch_per_epoch_train self /\
   1 <= batch_per_epoch_eval self /\
   device s <> None).
Proof.
  intros H. unfold train in H.
  apply bind_inv in H. destruct H as (loc & s1 & H1 & H).
  apply bind_inv in H. destruct H as (p & s2 & H2 & _).
  assert (Plan : criterator self = "cel"
                 /\ recognised_optimizer (optimizer_type self) = true).
  { pose proof H1 as R. unfold run_epochs in R.
    apply bind_inv in R. destruct R as ([] & t1 & _ & R).
    apply bind_inv in R. destruct R as ([] & t2 & _ & R).
    apply bind_inv in R. destruct R as ([[f o] sch] & t3 & R & _).
    apply prepare_ok in R. tauto. }
  destruct Plan as [Hc Ho].
  split; [exact Hc|]. split; [exact Ho|]. split.
  - intros N.
    pose proof (quiet_run_epochs self mdl num_epochs lr wd gm s) as Q.
    rewrite H1 in Q. simpl in Q. destruct Q as (P1 & _).
    rewrite (save_checkpoint_none s1) in H2 by congruence. discriminate.
  - intros Hn.
    pose proof (run_epochs_ok _ _ _ _ _ _ _ _ _ H1) as R.
    destruct R as (_ & _ & _ & _ & _ & N).
    destruct N as [Ne Nt]; [lia|].
    assert (B1 : 1 <= batch_per_epoch_train self) by lia.
    split; [|split; [lia|]].
    + destruct (Z.eq_dec (batch_per_epoch_train self) 1) as [E|E]; [|lia].
      pose proof (run_epochs_single_batch_not_ok self mdl num_epochs lr wd gm
                    s E Hn) as X.
      rewrite H1 in X. discriminate.
    + rewrite (run_epochs_enter _ _ _ _ _ _ _ Hc Ho) in H1.
      destruct (Z.to_nat num_epochs) as [|k] eqn:K; [lia|].
      cbn [for_range] in H1. apply bind_inv in H1.
      destruct H1 as (loc1 & t1 & E & _).
      unfold epoch_body in E. apply bind_inv in E.
      destruct E as (loc2 & t2 & E & _).
      destruct (first_training_step _ _ _ _ _ _ _ _ E B1) as [D _].
      exact D.
Qed.

(** X6: with no epoch to run ([num_epochs <= 0]) and a valid plan, [train]
    goes straight to the checkpoint step: it pulls no batch, makes no call
    on the model, leaves the model that was passed in as it is, and what it
    returns, if the checkpoint step succeeds, are three empty histories. *)
Theorem train_without_epochs self mdl num_epochs lr wd gm (s : State) :
  criterator self = "cel" ->
  recognised_optimizer (optimizer_type self) = true ->
  num_epochs <= 0 ->
  let r := train self mdl num_epochs lr wd gm s in
  (forall res, fst r = Ok res -> exists path, res = ([], [], [], path)) /\
  model (snd r) = mdl /\
  train_generator (snd r) = train_generator s /\
  test_generator (snd r) = test_generator s /\
  exists t, trace (snd r) = (trace (loop_entry self mdl lr wd gm s) ++ t)%list
            /\ marks t = [].
Proof.
  intros Hc Ho Hn r. unfold r, train.
  pose proof (run_epochs_enter self mdl num_epochs lr wd gm s Hc Ho) as E.
  replace (Z.to_nat num_epochs) with 0%nat in E by lia.
  cbn [for_range] in E. unfold ret in E.
  rewrite (bind_ok _ _ _ _ _ E). clear E.
  set (s0 := loop_entry self mdl lr wd gm s).
  pose proof (keeps_save_checkpoint s0) as (K1 & K2 & K3).
  pose proof (unmarked_save_checkpoint s0) as (t & T & Mk).
  unfold bind.
  destruct (save_checkpoint s0) as [[p|e] s1]; simpl in *.
  - split; [intros res E; injection E as <-; now exists p|].
    split; [exact K1|]. split; [exact K2|]. split; [exact K3|].
    now exists t.
  - split; [intros res E; discriminate|].
    split; [exact K1|]. split; [exact K2|]. split; [exact K3|].
    now exists t.
Qed.

End Returns.

(** ** The validation phase only reads *)

Section ReadOnly.

Context {C : Capabilities}.

Lemma reads_only_refl (s : State) : reads_only s s.
Proof.
  repeat split. exists []. split; [now rewrite app_nil_r | reflexivity].
Qed.

Lemma reads_only_trans (a b c : State) :
  reads_only a b -> reads_only b c -> reads_only a c.
Proof.
  intros (M1 & G1 & t1 & T1 & E1) (M2 & G2 & t2 & T2 & E2).
  repeat split; try congruence.
  exists (t1 ++ t2)%list. split.
  - rewrite T2, T1. now rewrite app_assoc.
  - rewrite existsb_app, E1, E2. reflexivity.
Qed.

Lemma reads_only_emit (e : Event) :
  is_update e = false -> always reads_only (emit e).
Proof.
  intros He s. repeat split. exists [e]. split; [reflexivity|].
  simpl. now rewrite He.
Qed.

Lemma reads_only_modify (f : State -> State) :
  (forall s, model (f s) = model s) ->
  (forall s, train_generator (f s) = train_generator s) ->
  (forall s, trace (f s) = trace s) ->
  always reads_only (modify f).
Proof.
  intros Hm Hg Ht s. simpl. repeat split; auto.
  exists []. rewrite Ht, app_nil_r. auto.
Qed.

Lemma reads_only_bind {A B} (m : M State A) (k : A -> M State B) :
  always reads_only m -> (forall a, always reads_only (k a)) ->
  always reads_only (bind m k).
Proof. apply always_bind. apply reads_only_trans. Qed.

Ltac reads_only_step :=
  first
    [ apply reads_only_emit; reflexivity
    | apply reads_only_modify; reflexivity
    | apply always_ret, reads_only_refl
    | apply always_raise, reads_only_refl
    | apply always_gets, reads_only_refl
    | apply always_lift, reads_only_refl
    | apply reads_only_bind; [|intros] ].

Lemma reads_only_eval_step idx v : always reads_only (eval_step idx v).
Proof.
  unfold eval_step, next_test, self_device. destruct v as [loc [c t]].
  reads_only_step.
  { reads_only_step; [reads_only_step|].
    destruct a; repeat reads_only_step. }
  reads_only_step.
  { reads_only_step; [reads_only_step|].
    destruct a0; repeat reads_only_step. }
  repeat reads_only_step.
Qed.

Lemma reads_only_eval_loop n idx v :
  always reads_only (for_range n idx eval_step v).
Proof.
  apply always_for_range;
    [apply reads_only_refl | apply reads_only_trans
     | intros; apply reads_only_eval_step].
Qed.

Lemma reads_only_eval_rest self epoch num_epochs loc :
  always reads_only
    (emit (Print MsgValidating) ;;
     v <- for_range (Z.to_nat (batch_per_epoch_eval self)) 0
                    eval_step (loc, (0%Q, 0%Q)) ;;
     let '(loc, (correct_prediction, total)) := v : Locals * (Q * Q) in
     r <- lift (fdiv correct_prediction total) ;;
     emit (Print (MsgValidationAccuracy epoch num_epochs r)) ;;
     ret loc)%py.
Proof.
  reads_only_step; [reads_only_step|].
  reads_only_step; [apply reads_only_eval_loop|].
  destruct a0 as [loc1 [c t]]. repeat reads_only_step.
Qed.

Lemma eval_phase_reads_only self epoch num_epochs loc (s : State) :
  let s' := snd (eval_phase self epoch num_epochs loc s) in
  model s' = model_train false (model s) /\
  train_generator s' = train_generator s /\
  exists t, trace s' = (trace s ++ t)%list /\ existsb is_update t = false.
Proof.
  intros s'. unfold s', eval_phase, on_model.
  erewrite bind_ok by reflexivity.
  set (s1 := set_trace
               (trace (set_model (model_train false (model s)) s)
                  ++ [ModelTrain false])
               (set_model (model_train false (model s)) s)).
  destruct (reads_only_eval_rest self epoch num_epochs loc s1)
    as (Mo & G & t & T & U).
  split; [exact Mo|]. split; [exact G|].
  exists ([ModelTrain false] ++ t)%list. split.
  - rewrite T. unfold s1. simpl. now rewrite <- app_assoc.
  - simpl. exact U.
Qed.

(** X7: the validation phase only reads, whatever its outcome: the model
    object is the one it found, switched to evaluation mode and nothing
    else; the training source is untouched; and the phase makes no
    [zero_grad], no backward pass and no optimizer step. *)
Theorem validation_only_reads self epoch num_epochs loc (s : State) :
  let s' := snd (eval_phase self epoch num_epochs loc s) in
  model s' = model_train false (model s) /\
  train_generator s' = train_generator s /\
  exists t, trace s' = (trace s ++ t)%list /\ existsb is_update t = false.
Proof. apply eval_phase_reads_only. Qed.

End ReadOnly.

(** ** What a call takes from the batch sources *)

Section Consumption.

Context {C : Capabilities}.

Lemma train_loop_consumes criteration n :
  forall idx v (s : State) v' s',
    for_range n idx (train_step criteration) v s = (Ok v', s') ->
    exists bs, List.length bs = n
               /\ train_generator s = (bs ++ train_generator s')%list.
Proof.
  induction n as [|n IH]; intros idx [loc r] s v' s' H.
  - cbn [for_range] in H. injection H as _ <-. now exists [].
  - cbn [for_range] in H. apply bind_inv in H.
    destruct H as ([loc1 r1] & s1 & H1 & H2).
    apply train_step_ok in H1.
    destruct H1 as (b & g & d & Hg & _ & _ & _ & Hs).
    apply IH in H2. destruct H2 as (bs & L & G).
    exists (b :: bs). split; [simpl; now f_equal|].
    rewrite Hg. subst s1. simpl in G. rewrite G. reflexivity.
Qed.

Lemma train_phase_consumes self criteration epoch num_epochs loc (s : State)
    loc' s' :
  train_phase self criteration epoch num_epochs loc s = (Ok loc', s') ->
  exists bt,
    List.length bt = Z.to_nat (batch_per_epoch_train self) /\
    train_generator s = (bt ++ train_generator s')%list /\
    test_generator s' = test_generator s.
Proof.
  intros H.
  pose proof (train_phase_ok _ _ _ _ _ _ _ _ H) as T.
  destruct T as (ls & accs & idx0 & avg0 & _ & _ & _ & _ & _ & _ & _ & _ & _
                 & _ & Gt).
  unfold train_phase in H.
  apply bind_inv in H. destruct H as ([] & t1 & A1 & H).
  apply bind_inv in H. destruct H as ([] & t2 & A2 & H).
  apply bind_inv in H. destruct H as ([loc3 r3] & t3 & A3 & H).
  apply bind_inv in H. destruct H as (idx & t4 & A4 & H).
  apply bind_inv in H. destruct H as (avg & t5 & A5 & H).
  apply bind_inv in H. destruct H as ([] & t6 & A6 & H).
  injection H as _ Es. subst s'.
  apply train_loop_consumes in A3. destruct A3 as (bt & Lt & Gtr).
  unfold local in A4. destruct (i loc3); [|discriminate].
  injection A4 as _ <-. unfold lift in A5. injection A5 as _ <-.
  inversion A1; subst t1. inversion A2; subst t2. inversion A6; subst t6.
  simpl in *.
  exists bt. repeat split; assumption.
Qed.

(** The batches an epoch takes: [batch_per_epoch_train] from the training
    source and [batch_per_epoch_eval] from the validation source. *)
Lemma epoch_body_consumes self criteration lr_scheduler num_epochs epoch loc
    (s : State) loc' s' :
  epoch_body self criteration lr_scheduler num_epochs epoch loc s
    = (Ok loc', s') ->
  exists bt be,
    List.length bt = Z.to_nat (batch_per_epoch_train self) /\
    List.length be = Z.to_nat (batch_per_epoch_eval self) /\
    train_generator s = (bt ++ train_generator s')%list /\
    test_generator s = (be ++ test_generator s')%list.
Proof.
  intros H. unfold epoch_body in H.
  apply bind_inv in H. destruct H as (loc1 & s1 & H1 & H).
  apply bind_inv in H. destruct H as (loc2 & s2 & H2 & H).
  apply bind_inv in H. destruct H as ([] & s3 & H3 & H).
  injection H as _ <-. inversion H3; subst s3; clear H3.
  pose proof (eval_phase_reads_only self epoch num_epochs loc1 s1) as V.
  rewrite H2 in V. simpl in V. destruct V as (_ & G2 & _).
  apply eval_phase_ok in H2. destruct H2 as (be & r & Le & Ge & _).
  apply train_phase_consumes in H1. destruct H1 as (bt & Lt & Gt & Gs).
  exists bt, be. simpl. repeat split; try assumption.
  - now rewrite G2.
  - now rewrite <- Gs.
Qed.

Lemma epochs_consume self criteration lr_scheduler num_epochs k :
  forall epoch loc (s : State) loc' s',
    for_range k epoch (epoch_body self criteration lr_scheduler num_epochs)
              loc s = (Ok loc', s') ->
    exists bt be,
      List.length bt = (k * Z.to_nat (batch_per_epoch_train self))%nat /\
      List.length be = (k * Z.to_nat (batch_per_epoch_eval self))%nat /\
      train_generator s = (bt ++ train_generator s')%list /\
      test_generator s = (be ++ test_generator s')%list.
Proof.
  induction k as [|k IH]; intros epoch loc s loc' s' H.
  - cbn [for_range] in H. injection H as _ <-. now exists [], [].
  - cbn [for_range] in H. apply bind_inv in H.
    destruct H as (loc1 & s1 & H1 & H2).
    apply epoch_body_consumes in H1.
    destruct H1 as (bt1 & be1 & Lt1 & Le1 & Gt1 & Ge1).
    apply IH in H2. destruct H2 as (bt & be & Lt & Le & Gt & Ge).
    exists (bt1 ++ bt)%list, (be1 ++ be)%list.
    rewrite !length_app, Lt1, Le1, Lt, Le.
    repeat split; try (simpl; lia).
    + now rewrite Gt1, Gt, app_assoc.
    + now rewrite Ge1, Ge, app_assoc.
Qed.

(** X8: a call of [train] that returns, for a number of epochs that is not
    negative, has taken exactly [num_epochs * batch_per_epoch_train]
    batches from the front of the training source and
    [num_epochs * batch_per_epoch_eval] from the front of the validation
    source, and leaves the rest of each source in place. *)
Theorem train_pulls_exactly self mdl num_epochs lr wd gm (s : State) res s' :
  train self mdl num_epochs lr wd gm s = (Ok res, s') ->
  0 <= num_epochs ->
  exists bt be,
    train_generator s = (bt ++ train_generator s')%list /\
    test_generator s = (be ++ test_generator s')%list /\
    Z.of_nat (List.length bt) = num_epochs * batch_per_epoch_train self /\
    Z.of_nat (List.length be) = num_epochs * batch_per_epoch_eval self.
Proof.
  intros H Hn. unfold train in H.
  apply bind_inv in H. destruct H as (loc & s1 & H1 & H).
  apply bind_inv in H. destruct H as (p & s2 & H2 & H).
  injection H as _ <-.
  pose proof (keeps_save_checkpoint s1) as K. rewrite H2 in K.
  simpl in K. destruct K as (_ & K2 & K3).
  pose proof (run_epochs_ok _ _ _ _ _ _ _ _ _ H1) as R.
  destruct R as (_ & _ & _ & _ & _ & N).
  unfold run_epochs in H1.
  apply bind_inv in H1. destruct H1 as ([] & t1 & A1 & H1).
  apply bind_inv in H1. destruct H1 as ([] & t2 & A2 & H1).
  apply bind_inv in H1. destruct H1 as ([[f o] sch] & t3 & A3 & H1).
  apply bind_inv in H1. destruct H1 as ([] & t4 & A4 & H1).
  apply prepare_ok in A3. destruct A3 as (_ & _ & _ & _ & _ & ->).
  apply epochs_consume in H1. destruct H1 as (bt & be & Lt & Le & Gt & Ge).
  inversion A1; subst t1. inversion A2; subst t2. inversion A4; subst t4.
  simpl in Gt, Ge.
  exists bt, be. rewrite K2, K3, Lt, Le.
  split; [exact Gt|]. split; [exact Ge|].
  split; apply to_nat_product; auto; intros K; now apply N.
Qed.

End Consumption.

(** ** The checkpoint step: the directory exists, or a step fails *)

Section Checkpoint.

Context {C : Capabilities}.

Lemma save_checkpoint_existing (s : State) p f2 :
  model_save_path s = Some p ->
  isdir (fs s) (dirname p) = true ->
  torch_save (model s) p (fs s) = Ok f2 ->
  save_checkpoint s
    = (Ok p,
       mkState (train_generator s) (test_generator s) (device s)
         (Some p) (model s) f2
         (trace s ++ [Print MsgTrainingFinished; Print MsgCheckingPath;
                      Print (MsgSavingAt p); Save p])).
Proof.
  intros Hp Hd Hs. unfold save_checkpoint.
  destruct s as [tg eg dv msp mo f tr]. simpl in *. subst msp.
  cbv [bind emit modify gets lift ret set_trace set_fs set_model_save_path
       train_generator test_generator device model_save_path model fs trace
       os_fspath].
  rewrite Hd. cbv [negb]. rewrite Hs.
  repeat rewrite <- app_assoc. reflexivity.
Qed.

Lemma save_checkpoint_mkdir_fails (s : State) p e :
  model_save_path s = Some p ->
  isdir (fs s) (dirname p) = false ->
  mkdir (dirname p) (fs s) = Raise e ->
  save_checkpoint s
    = (Raise e,
       set_trace (trace s ++ [Print MsgTrainingFinished; Print MsgCheckingPath;
                              Print MsgCreatingDirectory]) s).
Proof.
  intros Hp Hd Hm. unfold save_checkpoint.
  destruct s as [tg eg dv msp mo f tr]. simpl in *. subst msp.
  cbv [bind emit modify gets lift ret set_trace set_fs set_model_save_path
       train_generator test_generator device model_save_path model fs trace
       os_fspath].
  rewrite Hd. cbv [negb]. rewrite Hm.
  repeat rewrite <- app_assoc. reflexivity.
Qed.

Lemma save_checkpoint_save_fails (s : State) p f1 e :
  model_save_path s = Some p ->
  isdir (fs s) (dirname p) = false ->
  mkdir (dirname p) (fs s) = Ok f1 ->
  torch_save (model s) (dirname p ++ "/imd-sa.bin") f1 = Raise e ->
  save_checkpoint s
    = (Raise e,
       mkState (train_generator s) (test_generator s) (device s)
         (Some (dirname p ++ "/imd-sa.bin")) (model s) f1
         (trace s ++
            [Print MsgTrainingFinished; Print MsgCheckingPath;
             Print MsgCreatingDirectory; Mkdir (dirname p);
             Print (MsgSavingAt
                      (dirname (dirname p ++ "/imd-sa.bin")
                         ++ "/imdb-sa.bin"))])).
Proof.
  intros Hp Hd Hm Hs. unfold save_checkpoint.
  destruct s as [tg eg dv msp mo f tr]. simpl in *. subst msp.
  cbv [bind emit modify gets lift ret set_trace set_fs set_model_save_path
       train_generator test_generator device model_save_path model fs trace
       os_fspath].
  rewrite Hd. cbv [negb]. rewrite Hm. rewrite Hs.
  repeat rewrite <- app_assoc. reflexivity.
Qed.

(** X9: when the directory of the configured save path exists and the save
    succeeds, [train] keeps the path as configured: it makes no directory,
    announces that very path, saves the model there and returns it with
    the histories. *)
Theorem train_keeps_path_when_directory_exists self mdl num_epochs lr wd gm
    (s : State) loc s1 p f2 :
  run_epochs self mdl num_epochs lr wd gm s = (Ok loc, s1) ->
  model_save_path s = Some p ->
  isdir (fs s) (dirname p) = true ->
  torch_save (model s1) p (fs s) = Ok f2 ->
  let r := train self mdl num_epochs lr wd gm s in
  fst r = Ok (train_loss loc, train_acc loc, test_acc loc, p) /\
  model_save_path (snd r) = Some p /\
  fs (snd r) = f2 /\
  trace (snd r)
    = (trace s1 ++ [Print MsgTrainingFinished; Print MsgCheckingPath;
                    Print (MsgSavingAt p); Save p])%list.
Proof.
  intros H Hp Hd Hs r.
  pose proof (quiet_run_epochs self mdl num_epochs lr wd gm s) as Q.
  rewrite H in Q. simpl in Q. destruct Q as (P1 & F1 & _).
  pose proof (save_checkpoint_existing s1 p f2) as E.
  rewrite P1, F1 in E. specialize (E Hp Hd Hs).
  unfold r, train. rewrite (bind_ok _ _ _ _ _ H).
  rewrite (bind_ok _ _ _ _ _ E). simpl. repeat split.
Qed.

(** X10: when the directory is missing and [os.mkdir] raises, [train]
    raises that error after the epochs have run: the histories are lost,
    nothing is saved, and the save path and the file system are as they
    were. *)
Theorem train_fails_when_mkdir_fails self mdl num_epochs lr wd gm
    (s : State) loc s1 p e :
  run_epochs self mdl num_epochs lr wd gm s = (Ok loc, s1) ->
  model_save_path s = Some p ->
  isdir (fs s) (dirname p) = false ->
  mkdir (dirname p) (fs s) = Raise e ->
  let r := train self mdl num_epochs lr wd gm s in
  fst r = Raise e /\
  model_save_path (snd r) = Some p /\
  fs (snd r) = fs s /\
  trace (snd r)
    = (trace s1 ++ [Print MsgTrainingFinished; Print MsgCheckingPath;
                    Print MsgCreatingDirectory])%list.
Proof.
  intros H Hp Hd Hm r.
  pose proof (quiet_run_epochs self mdl num_epochs lr wd gm s) as Q.
  rewrite H in Q. simpl in Q. destruct Q as (P1 & F1 & _).
  pose proof (save_checkpoint_mkdir_fails s1 p e) as E.
  rewrite P1, F1 in E. specialize (E Hp Hd Hm).
  unfold r, train. rewrite (bind_ok _ _ _ _ _ H).
  rewrite (bind_raise _ _ _ _ _ E). simpl.
  repeat split; congruence.
Qed.

(** X11: when the directory is missing, [os.mkdir] succeeds and the save
    then raises, [train] raises that error, but leaves its marks: the
    directory stays made and [self.model_save_path] stays rewritten to
    [<directory>/imd-sa.bin], although no file was saved there. *)
Theorem train_leaves_rewritten_path_when_save_fails self mdl num_epochs
    lr wd gm (s : State) loc s1 p f1 e :
  run_epochs self mdl num_epochs lr wd gm s = (Ok loc, s1) ->
  model_save_path s = Some p ->
  isdir (fs s) (dirname p) = false ->
  mkdir (dirname p) (fs s) = Ok f1 ->
  torch_save (model s1) (dirname p ++ "/imd-sa.bin") f1 = Raise e ->
  let r := train self mdl num_epochs lr wd gm s in
  fst r = Raise e /\
  model_save_path (snd r) = Some (dirname p ++ "/imd-sa.bin") /\
  fs (snd r) = f1 /\
  trace (snd r)
    = (trace s1 ++
         [Print MsgTrainingFinished; Print MsgCheckingPath;
          Print MsgCreatingDirectory; Mkdir (dirname p);
          Print (MsgSavingAt
                   (dirname (dirname p ++ "/imd-sa.bin")
                      ++ "/imdb-sa.bin"))])%list.
Proof.
  intros H Hp Hd Hm Hs r.
  pose proof (quiet_run_epochs self mdl num_epochs lr wd gm s) as Q.
  rewrite H in Q. simpl in Q. destruct Q as (P1 & F1 & _).
  pose proof (save_checkpoint_save_fails s1 p f1 e) as E.
  rewrite P1, F1 in E. specialize (E Hp Hd Hm Hs).
  unfold r, train. rewrite (bind_ok _ _ _ _ _ H).
  rewrite (bind_raise _ _ _ _ _ E). simpl.
  repeat split.
Qed.

End Checkpoint.

(** ** Accuracy values *)

Section AccuracyValues.

Context {C : Capabilities}.





Lemma accuracy_valid (y_pred : list (list Q)) (y_target : list Z) :
  valid_accuracy (accuracy y_pred y_target).
Proof.
  unfold accuracy.
  destruct (tensor_eq (predicted_class y_pred) y_target) as [|b l] eqn:E.
  - exact I.
  - destruct (mean_to_float_bounds (b :: l)) as (q & Hq & B); [discriminate|].
    rewrite Hq. exact B.
Qed.

Lemma for_range_preserves {V} (I : V -> Prop) (body : Z -> V -> M State V) :
  (forall idx v s v' s', body idx v s = (Ok v', s') -> I v -> I v') ->
  forall n idx v s v' s',
    for_range n idx body v s = (Ok v', s') -> I v -> I v'.
Proof.
  intros Hb n. induction n as [|n IH]; intros idx v s v' s' H Hv.
  - cbn [for_range] in H. injection H as <- _. exact Hv.
  - cbn [for_range] in H. apply bind_inv in H.
    destruct H as (v1 & s1 & H1 & H2).
    eapply IH; [exact H2|]. eapply Hb; eauto.
Qed.

Lemma train_step_valid criteration idx v (s : State) v' s' :
  train_step criteration idx v s = (Ok v', s') ->
  histories_valid (fst v) -> histories_valid (fst v').
Proof.
  destruct v as [loc r], v' as [loc' r']. intros H [A B].
  apply train_step_ok in H. destruct H as (b & g & d & _ & _ & -> & _).
  split; simpl; [|exact B].
  apply Forall_app. split; [exact A|].
  constructor; [apply accuracy_valid | constructor].
Qed.

Lemma eval_step_valid idx v (s : State) v' s' :
  eval_step idx v s = (Ok v', s') ->
  histories_valid (fst v) -> histories_valid (fst v').
Proof.
  destruct v as [loc [c t]], v' as [loc' [c' t']]. intros H [A B].
  apply eval_step_ok in H. destruct H as (b & g & d & _ & _ & -> & _).
  split; simpl; [exact A|].
  apply Forall_app. split; [exact B|].
  constructor; [apply accuracy_valid | constructor].
Qed.

Lemma epoch_body_valid self criteration lr_scheduler num_epochs epoch loc
    (s : State) loc' s' :
  epoch_body self criteration lr_scheduler num_epochs epoch loc s
    = (Ok loc', s') ->
  histories_valid loc -> histories_valid loc'.
Proof.
  intros H V. unfold epoch_body in H.
  apply bind_inv in H. destruct H as (loc1 & s1 & H1 & H).
  apply bind_inv in H. destruct H as (loc2 & s2 & H2 & H).
  apply bind_inv in H. destruct H as ([] & s3 & H3 & H).
  injection H as <- _.
  assert (V1 : histories_valid loc1).
  { unfold train_phase in H1.
    apply bind_inv in H1. destruct H1 as ([] & t1 & A1 & H1).
    apply bind_inv in H1. destruct H1 as ([] & t2 & A2 & H1).
    apply bind_inv in H1. destruct H1 as ([loc3 r3] & t3 & A3 & H1).
    apply bind_inv in H1. destruct H1 as (idx & t4 & A4 & H1).
    apply bind_inv in H1. destruct H1 as (avg & t5 & A5 & H1).
    apply bind_inv in H1. destruct H1 as ([] & t6 & A6 & H1).
    injection H1 as <- _.
    apply (for_range_preserves (fun v => histories_valid (fst v))
             (train_step criteration) (train_step_valid criteration)
             _ _ _ _ _ _ A3 V). }
  assert (V2 : histories_valid loc2).
  { unfold eval_phase in H2.
    apply bind_inv in H2. destruct H2 as ([] & t1 & A1 & H2).
    apply bind_inv in H2. destruct H2 as ([] & t2 & A2 & H2).
    apply bind_inv in H2. destruct H2 as ([loc3 [c3 q3]] & t3 & A3 & H2).
    apply bind_inv in H2. destruct H2 as (r & t4 & A4 & H2).
    apply bind_inv in H2. destruct H2 as ([] & t5 & A5 & H2).
    injection H2 as <- _.
    apply (for_range_preserves (fun v => histories_valid (fst v))
             eval_step eval_step_valid _ _ _ _ _ _ A3 V1). }
  exact V2.
Qed.

(** X13: every value in the accuracy histories that [train] returns is an
    accuracy: nan (an empty batch) or a number between 0 and 1. *)
Theorem returned_accuracies_are_valid self mdl num_epochs lr wd gm
    (s : State) tl ta te path s' :
  train self mdl num_epochs lr wd gm s = (Ok (tl, ta, te, path), s') ->
  Forall valid_accuracy ta /\ Forall valid_accuracy te.
Proof.
  intros H. unfold train in H.
  apply bind_inv in H. destruct H as (loc & s1 & H1 & H).
  apply bind_inv in H. destruct H as (p & s2 & H2 & H).
  injection H as _ <- <- _ _.
  unfold run_epochs in H1.
  apply bind_inv in H1. destruct H1 as ([] & t1 & A1 & H1).
  apply bind_inv in H1. destruct H1 as ([] & t2 & A2 & H1).
  apply bind_inv in H1. destruct H1 as ([[f o] sch] & t3 & A3 & H1).
  apply bind_inv in H1. destruct H1 as ([] & t4 & A4 & H1).
  apply (for_range_preserves histories_valid
           (epoch_body self f sch num_epochs)
           (epoch_body_valid self f sch num_epochs) _ _ _ _ _ _ H1).
  split; constructor.
Qed.

End AccuracyValues.

(** ** The order of the actions of a call that returns *)

Section Actions.

Context {C : Capabilities}.

Lemma actions_app (a b : list Event) :
  actions (a ++ b) = (actions a ++ actions b)%list.
Proof. apply filter_app. Qed.

Lemma actions_train_blocks n :
  actions (List.concat (repeat train_block n))
    = List.concat (repeat train_block n).
Proof.
  induction n as [|n IH]; [reflexivity|].
  change (List.concat (repeat train_block (Datatypes.S n)))
    with (train_block ++ List.concat (repeat train_block n))%list.
  rewrite actions_app, IH. reflexivity.
Qed.

Lemma actions_eval_blocks n :
  actions (List.concat (repeat eval_block n))
    = List.concat (repeat eval_block n).
Proof.
  induction n as [|n IH]; [reflexivity|].
  change (List.concat (repeat eval_block (Datatypes.S n)))
    with (eval_block ++ List.concat (repeat eval_block n))%list.
  rewrite actions_app, IH. reflexivity.
Qed.

Lemma epoch_body_actions self criteration lr_scheduler num_epochs epoch loc
    (s : State) loc' s' :
  epoch_body self criteration lr_scheduler num_epochs epoch loc s
    = (Ok loc', s') ->
  exists t,
    trace s' = (trace s ++ t)%list /\
    actions t = epoch_actions (Z.to_nat (batch_per_epoch_train self))
                              (Z.to_nat (batch_per_epoch_eval self)).
Proof.
  intros H. unfold epoch_body in H.
  apply bind_inv in H. destruct H as (loc1 & s1 & H1 & H).
  apply bind_inv in H. destruct H as (loc2 & s2 & H2 & H).
  apply bind_inv in H. destruct H as ([] & s3 & H3 & H).
  injection H as _ <-. inversion H3; subst s3; clear H3.
  apply train_phase_ok in H1.
  destruct H1 as (ls & accs & idx & avg & _ & _ & _ & _ & _ & _ & _ & _ & _
                  & Tr1 & _).
  apply eval_phase_ok in H2.
  destruct H2 as (bs & r & _ & _ & _ & _ & _ & _ & _ & _ & Tr2).
  eexists. split.
  - simpl. rewrite Tr2, Tr1. repeat rewrite <- app_assoc. reflexivity.
  - rewrite !actions_app, actions_train_blocks, actions_eval_blocks.
    reflexivity.
Qed.

Lemma epochs_actions self criteration lr_scheduler num_epochs k :
  forall epoch loc (s : State) loc' s',
    for_range k epoch (epoch_body self criteration lr_scheduler num_epochs)
              loc s = (Ok loc', s') ->
    exists t,
      trace s' = (trace s ++ t)%list /\
      actions t = List.concat
                    (repeat (epoch_actions
                               (Z.to_nat (batch_per_epoch_train self))
                               (Z.to_nat (batch_per_epoch_eval self))) k).
Proof.
  induction k as [|k IH]; intros epoch loc s loc' s' H.
  - cbn [for_range] in H. injection H as _ <-.
    exists []. now rewrite app_nil_r.
  - cbn [for_range] in H. apply bind_inv in H.
    destruct H as (loc1 & s1 & H1 & H2).
    apply epoch_body_actions in H1. destruct H1 as (t1 & T1 & A1).
    apply IH in H2. destruct H2 as (t2 & T2 & A2).
    exists (t1 ++ t2)%list. split.
    + now rewrite T2, T1, app_assoc.
    + rewrite actions_app, A1, A2. reflexivity.
Qed.

Lemma save_checkpoint_actions (s : State) path s' :
  save_checkpoint s = (Ok path, s') ->
  exists t,
    trace s' = (trace s ++ t)%list /\
    (actions t = [Save path]
     \/ exists d, path = d ++ "/imd-sa.bin"
                  /\ actions t = [Mkdir d; Save path]).
Proof.
  unfold save_checkpoint.
  destruct s as [tg eg dv msp mo f tr].
  cbv [bind emit modify gets lift ret set_trace set_fs set_model_save_path
       train_generator test_generator device model_save_path model fs trace].
  destruct (os_fspath msp) as [p|e]; [|discriminate].
  destruct (negb (isdir f (dirname p))).
  - destruct (mkdir (dirname p) f) as [f1|e]; [|discriminate].
    destruct (torch_save mo (dirname p ++ "/imd-sa.bin") f1);
      [|discriminate].
    intros H. injection H as <- <-.
    eexists. split; [repeat rewrite <- app_assoc; reflexivity|].
    right. exists (dirname p). split; reflexivity.
  - destruct (torch_save mo p f); [|discriminate].
    intros H. injection H as <- <-.
    eexists. split; [repeat rewrite <- app_assoc; reflexivity|].
    left. reflexivity.
Qed.

(** X14: the actions of a call of [train] that returns, prints set aside,
    in order: the optimizer and the scheduler are built; then, for each
    epoch, the switch to training mode, for each training batch the pull,
    [zero_grad], the forward pass, the backward pass and the optimizer
    step, the switch to evaluation mode, for each validation batch the pull
    and the forward pass, and the scheduler step; and last the checkpoint,
    one save at the returned path, after making the directory when the
    path was rewritten. *)
Theorem train_actions_in_order self mdl num_epochs lr wd gm (s : State)
    tl ta te path s' :
  train self mdl num_epochs lr wd gm s = (Ok (tl, ta, te, path), s') ->
  exists t checkpoint,
    trace s' = (trace s ++ t)%list /\
    actions t
      = ([NewOptimizer (plan_optimizer self lr wd);
          NewScheduler {| gamma := gm |}]
           ++ List.concat
                (repeat (epoch_actions
                           (Z.to_nat (batch_per_epoch_train self))
                           (Z.to_nat (batch_per_epoch_eval self)))
                        (Z.to_nat num_epochs))
           ++ checkpoint)%list /\
    (checkpoint = [Save path]
     \/ exists d, path = d ++ "/imd-sa.bin"
                  /\ checkpoint = [Mkdir d; Save path]).
Proof.
  intros H. unfold train in H.
  apply bind_inv in H. destruct H as (loc & s1 & H1 & H).
  apply bind_inv in H. destruct H as (p & s2 & H2 & H).
  injection H as _ _ _ <- <-.
  assert (Plan : criterator self = "cel"
                 /\ recognised_optimizer (optimizer_type self) = true).
  { pose proof H1 as R. unfold run_epochs in R.
    apply bind_inv in R. destruct R as ([] & t1 & _ & R).
    apply bind_inv in R. destruct R as ([] & t2 & _ & R).
    apply bind_inv in R. destruct R as ([[f o] sch] & t3 & R & _).
    apply prepare_ok in R. tauto. }
  destruct Plan as [Hc Ho].
  rewrite (run_epochs_enter _ _ _ _ _ _ _ Hc Ho) in H1.
  apply epochs_actions in H1. destruct H1 as (t1 & T1 & A1).
  apply save_checkpoint_actions in H2. destruct H2 as (t2 & T2 & A2).
  exists ([Print MsgPreparingPlan; NewOptimizer (plan_optimizer self lr wd);
           NewScheduler {| gamma := gm |}; Print MsgInitialised]
            ++ t1 ++ t2)%list, (actions t2).
  split; [|split].
  - rewrite T2, T1. unfold loop_entry. simpl.
    repeat rewrite <- app_assoc. reflexivity.
  - rewrite !actions_app, A1. reflexivity.
  - exact A2.
Qed.

End Actions.

(** ** The device attribute *)

Section Device.

Context {C : Capabilities}.























End Device.

(** ** The histories only grow *)

Section Growth.

Context {C : Capabilities}.

Lemma extends_refl (a : Locals) : extends a a.
Proof. repeat split; exists []; now rewrite app_nil_r. Qed.

Lemma extends_trans (a b c : Locals) : extends a b -> extends b c -> extends a c.
Proof.
  intros ((l1 & A1) & (l2 & A2) & (l3 & A3)) ((m1 & B1) & (m2 & B2) & (m3 & B3)).
  repeat split.
  - exists (l1 ++ m1)%list. now rewrite B1, A1, app_assoc.
  - exists (l2 ++ m2)%list. now rewrite B2, A2, app_assoc.
  - exists (l3 ++ m3)%list. now rewrite B3, A3, app_assoc.
Qed.

Lemma for_range_extends {V} (proj : V -> Locals) (body : Z -> V -> M State V) :
  (forall idx v s v' s', body idx v s = (Ok v', s') ->
                         extends (proj v) (proj v')) ->
  forall n idx v s v' s',
    for_range n idx body v s = (Ok v', s') -> extends (proj v) (proj v').
Proof.
  intros Hb n. induction n as [|n IH]; intros idx v s v' s' H.
  - cbn [for_range] in H. injection H as <- _. apply extends_refl.
  - cbn [for_range] in H. apply bind_inv in H.
    destruct H as (v1 & s1 & H1 & H2).
    eapply extends_trans; [eapply Hb; exact H1 | eapply IH; exact H2].
Qed.

Lemma train_step_extends criteration idx v (s : State) v' s' :
  train_step criteration idx v s = (Ok v', s') -> extends (fst v) (fst v').
Proof.
  destruct v as [loc r], v' as [loc' r']. intros H.
  apply train_step_ok in H. destruct H as (b & g & d & _ & _ & -> & _).
  repeat split; simpl; eexists; try reflexivity.
  now rewrite app_nil_r.
Qed.

Lemma eval_step_extends idx v (s : State) v' s' :
  eval_step idx v s = (Ok v', s') -> extends (fst v) (fst v').
Proof.
  destruct v as [loc [c t]], v' as [loc' [c' t']]. intros H.
  apply eval_step_ok in H. destruct H as (b & g & d & _ & _ & -> & _).
  repeat split; simpl; eexists; try reflexivity;
    now rewrite app_nil_r.
Qed.

Lemma epoch_body_extends self criteration lr_scheduler num_epochs epoch loc
    (s : State) loc' s' :
  epoch_body self criteration lr_scheduler num_epochs epoch loc s
    = (Ok loc', s') ->
  extends loc loc'.
Proof.
  intros H. unfold epoch_body in H.
  apply bind_inv in H. destruct H as (loc1 & s1 & H1 & H).
  apply bind_inv in H. destruct H as (loc2 & s2 & H2 & H).
  apply bind_inv in H. destruct H as ([] & s3 & H3 & H).
  injection H as <- _.
  apply train_phase_ok in H1.
  destruct H1 as (ls & accs & idx & avg & _ & _ & T1 & T2 & T3 & _).
  apply eval_phase_ok in H2.
  destruct H2 as (bs & r & _ & _ & E1 & E2 & E3 & _).
  repeat split; simpl.
  - exists ls. now rewrite E1, T1.
  - exists accs. now rewrite E2, T2.
  - eexists. rewrite E3, T3. reflexivity.
Qed.

(** X16: the epoch loop only appends to the three histories: after any
    number of completed epochs, each history starts with what it held
    before, unchanged and in the same order. *)
Theorem histories_only_grow self criteration lr_scheduler num_epochs k epoch
    loc (s : State) loc' s' :
  for_range k epoch (epoch_body self criteration lr_scheduler num_epochs)
            loc s = (Ok loc', s') ->
  extends loc loc'.
Proof.
  apply (for_range_extends (fun l => l)
           (epoch_body self criteration lr_scheduler num_epochs)).
  intros idx v s0 v' s0'. apply epoch_body_extends.
Qed.

Lemma eval_step_run idx loc c t (s : State) b g d :
  test_generator s = b :: g ->
  device s = Some d ->
  let pred := model_call (model s) (input_batch b) (mask_batch b) in
  eval_step idx (loc, (c, t)) s
    = (Ok (mkLocals (train_loss loc) (train_acc loc)
                    (test_acc loc ++ [accuracy pred (label_batch b)])
                    (Some idx) (optimizer loc),
           ((c + inject_Z (correct_count pred (label_batch b)))%Q,
            (t + inject_Z (Z.of_nat (List.length (input_batch b))))%Q)),
       mkState (train_generator s) g (device s) (model_save_path s)
         (model s) (fs s) (trace s ++ eval_block)).
Proof.
  destruct s as [tg eg dv msp mo f tr]. simpl. intros -> ->.
  cbv [eval_step next_test self_device emit bind gets modify ret
       raise lift set_trace set_test_generator train_generator
       test_generator device model_save_path model fs trace].
  repeat rewrite <- app_assoc. reflexivity.
Qed.

Lemma eval_loop_exhausts d :
  forall g n idx loc c t (s : State),
    test_generator s = g ->
    device s = Some d ->
    (List.length g < n)%nat ->
    exists s',
      for_range n idx eval_step (loc, (c, t)) s = (Raise StopIteration, s') /\
      test_generator s' = [] /\
      trace s' = (trace s ++ List.concat (repeat eval_block (List.length g)))%list.
Proof.
  induction g as [|b g IH]; intros n idx loc c t s Hg Hd Hn.
  - destruct n as [|n]; [simpl in Hn; lia|].
    exists s. cbn [for_range]. split; [|split].
    + apply bind_raise. destruct s as [tg eg dv msp mo f tr].
      simpl in Hg. subst eg. reflexivity.
    + exact Hg.
    + simpl. now rewrite app_nil_r.
  - destruct n as [|n]; [simpl in Hn; lia|].
    cbn [for_range].
    rewrite (bind_ok _ _ _ _ _ (eval_step_run idx loc c t s b g d Hg Hd)).
    match goal with
    | |- context [for_range n (idx + 1) _ (?l, (?c', ?t')) ?st] =>
        destruct (IH n (idx + 1) l c' t' st) as (s' & E & G & T)
    end.
    + reflexivity.
    + exact Hd.
    + simpl in Hn. lia.
    + exists s'. split; [exact E|]. split; [exact G|].
      rewrite T. simpl. now rewrite <- !app_assoc.
Qed.

(** X17: a validation phase that finds fewer batches in the validation
    source than [batch_per_epoch_eval] (the device being set) runs the
    model on each of them and then raises [StopIteration], leaving the
    source empty; the epoch accuracy is not printed. *)
Theorem validation_source_exhausted_raises self epoch num_epochs loc
    (s : State) d :
  device s = Some d ->
  Z.of_nat (List.length (test_generator s)) < batch_per_epoch_eval self ->
  let r := eval_phase self epoch num_epochs loc s in
  fst r = Raise StopIteration /\
  test_generator (snd r) = [] /\
  trace (snd r)
    = (trace s ++ [ModelTrain false; Print MsgValidating]
         ++ List.concat (repeat eval_block
                                (List.length (test_generator s))))%list.
Proof.
  intros Hd Hl r.
  set (s1 := set_trace (trace (set_model (model_train false (model s)) s)
                          ++ [ModelTrain false])
                       (set_model (model_train false (model s)) s)).
  set (s2 := set_trace (trace s1 ++ [Print MsgValidating]) s1).
  destruct (eval_loop_exhausts d (test_generator s)
              (Z.to_nat (batch_per_epoch_eval self)) 0 loc 0%Q 0%Q s2)
    as (s' & E & G & T).
  { reflexivity. }
  { exact Hd. }
  { lia. }
  assert (P : eval_phase self epoch num_epochs loc s
              = (Raise StopIteration, s')).
  { unfold eval_phase.
    erewrite bind_ok by reflexivity.
    erewrite bind_ok by reflexivity.
    now apply bind_raise. }
  unfold r. rewrite P. simpl. split; [reflexivity|]. split; [exact G|].
  rewrite T. unfold s2, s1. simpl. now rewrite <- !app_assoc.
Qed.

(** X18: the path that an earlier call rewrote is stable: when
    [self.model_save_path] is [<directory>/imd-sa.bin] for a proper
    directory name that now exists, a call whose epochs complete and whose
    save succeeds saves there again, announces that same path and returns
    it. *)
Theorem rewritten_path_is_kept self mdl num_epochs lr wd gm (s : State)
    loc s1 d f2 :
  run_epochs self mdl num_epochs lr wd gm s = (Ok loc, s1) ->
  proper_dir d = true ->
  model_save_path s = Some (d ++ "/imd-sa.bin") ->
  isdir (fs s) d = true ->
  torch_save (model s1) (d ++ "/imd-sa.bin") (fs s) = Ok f2 ->
  let r := train self mdl num_epochs lr wd gm s in
  fst r = Ok (train_loss loc, train_acc loc, test_acc loc, d ++ "/imd-sa.bin")
  /\ model_save_path (snd r) = Some (d ++ "/imd-sa.bin")
  /\ trace (snd r)
     = (trace s1 ++ [Print MsgTrainingFinished; Print MsgCheckingPath;
                     Print (MsgSavingAt (d ++ "/imd-sa.bin"));
                     Save (d ++ "/imd-sa.bin")])%list.
Proof.
  intros H Hd Hp Hi Hs r.
  pose proof (quiet_run_epochs self mdl num_epochs lr wd gm s) as Q.
  rewrite H in Q. simpl in Q. destruct Q as (P1 & F1 & _).
  pose proof (save_checkpoint_existing s1 (d ++ "/imd-sa.bin") f2) as E.
  rewrite P1, F1, (dirname_join d Hd) in E. specialize (E Hp Hi Hs).
  unfold r, train. rewrite (bind_ok _ _ _ _ _ H).
  rewrite (bind_ok _ _ _ _ _ E). simpl. repeat split.
Qed.

End Growth.

(** ** The further properties at concrete inputs *)

Lemma example_epochs_ready :
  run_epochs (C := Toy.caps) Example.ok_trainer (1 # 2)%Q 2 (1 # 1000)%Q
             (1 # 10000)%Q (1 # 10)%Q (Cases.ready "out/model.bin")
    = (Ok Example.epochs_locals, Cases.ready_epochs_state).
Proof. vm_compute. reflexivity. Qed.

Lemma example_epochs_rewritten :
  run_epochs (C := Toy.caps) Example.ok_trainer (1 # 2)%Q 2 (1 # 1000)%Q
             (1 # 10000)%Q (1 # 10)%Q (Cases.ready "out/imd-sa.bin")
    = (Ok Example.epochs_locals, Cases.rewritten_epochs_state).
Proof. vm_compute. reflexivity. Qed.

Lemma example_epochs_bare :
  run_epochs (C := Toy.caps) Example.ok_trainer (1 # 2)%Q 2 (1 # 1000)%Q
             (1 # 10000)%Q (1 # 10)%Q Cases.bare_state
    = (Ok Example.epochs_locals, Cases.bare_epochs_state).
Proof. vm_compute. reflexivity. Qed.

Lemma example_epochs_full_disk :
  run_epochs (C := Cases.full_disk) Example.ok_trainer (1 # 2)%Q 2
             (1 # 1000)%Q (1 # 10000)%Q (1 # 10)%Q Example.path_state
    = (Ok Cases.full_epochs_locals, Cases.full_epochs_state).
Proof. vm_compute. reflexivity. Qed.

Lemma example_second_epoch :
  for_range 1 2
    (epoch_body (C := Toy.caps) Example.ok_trainer CrossEntropyLoss
                Cases.scheduler 2)
    Cases.after_first_locals Cases.after_first_state
    = (Ok Cases.after_second_locals, Cases.after_second_state).
Proof. vm_compute. reflexivity. Qed.

Lemma train_without_device_raises_witness :
  let r := train (C := Toy.caps) Example.ok_trainer (1 # 2)%Q 2 (1 # 1000)%Q
                 (1 # 10000)%Q (1 # 10)%Q Cases.no_device in
  fst r = Raise (AttributeError "Trainer" "device") /\
  train_generator (snd r)
    = [Example.three_wrong; Example.mixed; Example.one_right] /\
  trace (snd r)
    = (trace (loop_entry (C := Toy.caps) Example.ok_trainer (1 # 2)%Q
                         (1 # 1000)%Q (1 # 10000)%Q (1 # 10)%Q
                         Cases.no_device)
         ++ [ModelTrain true; Print MsgTraining; NextTrain])%list.
Proof.
  refine (train_without_device_raises (C := Toy.caps) Example.ok_trainer
            (1 # 2)%Q 2 (1 # 1000)%Q (1 # 10000)%Q (1 # 10)%Q
            Cases.no_device Example.mixed
            [Example.three_wrong; Example.mixed; Example.one_right]
            eq_refl eq_refl _ _ eq_refl eq_refl); simpl; lia.
Defined.

Lemma train_without_training_batches_raises_witness :
  let r := train (C := Toy.caps) (Example.trainer 0 2 "cel" "adamw")
                 (1 # 2)%Q 2 (1 # 1000)%Q (1 # 10000)%Q (1 # 10)%Q
                 Example.path_state in
  fst r = Raise (UnboundLocalError "i") /\
  train_generator (snd r) = train_generator Example.path_state /\
  test_generator (snd r) = test_generator Example.path_state /\
  trace (snd r)
    = (trace (loop_entry (C := Toy.caps) (Example.trainer 0 2 "cel" "adamw")
                         (1 # 2)%Q (1 # 1000)%Q (1 # 10000)%Q (1 # 10)%Q
                         Example.path_state)
         ++ [ModelTrain true; Print MsgTraining])%list.
Proof.
  refine (train_without_training_batches_raises (C := Toy.caps)
            (Example.trainer 0 2 "cel" "adamw")
            (1 # 2)%Q 2 (1 # 1000)%Q (1 # 10000)%Q (1 # 10)%Q
            Example.path_state eq_refl eq_refl _ _); simpl; lia.
Defined.

Lemma train_source_exhausted_raises_witness :
  let r := train (C := Toy.caps) (Example.trainer 5 2 "cel" "adamw")
                 (1 # 2)%Q 2 (1 # 1000)%Q (1 # 10000)%Q (1 # 10)%Q
                 Example.path_state in
  fst r = Raise StopIteration /\
  train_generator (snd r) = [] /\
  trace (snd r)
    = (trace (loop_entry (C := Toy.caps) (Example.trainer 5 2 "cel" "adamw")
                         (1 # 2)%Q (1 # 1000)%Q (1 # 10000)%Q (1 # 10)%Q
                         Example.path_state)
         ++ [ModelTrain true; Print MsgTraining]
         ++ List.concat
              (repeat train_block
                      (List.length (train_generator Example.path_state))))%list.
Proof.
  refine (train_source_exhausted_raises (C := Toy.caps)
            (Example.trainer 5 2 "cel" "adamw")
            (1 # 2)%Q 2 (1 # 1000)%Q (1 # 10000)%Q (1 # 10)%Q
            Example.path_state "cpu" eq_refl eq_refl _ eq_refl _);
    simpl; lia.
Defined.

Lemma train_without_validation_batches_never_returns_witness :
  is_ok (fst (train (C := Toy.caps) (Example.trainer 2 0 "cel" "adamw")
                    (1 # 2)%Q 2 (1 # 1000)%Q (1 # 10000)%Q (1 # 10)%Q
                    Example.path_state)) = false /\
  fst (eval_phase (C := Toy.caps) (Example.trainer 2 0 "cel" "adamw") 1 2
                  Example.trained_locals Example.trained_state)
    = Raise ZeroDivisionError.
Proof.
  destruct (train_without_validation_batches_never_returns (C := Toy.caps)
              (Example.trainer 2 0 "cel" "adamw")
              (1 # 2)%Q 2 (1 # 1000)%Q (1 # 10000)%Q (1 # 10)%Q
              Example.path_state)
    as [H1 H2].
  - lia.
  - simpl. lia.
  - split; [exact H1|].
    exact (proj1 (H2 1 Example.trained_locals Example.trained_state)).
Defined.

Lemma train_returns_only_if_witness :
  criterator Example.ok_trainer = "cel" /\
  recognised_optimizer (optimizer_type Example.ok_trainer) = true /\
  model_save_path Example.path_state <> None /\
  (1 <= 2 ->
   2 <= batch_per_epoch_train Example.ok_trainer /\
   1 <= batch_per_epoch_eval Example.ok_trainer /\
   device Example.path_state <> None).
Proof.
  exact (train_returns_only_if (C := Toy.caps) Example.ok_trainer
           (1 # 2)%Q 2 (1 # 1000)%Q (1 # 10000)%Q (1 # 10)%Q
           Example.path_state _ _ example_run).
Defined.

Lemma train_without_epochs_witness :
  let r := train (C := Toy.caps) Example.ok_trainer (1 # 2)%Q 0 (1 # 1000)%Q
                 (1 # 10000)%Q (1 # 10)%Q Example.path_state in
  (forall res, fst r = Ok res -> exists path, res = ([], [], [], path)) /\
  model (snd r) = (1 # 2)%Q /\
  train_generator (snd r) = train_generator Example.path_state /\
  test_generator (snd r) = test_generator Example.path_state /\
  exists t,
    trace (snd r)
      = (trace (loop_entry (C := Toy.caps) Example.ok_trainer (1 # 2)%Q
                           (1 # 1000)%Q (1 # 10000)%Q (1 # 10)%Q
                           Example.path_state) ++ t)%list
    /\ marks t = [].
Proof.
  refine (train_without_epochs (C := Toy.caps) Example.ok_trainer
            (1 # 2)%Q 0 (1 # 1000)%Q (1 # 10000)%Q (1 # 10)%Q
            Example.path_state eq_refl eq_refl _); lia.
Defined.

Lemma train_pulls_exactly_witness :
  exists bt be,
    train_generator Example.path_state
      = (bt ++ train_generator Example.final_state)%list /\
    test_generator Example.path_state
      = (be ++ test_generator Example.final_state)%list /\
    Z.of_nat (List.length bt) = 2 * batch_per_epoch_train Example.ok_trainer /\
    Z.of_nat (List.length be) = 2 * batch_per_epoch_eval Example.ok_trainer.
Proof.
  refine (train_pulls_exactly (C := Toy.caps) Example.ok_trainer
            (1 # 2)%Q 2 (1 # 1000)%Q (1 # 10000)%Q (1 # 10)%Q
            Example.path_state _ _ example_run _); lia.
Defined.

Lemma train_keeps_path_when_directory_exists_witness :
  let r := train (C := Toy.caps) Example.ok_trainer (1 # 2)%Q 2 (1 # 1000)%Q
                 (1 # 10000)%Q (1 # 10)%Q (Cases.ready "out/model.bin") in
  fst r = Ok (train_loss Example.epochs_locals,
              train_acc Example.epochs_locals,
              test_acc Example.epochs_locals, "out/model.bin") /\
  model_save_path (snd r) = Some "out/model.bin" /\
  fs (snd r) = {| Toy.dirs := ["out"]; Toy.files := ["out/model.bin"] |} /\
  trace (snd r)
    = (trace Cases.ready_epochs_state
         ++ [Print MsgTrainingFinished; Print MsgCheckingPath;
             Print (MsgSavingAt "out/model.bin");
             Save "out/model.bin"])%list.
Proof.
  exact (train_keeps_path_when_directory_exists (C := Toy.caps)
           Example.ok_trainer (1 # 2)%Q 2 (1 # 1000)%Q (1 # 10000)%Q
           (1 # 10)%Q (Cases.ready "out/model.bin") Example.epochs_locals
           Cases.ready_epochs_state "out/model.bin"
           {| Toy.dirs := ["out"]; Toy.files := ["out/model.bin"] |}
           example_epochs_ready eq_refl eq_refl eq_refl).
Defined.

Lemma train_fails_when_mkdir_fails_witness :
  let r := train (C := Toy.caps) Example.ok_trainer (1 # 2)%Q 2 (1 # 1000)%Q
                 (1 # 10000)%Q (1 # 10)%Q Cases.bare_state in
  fst r = Raise (OSError "No such file or directory") /\
  model_save_path (snd r) = Some "model.bin" /\
  fs (snd r) = fs Cases.bare_state /\
  trace (snd r)
    = (trace Cases.bare_epochs_state
         ++ [Print MsgTrainingFinished; Print MsgCheckingPath;
             Print MsgCreatingDirectory])%list.
Proof.
  exact (train_fails_when_mkdir_fails (C := Toy.caps)
           Example.ok_trainer (1 # 2)%Q 2 (1 # 1000)%Q (1 # 10000)%Q
           (1 # 10)%Q Cases.bare_state Example.epochs_locals
           Cases.bare_epochs_state "model.bin"
           (OSError "No such file or directory")
           example_epochs_bare eq_refl eq_refl eq_refl).
Defined.

Lemma train_leaves_rewritten_path_when_save_fails_witness :
  let r := train (C := Cases.full_disk) Example.ok_trainer (1 # 2)%Q 2
                 (1 # 1000)%Q (1 # 10000)%Q (1 # 10)%Q Example.path_state in
  fst r = Raise (OSError "No space left on device") /\
  model_save_path (snd r)
    = Some (dirname "out/model.bin" ++ "/imd-sa.bin") /\
  fs (snd r) = {| Toy.dirs := ["out"]; Toy.files := [] |} /\
  trace (snd r)
    = (trace Cases.full_epochs_state ++
         [Print MsgTrainingFinished; Print MsgCheckingPath;
          Print MsgCreatingDirectory; Mkdir (dirname "out/model.bin");
          Print (MsgSavingAt
                   (dirname (dirname "out/model.bin" ++ "/imd-sa.bin")
                      ++ "/imdb-sa.bin"))])%list.
Proof.
  exact (train_leaves_rewritten_path_when_save_fails (C := Cases.full_disk)
           Example.ok_trainer (1 # 2)%Q 2 (1 # 1000)%Q (1 # 10000)%Q
           (1 # 10)%Q Example.path_state Cases.full_epochs_locals
           Cases.full_epochs_state "out/model.bin"
           {| Toy.dirs := ["out"]; Toy.files := [] |}
           (OSError "No space left on device")
           example_epochs_full_disk eq_refl eq_refl eq_refl eq_refl).
Defined.


Lemma returned_accuracies_are_valid_witness :
  Forall valid_accuracy (train_acc Example.epochs_locals) /\
  Forall valid_accuracy (test_acc Example.epochs_locals).
Proof.
  exact (returned_accuracies_are_valid (C := Toy.caps) Example.ok_trainer
           (1 # 2)%Q 2 (1 # 1000)%Q (1 # 10000)%Q (1 # 10)%Q
           Example.path_state _ _ _ _ _ example_run).
Defined.

Lemma train_actions_in_order_witness :
  exists t checkpoint,
    trace Example.final_state = (trace Example.path_state ++ t)%list /\
    actions t
      = ([NewOptimizer (plan_optimizer Example.ok_trainer (1 # 1000)%Q
                                       (1 # 10000)%Q);
          NewScheduler {| gamma := (1 # 10)%Q |}]
           ++ List.concat
                (repeat (epoch_actions
                           (Z.to_nat (batch_per_epoch_train
                                        Example.ok_trainer))
                           (Z.to_nat (batch_per_epoch_eval
                                        Example.ok_trainer)))
                        (Z.to_nat 2))
           ++ checkpoint)%list /\
    (checkpoint = [Save "out/imd-sa.bin"]
     \/ exists d, "out/imd-sa.bin" = d ++ "/imd-sa.bin"
                  /\ checkpoint = [Mkdir d; Save "out/imd-sa.bin"]).
Proof.
  exact (train_actions_in_order (C := Toy.caps) Example.ok_trainer
           (1 # 2)%Q 2 (1 # 1000)%Q (1 # 10000)%Q (1 # 10)%Q
           Example.path_state _ _ _ _ _ example_run).
Defined.

Lemma histories_only_grow_witness :
  extends Cases.after_first_locals Cases.after_second_locals.
Proof.
  exact (histories_only_grow (C := Toy.caps) Example.ok_trainer
           CrossEntropyLoss Cases.scheduler 2 1 2 Cases.after_first_locals
           Cases.after_first_state _ _ example_second_epoch).
Defined.

Lemma validation_source_exhausted_raises_witness :
  let r := eval_phase (C := Toy.caps) (Example.trainer 2 5 "cel" "adamw") 1 1
                      Example.first_locals Example.path_state in
  fst r = Raise StopIteration /\
  test_generator (snd r) = [] /\
  trace (snd r)
    = (trace Example.path_state ++ [ModelTrain false; Print MsgValidating]
         ++ List.concat
              (repeat eval_block
                      (List.length (test_generator Example.path_state))))%list.
Proof.
  refine (validation_source_exhausted_raises (C := Toy.caps)
            (Example.trainer 2 5 "cel" "adamw") 1 1 Example.first_locals
            Example.path_state "cpu" eq_refl _).
  simpl. lia.
Defined.

Lemma rewritten_path_is_kept_witness :
  let r := train (C := Toy.caps) Example.ok_trainer (1 # 2)%Q 2 (1 # 1000)%Q
                 (1 # 10000)%Q (1 # 10)%Q (Cases.ready "out/imd-sa.bin") in
  fst r = Ok (train_loss Example.epochs_locals,
              train_acc Example.epochs_locals,
              test_acc Example.epochs_locals, "out" ++ "/imd-sa.bin")
  /\ model_save_path (snd r) = Some ("out" ++ "/imd-sa.bin")
  /\ trace (snd r)
     = (trace Cases.rewritten_epochs_state
          ++ [Print MsgTrainingFinished; Print MsgCheckingPath;
              Print (MsgSavingAt ("out" ++ "/imd-sa.bin"));
              Save ("out" ++ "/imd-sa.bin")])%list.
Proof.
  exact (rewritten_path_is_kept (C := Toy.caps) Example.ok_trainer
           (1 # 2)%Q 2 (1 # 1000)%Q (1 # 10000)%Q (1 # 10)%Q
           (Cases.ready "out/imd-sa.bin") Example.epochs_locals
           Cases.rewritten_epochs_state "out"
           {| Toy.dirs := ["out"]; Toy.files := ["out/imd-sa.bin"] |}
           example_epochs_rewritten eq_refl eq_refl eq_refl eq_refl).
Defined.
